(** * FLY-EVAL++ : a shallow embedding of the evaluation pipeline

    This development embeds the evidence pipeline of the
    [fly_eval_plus_plus] package: the six verifiers of the verifier
    graph, the rule based evaluator agent, the deterministic
    (rubric aligned) fusion and the per-sample driver
    [FLYEvalPlusPlus.evaluate_sample], and checks the properties the
    specification states about them.

    Modelling conventions.
    - A Python [float] is a [pyfloat]: a rational (exact arithmetic, no
      rounding and no overflow) or one of [inf], [-inf], [nan], with the
      IEEE rules for the three special values.
    - A parsed JSON value is a [value]; a JSON object used as a
      dictionary is a [gmap string value].
    - Library code that the package calls but does not define
      ([float] on a string, [json.loads], the two regular expressions of
      the parser, [** 0.5], [math.atan2], [hashlib.sha256]) is collected
      in the class [PyBuiltins]; every definition is parametric in it.
    - A verifier's [verify] runs in the monad [Run]: the state is the
      verifier's [evidence_counter] and the [evidence] list being built,
      the outcome is a value or a raised [ValueError]/[TypeError].
    - The f-string of an atom's [message] is kept as the list of its
      pieces ([MsgPart]); rendering to text is not modelled. *)

From Stdlib Require Import QArith Qabs Qminmax String Ascii List Bool Lia ZArith DecimalString DecimalNat Sorted Lqa.
From stdpp Require Import gmap strings list fin_maps.

Open Scope Q_scope.

(* ===================================================================== *)
(** * Python floats                                                       *)
(* ===================================================================== *)

Inductive pyfloat : Type :=
  | Fin (q : Q)
  | PInf
  | NInf
  | NaN.

Definition Qltb (x y : Q) : bool :=
  match x ?= y with Lt => true | _ => false end.

Definition Qleb (x y : Q) : bool :=
  match x ?= y with Gt => false | _ => true end.

Definition Qeqb (x y : Q) : bool :=
  match x ?= y with Eq => true | _ => false end.

(** [a < b] on floats; every comparison with [nan] is false. *)
Definition fltb (a b : pyfloat) : bool :=
  match a, b with
  | NaN, _ | _, NaN => false
  | Fin x, Fin y => Qltb x y
  | Fin _, PInf => true
  | Fin _, NInf => false
  | PInf, _ => false
  | NInf, NInf => false
  | NInf, _ => true
  end.

Definition fgtb (a b : pyfloat) : bool := fltb b a.

(** [a <= b] on floats. *)
Definition fleb (a b : pyfloat) : bool :=
  match a, b with
  | NaN, _ | _, NaN => false
  | Fin x, Fin y => Qleb x y
  | Fin _, PInf => true
  | Fin _, NInf => false
  | PInf, PInf => true
  | PInf, _ => false
  | NInf, _ => true
  end.

Definition fgeb (a b : pyfloat) : bool := fleb b a.

Definition fneg (a : pyfloat) : pyfloat :=
  match a with
  | Fin x => Fin (- x)
  | PInf => NInf
  | NInf => PInf
  | NaN => NaN
  end.

Definition fadd (a b : pyfloat) : pyfloat :=
  match a, b with
  | NaN, _ | _, NaN => NaN
  | Fin x, Fin y => Fin (x + y)
  | PInf, NInf | NInf, PInf => NaN
  | PInf, _ | _, PInf => PInf
  | NInf, _ | _, NInf => NInf
  end.

Definition fsub (a b : pyfloat) : pyfloat := fadd a (fneg b).

Definition fabs (a : pyfloat) : pyfloat :=
  match a with
  | Fin x => Fin (Qabs x)
  | PInf | NInf => PInf
  | NaN => NaN
  end.

(** Sign of a float that is not [nan]: [Lt] negative, [Eq] zero, [Gt] positive. *)
Definition fsign (a : pyfloat) : comparison :=
  match a with
  | Fin x => x ?= 0
  | PInf => Gt
  | NInf => Lt
  | NaN => Eq
  end.

Definition signed_inf (s1 s2 : comparison) : pyfloat :=
  match s1, s2 with
  | Eq, _ | _, Eq => NaN
  | Gt, Gt | Lt, Lt => PInf
  | _, _ => NInf
  end.

Definition fmul (a b : pyfloat) : pyfloat :=
  match a, b with
  | NaN, _ | _, NaN => NaN
  | Fin x, Fin y => Fin (x * y)
  | _, _ => signed_inf (fsign a) (fsign b)
  end.

(** [a / b].  Python raises [ZeroDivisionError] on a zero divisor; every
    division of the package is by a non-zero constant or under a guard
    that the divisor is positive, so the zero case (here [nan]) is never
    reached. *)
Definition fdiv (a b : pyfloat) : pyfloat :=
  match a, b with
  | NaN, _ | _, NaN => NaN
  | Fin x, Fin y => if Qeqb y 0 then NaN else Fin (x / y)
  | Fin _, _ => Fin 0
  | _, Fin y => signed_inf (fsign a) (y ?= 0)
  | _, _ => NaN
  end.

(** The builtin [max(a, b)]: the first argument unless the second is
    strictly greater. *)
Definition py_max (a b : pyfloat) : pyfloat := if fgtb b a then b else a.

(** The builtin [min(a, b)]. *)
Definition py_min (a b : pyfloat) : pyfloat := if fltb b a then b else a.

Definition isnan (a : pyfloat) : bool :=
  match a with NaN => true | _ => false end.

Definition isinf (a : pyfloat) : bool :=
  match a with PInf | NInf => true | _ => false end.

(** [sum(l)] of a list of floats, from the left, starting at [0]. *)
Definition py_sum (l : list pyfloat) : pyfloat := fold_left fadd l (Fin 0).

Definition of_nat (n : nat) : pyfloat := Fin (inject_Z (Z.of_nat n)).

(* ===================================================================== *)
(** * JSON values and strings                                             *)
(* ===================================================================== *)

#[warnings="-register-all"]
Inductive value : Type :=
  | VNone
  | VBool (b : bool)
  | VNum (x : pyfloat)
  | VStr (s : string)
  | VList (l : list value)
  | VDict (kvs : list (string * value)).

Definition is_list (v : value) : bool :=
  match v with VList _ => true | _ => false end.

Definition is_none (v : option value) : bool :=
  match v with None | Some VNone => true | _ => false end.

(** [v == ""]. *)
Definition is_empty_str (v : value) : bool :=
  match v with VStr EmptyString => true | _ => false end.

(** [str.upper] on the ASCII letters. *)
Definition upper_ascii (c : ascii) : ascii :=
  let n := nat_of_ascii c in
  if (97 <=? n)%nat && (n <=? 122)%nat then ascii_of_nat (n - 32) else c.

Fixpoint upper (s : string) : string :=
  match s with
  | EmptyString => EmptyString
  | String c s' => String (upper_ascii c) (upper s')
  end.

(** [str.lower] on the ASCII letters. *)
Definition lower_ascii (c : ascii) : ascii :=
  let n := nat_of_ascii c in
  if (65 <=? n)%nat && (n <=? 90)%nat then ascii_of_nat (n + 32) else c.

Fixpoint lower (s : string) : string :=
  match s with
  | EmptyString => EmptyString
  | String c s' => String (lower_ascii c) (lower s')
  end.

Definition is_whitespace (c : ascii) : bool :=
  let n := nat_of_ascii c in
  (n =? 32)%nat || ((9 <=? n)%nat && (n <=? 13)%nat).

Fixpoint lstrip (s : string) : string :=
  match s with
  | String c s' => if is_whitespace c then lstrip s' else s
  | EmptyString => EmptyString
  end.

Fixpoint rstrip (s : string) : string :=
  match s with
  | EmptyString => EmptyString
  | String c s' =>
      match rstrip s' with
      | EmptyString => if is_whitespace c then EmptyString else String c EmptyString
      | r => String c r
      end
  end.

(** [str.strip()]. *)
Definition strip (s : string) : string := rstrip (lstrip s).

(** [needle in haystack] on strings. *)
Fixpoint contains (needle haystack : string) : bool :=
  String.prefix needle haystack ||
  match haystack with
  | EmptyString => false
  | String _ h' => contains needle h'
  end.

(** [a == b] on strings. *)
Definition string_eqb (a b : string) : bool := String.eqb a b.

(** [x in l] for a list of strings. *)
Definition str_in (x : string) (l : list string) : bool := existsb (String.eqb x) l.

(** [enumerate(l)]. *)
Definition enumerate {A : Type} (l : list A) : list (nat * A) :=
  imap (fun i x => (i, x)) l.

(** [zip] of three lists. *)
Definition zip3 {A B C : Type} (l1 : list A) (l2 : list B) (l3 : list C)
  : list (A * B * C) := zip (zip l1 l2) l3.

(** Library functions the package calls. *)
Class PyBuiltins : Type := {
  (** [float(s)] for a string [s]; [None] is [ValueError]. *)
  float_of_str : string -> option pyfloat;
  (** [x ** 0.5]. *)
  pow_half : pyfloat -> pyfloat;
  (** [math.degrees(math.atan2(y, x))]. *)
  atan2_degrees : pyfloat -> pyfloat -> pyfloat;
  (** [json.loads(s)] when [s] is the text of a JSON object; [None] is
      [JSONDecodeError] (and the JSON literal [null]).  A text that is
      another JSON value (a number, a string, an array, a boolean) is
      outside the model: the verifiers use the parsed reply as a
      dictionary. *)
  json_loads : string -> option (gmap string value);
  (** [re.findall] with the fenced code block pattern. *)
  findall_code_blocks : string -> list string;
  (** [re.findall] with the brace pattern. *)
  findall_json_objects : string -> list string;
  (** [hashlib.sha256(json.dumps(v, sort_keys=True).encode()).hexdigest()[:16]]. *)
  sha256_16 : value -> string
}.

(** [float(v)]; [None] is [ValueError] or [TypeError]. *)
Definition float_ `{!PyBuiltins} (v : value) : option pyfloat :=
  match v with
  | VNone => None
  | VBool b => Some (Fin (if b then 1 else 0))
  | VNum x => Some x
  | VStr s => float_of_str s
  | VList _ => None
  | VDict _ => None
  end.

(* ===================================================================== *)
(** * core/data_structures.py                                             *)
(* ===================================================================== *)

Inductive Severity : Type := CRITICAL | WARNING | INFO.

Inductive Scope : Type := FIELD | SAMPLE | CROSS_FIELD.

Inductive Adjudication : Type := ELIGIBLE | INELIGIBLE.

(** [Severity.value], [Adjudication.value]. *)
Definition severity_value (s : Severity) : string :=
  match s with
  | CRITICAL => "critical"
  | WARNING => "warning"
  | INFO => "info"
  end.

Definition adjudication_value (a : Adjudication) : string :=
  match a with
  | ELIGIBLE => "eligible"
  | INELIGIBLE => "ineligible"
  end.

#[global] Instance Severity_eq_dec : EqDecision Severity.
Proof. solve_decision. Defined.

(** The pieces of an f-string. *)
Inductive MsgPart : Type :=
  | Lit (s : string)
  | FmtFixed (digits : nat) (x : pyfloat)
  | FmtFloat (x : pyfloat)
  | FmtNat (n : nat)
  | FmtValue (v : value).

(** Values stored in an atom's [meta] dictionary. *)
Inductive MetaVal : Type :=
  | MStr (s : string)
  | MNum (x : pyfloat)
  | MNat (n : nat)
  | MNull
  | MStrOf (v : value)
  | MLimits (bounds : option (Q * Q))
  | MThresholds (l : list (string * pyfloat)).

Record EvidenceAtom : Type := {
  id : string;
  type : string;
  field : option string;
  pass_ : bool;
  severity : Severity;
  scope : Scope;
  message : list MsgPart;
  meta : list (string * MetaVal);
  score : option pyfloat
}.

(** [sample.gold]: the reference record under [next_second] (single
    step) or [T+1] (multi step), and the [available] flag. *)
Record Gold : Type := {
  next_second : option (gmap string value);
  T_plus_1 : option (gmap string value);
  available : bool
}.

Record Sample : Type := {
  sample_id : string;
  task_id : string;
  context : value;
  gold : Gold
}.

Record ModelOutput : Type := {
  model_name : string;
  mo_sample_id : string;
  raw_response_text : string;
  timestamp : string;
  mo_task_id : string
}.

(** [d1 or d2] on dictionaries: the first unless it is missing or empty. *)
Definition dict_or (d1 : option (gmap string value)) (d2 : gmap string value)
  : gmap string value :=
  match d1 with
  | Some d => if bool_decide (d = ∅) then d2 else d
  | None => d2
  end.

(** [sample.gold.get('next_second') or sample.gold.get('T+1', {})]. *)
Definition gold_data (s : Sample) : gmap string value :=
  dict_or (next_second (gold s)) (default ∅ (T_plus_1 (gold s))).

(** The context dictionary handed to every verifier. *)
Record Context : Type := {
  json_data : option (gmap string value);
  task_type : string;
  required_fields : list string;
  previous_predictions : gmap string (gmap string value);
  ctx_sample : Sample;
  ctx_model_output : ModelOutput
}.

(* ===================================================================== *)
(** * core/verifier_base.py                                               *)
(* ===================================================================== *)

(** The state a [verify] call works on: the verifier's run-wide
    [evidence_counter] and the local [evidence] list. *)
Record VState : Type := {
  evidence_counter : nat;
  evidence : list EvidenceAtom
}.

(** A step either finishes with a value or raises an exception; the
    state reached so far is kept in both cases. *)
Inductive outcome (A : Type) : Type :=
  | Done (a : A)
  | Raised.
Arguments Done {A} a.
Arguments Raised {A}.

(** Stateful code that may raise. *)
Definition StateExc (S A : Type) : Type := S -> outcome A * S.

#[global] Instance StateExc_ret {S : Type} : MRet (StateExc S) :=
  fun A a s => (Done a, s).

#[global] Instance StateExc_bind {S : Type} : MBind (StateExc S) :=
  fun A B f m s =>
    match m s with
    | (Done a, s') => f a s'
    | (Raised, s') => (Raised, s')
    end.

Definition raise {S A : Type} : StateExc S A := fun s => (Raised, s).

(** [try: m  except (ValueError, TypeError, IndexError): pass]. *)
Definition try_except {S : Type} (m : StateExc S unit) : StateExc S unit :=
  fun s =>
    match m s with
    | (Done a, s') => (Done a, s')
    | (Raised, s') => (Done tt, s')
    end.

(** A conversion that may raise. *)
Definition lift_raise {S A : Type} (o : option A) : StateExc S A :=
  match o with
  | Some a => mret a
  | None => raise
  end.

(** [for x in l: body(x)]. *)
Fixpoint for_each {S A : Type} (l : list A) (body : A -> StateExc S unit)
  : StateExc S unit :=
  match l with
  | [] => mret tt
  | x :: l' => _ ← body x; for_each l' body
  end.

(** The monad of a [verify] call; an exception is a [ValueError] or a
    [TypeError] of a conversion. *)
Abbreviation Run := (StateExc VState).

(** [f"{n:0{width}d}"]. *)
Definition zero_pad (width n : nat) : string :=
  let digits := NilEmpty.string_of_uint (Nat.to_uint n) in
  String.concat "" (replicate (width - String.length digits) "0") +:+ digits.

(** [f"{n:04d}"]. *)
Definition pad4 (n : nat) : string := zero_pad 4 n.

(** [Verifier._generate_evidence_id]. *)
Definition _generate_evidence_id (verifier_id : string) : Run string :=
  fun s =>
    let c := S (evidence_counter s) in
    (Done ("EVID_" +:+ verifier_id +:+ "_" +:+ pad4 c),
     {| evidence_counter := c; evidence := evidence s |}).

(** [evidence.append(atom)]. *)
Definition append (a : EvidenceAtom) : Run unit :=
  fun s =>
    (Done tt,
     {| evidence_counter := evidence_counter s; evidence := evidence s ++ [a] |}).

(** [for x in l: acc = body(x, acc)]: a loop that carries a local
    variable from one iteration to the next. *)
Fixpoint for_fold {S A L : Type} (l : list A) (body : A -> L -> StateExc S L)
    (acc : L) : StateExc S L :=
  match l with
  | [] => mret acc
  | x :: l' => acc' ← body x acc; for_fold l' body acc'
  end.

(** A [verify] call: start from an empty [evidence] list with the
    verifier's current counter; return the list, or [None] when an
    exception leaves [verify], and the new counter. *)
Definition run_verify (m : Run unit) (counter : nat)
  : option (list EvidenceAtom) * nat :=
  match m {| evidence_counter := counter; evidence := [] |} with
  | (Done _, s) => (Some (evidence s), evidence_counter s)
  | (Raised, s) => (None, evidence_counter s)
  end.

(** The dataclass constructor with [score] left at its default. *)
Definition mk_atom (id type : string) (field : option string) (pass_ : bool)
    (severity : Severity) (scope : Scope) (message : list MsgPart)
    (meta : list (string * MetaVal)) : EvidenceAtom :=
  {| id := id; type := type; field := field; pass_ := pass_;
     severity := severity; scope := scope; message := message;
     meta := meta; score := None |}.

(** [str(n)] for a natural number. *)
Definition str_nat (n : nat) : string := NilEmpty.string_of_uint (Nat.to_uint n).

(** [f"{field}[{i}]"]. *)
Definition indexed (field : string) (i : nat) : string :=
  field +:+ "[" +:+ str_nat i +:+ "]".

(** [d.get(k)] on a JSON object: [None] for a missing key and for [null]. *)
Definition get_value (d : gmap string value) (k : string) : option value :=
  match d !! k with
  | Some VNone => None
  | o => o
  end.

(** [_normalize_to_list], shared by the constraint checkers. *)
Definition _normalize_to_list (v : option value) : list value :=
  match v with
  | None | Some VNone => []
  | Some (VList l) => l
  | Some x => [x]
  end.


(* ===================================================================== *)
(** * verifiers/numeric_validity_checker.py                               *)
(* ===================================================================== *)

Module NumericValidityChecker.

Record Config : Type := {
  check_nan : bool;
  check_inf : bool;
  check_type : bool;
  check_missing : bool
}.

Definition verifier_id : string := "NUMERIC_VALIDITY".

Definition is_valid_numeric_value `{!PyBuiltins} (value : value) : bool :=
  match value with
  | VNone => false
  | _ =>
      let value := match value with VStr s => VStr (strip s) | _ => value end in
      let rejected :=
        match value with
        | VStr s =>
            string_eqb s "" ||
            str_in (lower s) ["null"; "none"; "nan"; "n/a"; "undefined"]
        | _ => false
        end in
      if rejected then false
      else
        match float_ value with
        | Some float_val => negb (isnan float_val || isinf float_val)
        | None => false
        end
  end.

Definition missing_atom (id field : string) : EvidenceAtom :=
  mk_atom id "numeric_validity" (Some field) false CRITICAL FIELD
    [Lit "Field "; Lit field; Lit " is missing"]
    [("checker", MStr "NumericValidityChecker"); ("check_type", MStr "missing")].

Definition invalid_atom (id field : string) (v : value) : EvidenceAtom :=
  mk_atom id "numeric_validity" (Some field) false CRITICAL FIELD
    [Lit "Field "; Lit field; Lit " has invalid numeric value: "; FmtValue v]
    [("checker", MStr "NumericValidityChecker");
     ("check_type", MStr "invalid_value"); ("value", MStrOf v)].

Definition valid_atom (id field : string) (v : value) : EvidenceAtom :=
  mk_atom id "numeric_validity" (Some field) true INFO FIELD
    [Lit "Field "; Lit field; Lit " has valid numeric value"]
    [("checker", MStr "NumericValidityChecker");
     ("check_type", MStr "valid_value"); ("value", MStrOf v)].

(** One value of a field ([name] is the field or [field[i]]). *)
Definition check_value `{!PyBuiltins} (name : string) (v : value) : Run unit :=
  if negb (is_valid_numeric_value v) then
    i ← _generate_evidence_id verifier_id; append (invalid_atom i name v)
  else
    i ← _generate_evidence_id verifier_id; append (valid_atom i name v).

(** The body of the loop over [required_fields]. *)
Definition verify_field `{!PyBuiltins} (cfg : Config)
    (json_data : gmap string value) (field : string) : Run unit :=
  match json_data !! field with
  | None =>
      if check_missing cfg then
        i ← _generate_evidence_id verifier_id; append (missing_atom i field)
      else mret tt
  | Some (VList l) =>
      for_each (enumerate l) (fun '(i, v) => check_value (indexed field i) v)
  | Some value => check_value field value
  end.

Definition verify `{!PyBuiltins} (cfg : Config) (ctx : Context) : Run unit :=
  match json_data ctx with
  | None => mret tt
  | Some json_data => for_each (required_fields ctx) (verify_field cfg json_data)
  end.

Definition get_capabilities : list string := ["numeric_validity"].

End NumericValidityChecker.

(* ===================================================================== *)
(** * verifiers/range_sanity_checker.py                                   *)
(* ===================================================================== *)

Module RangeSanityChecker.

Record Config : Type := {
  field_limits : gmap string (Q * Q);
  unit_validation : bool
}.

Definition verifier_id : string := "RANGE_SANITY".

Definition out_of_range (num_val : pyfloat) (lower_bound upper_bound : Q) : bool :=
  fltb num_val (Fin lower_bound) || fgtb num_val (Fin upper_bound).

Definition range_msg (name : string) (num_val : pyfloat) (lo hi : Q) : list MsgPart :=
  [Lit name; Lit " out of range: "; FmtFloat num_val; Lit " not in [";
   FmtFloat (Fin lo); Lit ", "; FmtFloat (Fin hi); Lit "]"].

Definition convert_msg (name : string) : list MsgPart :=
  [Lit name; Lit " cannot be converted to numeric"].

(** The loop over the elements of an array value; it returns at the
    first element that is out of range or not numeric. *)
Fixpoint check_elements `{!PyBuiltins} (field : string) (lo hi : Q)
    (l : list (nat * value)) : bool * option (list MsgPart) :=
  match l with
  | [] => (true, None)
  | (i, v) :: l' =>
      if is_none (Some v) || is_empty_str v then check_elements field lo hi l'
      else
        match float_ v with
        | Some num_val =>
            if out_of_range num_val lo hi
            then (false, Some (range_msg (indexed field i) num_val lo hi))
            else check_elements field lo hi l'
        | None => (false, Some (convert_msg (indexed field i)))
        end
  end.

Definition check_range_validity `{!PyBuiltins} (cfg : Config)
    (field : string) (value : value) : bool * option (list MsgPart) :=
  match field_limits cfg !! field with
  | None => (true, None)
  | Some (lower_bound, upper_bound) =>
      if is_none (Some value) || is_empty_str value then (true, None)
      else
        match value with
        | VList l => check_elements field lower_bound upper_bound (enumerate l)
        | _ =>
            match float_ value with
            | Some num_val =>
                if out_of_range num_val lower_bound upper_bound
                then (false, Some (range_msg field num_val lower_bound upper_bound))
                else (true, None)
            | None => (false, Some (convert_msg field))
            end
        end
  end.

(** The deviation of [num_val] from the interval, relative to its width. *)
Definition deviation_of (num_val : pyfloat) (lower upper : Q) : pyfloat :=
  let width := Fin (upper - lower) in
  if fltb num_val (Fin lower) then
    if fgtb width (Fin 0) then fdiv (fabs (fsub num_val (Fin lower))) width else Fin 1
  else if fgtb num_val (Fin upper) then
    if fgtb width (Fin 0) then fdiv (fabs (fsub num_val (Fin upper))) width else Fin 1
  else Fin 0.

(** Severity of a failing field and the new content of the local
    variable [deviation], which survives from one loop iteration to the
    next ([None]: not yet bound). *)
Definition failure_severity `{!PyBuiltins} (cfg : Config) (field : string)
    (value : value) (error_msg : option (list MsgPart))
    (deviation : option pyfloat) : Severity * option pyfloat :=
  match error_msg with
  | None | Some [] => (CRITICAL, deviation)
  | Some _ =>
      match field_limits cfg !! field with
      | None => (CRITICAL, deviation)
      | Some (lower, upper) =>
          let num_val :=
            match value with
            | VList [] => Some (Fin 0)
            | VList (v0 :: _) => float_ v0
            | _ => float_ value
            end in
          match num_val with
          | None => (CRITICAL, deviation)
          | Some num_val =>
              let d := deviation_of num_val lower upper in
              let severity :=
                if fgtb d (Fin 0.5) then CRITICAL
                else if fgtb d (Fin 0.2) then WARNING
                else WARNING in
              (severity, Some d)
          end
      end
  end.

Definition meta_deviation (deviation : option pyfloat) : MetaVal :=
  match deviation with Some d => MNum d | None => MNull end.

Definition verify_field `{!PyBuiltins} (cfg : Config)
    (json_data : gmap string value) (field : string)
    (deviation : option pyfloat) : Run (option pyfloat) :=
  match json_data !! field with
  | None => mret deviation
  | Some value =>
      let '(is_valid, error_msg) := check_range_validity cfg field value in
      if negb is_valid then
        let '(severity, deviation) :=
          failure_severity cfg field value error_msg deviation in
        i ← _generate_evidence_id verifier_id;
        _ ← append (mk_atom i "range_sanity" (Some field) false severity FIELD
               (match error_msg with
                | Some (p :: ps) => p :: ps
                | _ => [Lit "Field "; Lit field; Lit " out of valid range"]
                end)
               [("checker", MStr "RangeSanityChecker");
                ("field_limits", MLimits (field_limits cfg !! field));
                ("deviation", meta_deviation deviation)]);
        mret deviation
      else
        i ← _generate_evidence_id verifier_id;
        _ ← append (mk_atom i "range_sanity" (Some field) true INFO FIELD
               [Lit "Field "; Lit field; Lit " within valid range"]
               [("checker", MStr "RangeSanityChecker");
                ("field_limits", MLimits (field_limits cfg !! field))]);
        mret deviation
  end.

Definition verify `{!PyBuiltins} (cfg : Config) (ctx : Context) : Run unit :=
  match json_data ctx with
  | None => mret tt
  | Some json_data =>
      _ ← for_fold (required_fields ctx) (verify_field cfg json_data) None;
      mret tt
  end.

Definition get_capabilities : list string := ["range_sanity"].

End RangeSanityChecker.

(** The two constant tables of the external modules [validity_standard]
    and [validity_change_standard], as [load_field_limits()] and
    [load_jump_thresholds()] return them (both empty when the modules
    cannot be imported). *)
Record Standards : Type := {
  FIELD_LIMITS : gmap string (Q * Q);
  JUMP_THRESHOLDS : gmap string Q
}.

(* ===================================================================== *)
(** * verifiers/jump_dynamics_checker.py                                  *)
(* ===================================================================== *)

Module JumpDynamicsChecker.

Record Config : Type := {
  mutation_thresholds : gmap string Q;
  phase_aware : bool;
  angle_fields : gset string
}.

Definition verifier_id : string := "JUMP_DYNAMICS".

Definition angle_difference (pred actual : pyfloat) : pyfloat :=
  let diff := fabs (fsub pred actual) in
  if fgtb diff (Fin 180) then fsub (Fin 360) diff else diff.

Definition change_of (cfg : Config) (field : string) (curr prev : pyfloat) : pyfloat :=
  if bool_decide (field ∈ angle_fields cfg) then angle_difference curr prev
  else fabs (fsub curr prev).

Definition mutation_msg (name : string) (change : pyfloat) (threshold : Q)
  : list MsgPart :=
  [Lit name; Lit " mutation too large: "; FmtFixed 6 change; Lit " > ";
   FmtFixed 6 (Fin threshold)].

(** The loop [for i in range(1, len(current_value))] of the M3 branch:
    [prev_v] is [current_value[i-1]], [rest] is [current_value[i:]]. *)
Fixpoint m3_scan `{!PyBuiltins} (cfg : Config) (field : string) (threshold : Q)
    (i : nat) (prev_v : value) (rest : list value) (max_change : pyfloat)
  : bool * option (list MsgPart) * pyfloat :=
  match rest with
  | [] => (true, None, max_change)
  | curr_v :: rest' =>
      match float_ prev_v, float_ curr_v with
      | Some prev, Some curr =>
          let change := change_of cfg field curr prev in
          let max_change := py_max max_change change in
          if fgtb change (Fin threshold)
          then (false, Some (mutation_msg (indexed field i) change threshold), change)
          else m3_scan cfg field threshold (S i) curr_v rest' max_change
      | _, _ => m3_scan cfg field threshold (S i) curr_v rest' max_change
      end
  end.

(** The branch for S1 and M1: the change from the previous prediction
    (its last element when it is an array). *)
Definition single_step `{!PyBuiltins} (cfg : Config) (field : string)
    (threshold : Q) (previous_value : option value) (current_value : value)
  : bool * option (list MsgPart) * pyfloat :=
  let prev :=
    match previous_value with
    | Some (VList (p :: ps)) => float_ (List.last ps p)
    | Some v => float_ v
    | None => None
    end in
  match prev with
  | None => (true, None, Fin 0)
  | Some prev =>
      match float_ current_value with
      | None => (true, None, Fin 0)
      | Some curr =>
          let change := change_of cfg field curr prev in
          if fgtb change (Fin threshold)
          then (false, Some (mutation_msg field change threshold), change)
          else (true, None, change)
      end
  end.

Definition check_mutation `{!PyBuiltins} (cfg : Config) (field : string)
    (previous_value : option value) (current_value : value) (task_type : string)
  : bool * option (list MsgPart) * pyfloat :=
  match mutation_thresholds cfg !! field with
  | None => (true, None, Fin 0)
  | Some threshold =>
      if is_none previous_value || is_none (Some current_value) then (true, None, Fin 0)
      else if from_option is_empty_str false previous_value || is_empty_str current_value
      then (true, None, Fin 0)
      else
        match current_value with
        | VList (v0 :: ((_ :: _) as rest)) =>
            if string_eqb task_type "M3"
            then m3_scan cfg field threshold 1 v0 rest (Fin 0)
            else single_step cfg field threshold previous_value current_value
        | _ => single_step cfg field threshold previous_value current_value
        end
  end.

Definition meta_threshold (t : option Q) : MetaVal :=
  match t with Some q => MNum (Fin q) | None => MNull end.

Definition verify_field `{!PyBuiltins} (cfg : Config) (task_type : string)
    (json_data prev_pred : gmap string value) (field : string) : Run unit :=
  match json_data !! field with
  | None => mret tt
  | Some current_value =>
      let previous_value := get_value prev_pred field in
      if is_none previous_value && negb (string_eqb task_type "M3") then mret tt
      else
        let '(is_valid, error_msg, max_change) :=
          check_mutation cfg field previous_value current_value task_type in
        if negb is_valid then
          let threshold := default 0 (mutation_thresholds cfg !! field) in
          let violation_ratio :=
            if fgtb max_change (Fin 0) then fdiv max_change (Fin threshold) else Fin 0 in
          let severity :=
            if Qltb 0 threshold then
              if fgtb violation_ratio (Fin 2.0) then CRITICAL
              else if fgtb violation_ratio (Fin 1.5) then WARNING
              else WARNING
            else WARNING in
          i ← _generate_evidence_id verifier_id;
          append (mk_atom i "jump_dynamics" (Some field) false severity FIELD
            (match error_msg with
             | Some (p :: ps) => p :: ps
             | _ => [Lit "Field "; Lit field; Lit " has mutation violation"]
             end)
            [("checker", MStr "JumpDynamicsChecker");
             ("threshold", MNum (Fin threshold));
             ("max_change", MNum max_change);
             ("violation_ratio",
              if Qltb 0 threshold then MNum violation_ratio else MNull);
             ("task_type", MStr task_type)])
        else if negb (is_none previous_value) || string_eqb task_type "M3" then
          i ← _generate_evidence_id verifier_id;
          append (mk_atom i "jump_dynamics" (Some field) true INFO FIELD
            [Lit "Field "; Lit field; Lit " mutation check passed"]
            [("checker", MStr "JumpDynamicsChecker");
             ("threshold", meta_threshold (mutation_thresholds cfg !! field));
             ("max_change", MNum max_change);
             ("task_type", MStr task_type)])
        else mret tt
  end.

Definition verify `{!PyBuiltins} (cfg : Config) (ctx : Context) : Run unit :=
  match json_data ctx with
  | None => mret tt
  | Some json_data =>
      let prev_pred :=
        default ∅ (previous_predictions ctx !! model_name (ctx_model_output ctx)) in
      for_each (required_fields ctx)
        (verify_field cfg (task_type ctx) json_data prev_pred)
  end.

Definition get_capabilities : list string := ["jump_dynamics"].

End JumpDynamicsChecker.

(* ===================================================================== *)
(** * verifiers/cross_field_consistency_checker.py                        *)
(* ===================================================================== *)

Module CrossFieldConsistencyChecker.

Record Config : Type := {
  enabled : bool
}.

Definition verifier_id : string := "CROSS_FIELD_CONSISTENCY".

(** [idx if len(vals) > 1 else None]. *)
Definition meta_timestep {A : Type} (idx : nat) (vals : list A) : MetaVal :=
  if (1 <? length vals)%nat then MNat idx else MNull.

(** [f"[t={idx}] " if len(vals) > 1 else ""]. *)
Definition timestep_info {A : Type} (idx : nat) (vals : list A) : list MsgPart :=
  if (1 <? length vals)%nat then [Lit "[t="; FmtNat idx; Lit "] "] else [].

(** The three-way verdict shared by the rules: critical above [hi],
    warning above [lo], passing otherwise. *)
Definition grade_diff (diff : pyfloat) (lo hi : Q) : Severity * bool :=
  if fgtb diff (Fin hi) then (CRITICAL, false)
  else if fgtb diff (Fin lo) then (WARNING, false)
  else (INFO, true).

(** Rule 1: GPS altitude against barometric altitude. *)
Definition altitude_rule `{!PyBuiltins} (json_data : gmap string value) : Run unit :=
  let gps_alt := get_value json_data "GPS Altitude (WGS84 ft)" in
  let baro_alt := get_value json_data "Baro Altitude (ft)" in
  if negb (is_none gps_alt) && negb (is_none baro_alt) then
    try_except (
      let gps_vals := _normalize_to_list gps_alt in
      let baro_vals := _normalize_to_list baro_alt in
      for_each (enumerate (zip gps_vals baro_vals)) (fun '(idx, (gps_val, baro_val)) =>
        gps_float ← lift_raise (float_ gps_val);
        baro_float ← lift_raise (float_ baro_val);
        let diff := fabs (fsub gps_float baro_float) in
        let '(severity, pass_check) := grade_diff diff 2000 3000 in
        if negb pass_check || (idx =? 0)%nat then
          i ← _generate_evidence_id verifier_id;
          append (mk_atom i "cross_field_consistency" (Some "GPS_Alt_vs_Baro_Alt")
            pass_check severity CROSS_FIELD
            (timestep_info idx gps_vals ++
             [Lit "GPS Altitude ("; FmtFixed 1 gps_float; Lit "ft) vs Baro Altitude (";
              FmtFixed 1 baro_float; Lit "ft) difference: "; FmtFixed 1 diff; Lit "ft"])
            [("checker", MStr "CrossFieldConsistencyChecker");
             ("rule", MStr "altitude_consistency");
             ("timestep", meta_timestep idx gps_vals);
             ("gps_alt", MNum gps_float);
             ("baro_alt", MNum baro_float);
             ("difference", MNum diff);
             ("threshold", MNum (Fin 2000.0))])
        else mret tt))
  else mret tt.

(** Rule 2: ground speed against the velocity components. *)
Definition speed_rule `{!PyBuiltins} (json_data : gmap string value) : Run unit :=
  let gs := get_value json_data "GPS Ground Speed (kt)" in
  let ve := get_value json_data "GPS Velocity E (m/s)" in
  let vn := get_value json_data "GPS Velocity N (m/s)" in
  if negb (is_none gs) && negb (is_none ve) && negb (is_none vn) then
    try_except (
      let gs_vals := _normalize_to_list gs in
      let ve_vals := _normalize_to_list ve in
      let vn_vals := _normalize_to_list vn in
      for_each (enumerate (zip3 gs_vals ve_vals vn_vals))
        (fun '(idx, (gs_val, ve_val, vn_val)) =>
        gs_float ← lift_raise (float_ gs_val);
        ve_float ← lift_raise (float_ ve_val);
        vn_float ← lift_raise (float_ vn_val);
        let ve_kt := fmul ve_float (Fin 1.944) in
        let vn_kt := fmul vn_float (Fin 1.944) in
        let calculated_gs := pow_half (fadd (fmul ve_kt ve_kt) (fmul vn_kt vn_kt)) in
        let diff := fabs (fsub gs_float calculated_gs) in
        let '(severity, pass_check) := grade_diff diff 5 15 in
        if negb pass_check || (idx =? 0)%nat then
          i ← _generate_evidence_id verifier_id;
          append (mk_atom i "cross_field_consistency" (Some "Ground_Speed_vs_Velocity")
            pass_check severity CROSS_FIELD
            (timestep_info idx gs_vals ++
             [Lit "Ground Speed ("; FmtFixed 1 gs_float;
              Lit "kt) vs calculated from Ve/Vn ("; FmtFixed 1 calculated_gs;
              Lit "kt) difference: "; FmtFixed 1 diff; Lit "kt"])
            [("checker", MStr "CrossFieldConsistencyChecker");
             ("rule", MStr "speed_consistency");
             ("timestep", meta_timestep idx gs_vals);
             ("ground_speed", MNum gs_float);
             ("ve", MNum ve_float);
             ("vn", MNum vn_float);
             ("calculated_gs", MNum calculated_gs);
             ("difference", MNum diff);
             ("threshold", MNum (Fin 5.0))])
        else mret tt))
  else mret tt.

(** Rule 3: ground track against the direction of the velocity. *)
Definition track_rule `{!PyBuiltins} (json_data : gmap string value) : Run unit :=
  let track := get_value json_data "GPS Ground Track (deg true)" in
  let ve := get_value json_data "GPS Velocity E (m/s)" in
  let vn := get_value json_data "GPS Velocity N (m/s)" in
  if negb (is_none track) && negb (is_none ve) && negb (is_none vn) then
    try_except (
      let track_vals := _normalize_to_list track in
      let ve_vals := _normalize_to_list ve in
      let vn_vals := _normalize_to_list vn in
      for_each (enumerate (zip3 track_vals ve_vals vn_vals))
        (fun '(idx, (track_val, ve_val, vn_val)) =>
        track_float ← lift_raise (float_ track_val);
        ve_float ← lift_raise (float_ ve_val);
        vn_float ← lift_raise (float_ vn_val);
        let calculated_track := atan2_degrees ve_float vn_float in
        let calculated_track :=
          if fltb calculated_track (Fin 0) then fadd calculated_track (Fin 360)
          else calculated_track in
        let diff := fabs (fsub track_float calculated_track) in
        let diff := if fgtb diff (Fin 180) then fsub (Fin 360) diff else diff in
        let '(severity, pass_check) := grade_diff diff 10 30 in
        if negb pass_check || (idx =? 0)%nat then
          i ← _generate_evidence_id verifier_id;
          append (mk_atom i "cross_field_consistency" (Some "Track_vs_Velocity_Direction")
            pass_check severity CROSS_FIELD
            (timestep_info idx track_vals ++
             [Lit "Track ("; FmtFixed 1 track_float;
              Lit "°) vs calculated from Ve/Vn ("; FmtFixed 1 calculated_track;
              Lit "°) difference: "; FmtFixed 1 diff; Lit "°"])
            [("checker", MStr "CrossFieldConsistencyChecker");
             ("rule", MStr "track_consistency");
             ("timestep", meta_timestep idx track_vals);
             ("track", MNum track_float);
             ("ve", MNum ve_float);
             ("vn", MNum vn_float);
             ("calculated_track", MNum calculated_track);
             ("difference", MNum diff);
             ("threshold", MNum (Fin 10.0))])
        else mret tt))
  else mret tt.

Definition verify `{!PyBuiltins} (cfg : Config) (ctx : Context) : Run unit :=
  if negb (enabled cfg) then mret tt
  else
    match json_data ctx with
    | None => mret tt
    | Some json_data =>
        _ ← altitude_rule json_data;
        _ ← speed_rule json_data;
        track_rule json_data
    end.

Definition get_capabilities : list string := ["cross_field_consistency"].

End CrossFieldConsistencyChecker.

(* ===================================================================== *)
(** * verifiers/physics_constraint_checker.py                             *)
(* ===================================================================== *)

Module PhysicsConstraintChecker.

Record Config : Type := {
  enabled : bool;
  m3_continuity_thresholds : gmap string Q
}.

Definition verifier_id : string := "PHYSICS_CONSTRAINT".

Definition meta_timestep {A : Type} (idx : nat) (vals : list A) : MetaVal :=
  if (1 <? length vals)%nat then MNat idx else MNull.

Definition timestep_info {A : Type} (idx : nat) (vals : list A) : list MsgPart :=
  if (1 <? length vals)%nat then [Lit "[t="; FmtNat idx; Lit "] "] else [].

(** An entry of the local list [violations]. *)
Record Violation : Type := {
  index : nat;
  change : pyfloat;
  threshold : pyfloat
}.

(** The continuity threshold of a field: the configured one, or twice
    the jump threshold, or infinity. *)
Definition continuity_threshold (std : Standards) (cfg : Config) (field : string)
  : pyfloat :=
  match m3_continuity_thresholds cfg !! field with
  | Some t => Fin t
  | None =>
      let base_threshold := default 0 (JUMP_THRESHOLDS std !! field) in
      if Qltb 0 base_threshold then Fin (base_threshold * 2.0) else PInf
  end.

(** The loop [for i in range(1, len(value))] collecting violations. *)
Fixpoint collect_violations `{!PyBuiltins} (std : Standards) (cfg : Config)
    (field : string) (i : nat) (prev_v : value) (rest : list value)
    (violations : list Violation) : list Violation :=
  match rest with
  | [] => violations
  | curr_v :: rest' =>
      let violations :=
        match float_ prev_v, float_ curr_v with
        | Some prev, Some curr =>
            let change := fabs (fsub curr prev) in
            let threshold := continuity_threshold std cfg field in
            if fgtb change threshold
            then violations ++ [{| index := i; change := change; threshold := threshold |}]
            else violations
        | _, _ => violations
        end in
      collect_violations std cfg field (S i) curr_v rest' violations
  end.

(** [max(violations, key=lambda x: x['change'])] on a non-empty list. *)
Definition max_violation (v0 : Violation) (vs : list Violation) : Violation :=
  fold_left (fun best v => if fgtb (change v) (change best) then v else best) vs v0.

Definition continuity_field `{!PyBuiltins} (std : Standards) (cfg : Config)
    (json_data : gmap string value) (field : string) : Run unit :=
  match json_data !! field with
  | Some (VList ((v0 :: ((_ :: _) as rest)) as value)) =>
      match collect_violations std cfg field 1 v0 rest [] with
      | w :: ws =>
          let max_violation := max_violation w ws in
          let severity :=
            if fgtb (change max_violation) (fmul (threshold max_violation) (Fin 1.5))
            then CRITICAL else WARNING in
          i ← _generate_evidence_id verifier_id;
          append (mk_atom i "physics_constraint" (Some (field +:+ "_continuity"))
            false severity FIELD
            [Lit "Field "; Lit field; Lit " has "; FmtNat (length (w :: ws));
             Lit " continuity violations in M3 array (max change: ";
             FmtFixed 3 (change max_violation); Lit " > ";
             FmtFixed 3 (threshold max_violation); Lit ")"]
            [("checker", MStr "PhysicsConstraintChecker");
             ("rule", MStr "m3_array_continuity");
             ("field", MStr field);
             ("violations", MNat (length (w :: ws)));
             ("max_change", MNum (change max_violation));
             ("threshold", MNum (threshold max_violation))])
      | [] =>
          i ← _generate_evidence_id verifier_id;
          append (mk_atom i "physics_constraint" (Some (field +:+ "_continuity"))
            true INFO FIELD
            [Lit "Field "; Lit field; Lit " M3 array continuity check passed"]
            [("checker", MStr "PhysicsConstraintChecker");
             ("rule", MStr "m3_array_continuity");
             ("field", MStr field);
             ("array_length", MNat (length value))])
      end
  | _ => mret tt
  end.

(** Rule 1: continuity inside the arrays of an M3 prediction. *)
Definition continuity_rule `{!PyBuiltins} (std : Standards) (cfg : Config)
    (ctx : Context) (json_data : gmap string value) : Run unit :=
  if string_eqb (task_type ctx) "M3" then
    for_each (required_fields ctx) (continuity_field std cfg json_data)
  else mret tt.

(** Rule 2: vertical speed against altitude. *)
Definition velocity_altitude_rule `{!PyBuiltins} (json_data : gmap string value)
  : Run unit :=
  let altitude := get_value json_data "GPS Altitude (WGS84 ft)" in
  let vertical_speed := get_value json_data "Vertical Speed (fpm)" in
  if negb (is_none altitude) && negb (is_none vertical_speed) then
    try_except (
      let alt_vals := _normalize_to_list altitude in
      let vs_vals := _normalize_to_list vertical_speed in
      for_each (enumerate (zip alt_vals vs_vals)) (fun '(idx, (alt_val, vs_val)) =>
        alt_float ← lift_raise (float_ alt_val);
        vs_float ← lift_raise (float_ vs_val);
        let max_vs := if fltb alt_float (Fin 1000) then 2000%nat else 5000%nat in
        let '(severity, pass_check) :=
          if fgtb (fabs vs_float) (of_nat max_vs) then (WARNING, false)
          else (INFO, true) in
        if negb pass_check || (idx =? 0)%nat then
          i ← _generate_evidence_id verifier_id;
          append (mk_atom i "physics_constraint" (Some "Velocity_Altitude_Consistency")
            pass_check severity CROSS_FIELD
            (timestep_info idx alt_vals ++
             [Lit "Low altitude ("; FmtFixed 1 alt_float;
              Lit "ft) with vertical speed ("; FmtFixed 1 vs_float; Lit "fpm) ";
              Lit (if negb pass_check then "exceeds" else "within");
              Lit " limit ("; FmtNat max_vs; Lit "fpm)"])
            [("checker", MStr "PhysicsConstraintChecker");
             ("rule", MStr "velocity_altitude_consistency");
             ("timestep", meta_timestep idx alt_vals);
             ("altitude", MNum alt_float);
             ("vertical_speed", MNum vs_float);
             ("max_vs", MNat max_vs)])
        else mret tt))
  else mret tt.

(** Rule 3: attitude against vertical velocity. *)
Definition attitude_rule `{!PyBuiltins} (json_data : gmap string value) : Run unit :=
  let roll := get_value json_data "Roll (deg)" in
  let pitch := get_value json_data "Pitch (deg)" in
  let vu := get_value json_data "GPS Velocity U (m/s)" in
  if negb (is_none roll) && negb (is_none pitch) && negb (is_none vu) then
    try_except (
      let roll_vals := _normalize_to_list roll in
      let pitch_vals := _normalize_to_list pitch in
      let vu_vals := _normalize_to_list vu in
      for_each (enumerate (zip3 roll_vals pitch_vals vu_vals))
        (fun '(idx, (roll_val, pitch_val, vu_val)) =>
        roll_float ← lift_raise (float_ roll_val);
        pitch_float ← lift_raise (float_ pitch_val);
        vu_float ← lift_raise (float_ vu_val);
        let '(severity, pass_check, reason) :=
          if fgtb (fabs roll_float) (Fin 60) || fgtb (fabs pitch_float) (Fin 60)
          then (CRITICAL, false, "extreme_attitude")
          else if fgtb (fabs pitch_float) (Fin 15) then
            let vu_expected := fmul (fdiv (fabs pitch_float) (Fin 30.0)) (Fin 5.0) in
            if fltb (fabs vu_float) (fmul vu_expected (Fin 0.3))
            then (WARNING, false, "pitch_velocity_mismatch")
            else (INFO, true, "normal")
          else (INFO, true, "normal") in
        if negb pass_check || (idx =? 0)%nat then
          i ← _generate_evidence_id verifier_id;
          append (mk_atom i "physics_constraint" (Some "Attitude_Velocity_Consistency")
            pass_check severity CROSS_FIELD
            (timestep_info idx roll_vals ++
             [Lit "Roll="; FmtFixed 1 roll_float; Lit "°, Pitch=";
              FmtFixed 1 pitch_float; Lit "°, Vu="; FmtFixed 2 vu_float;
              Lit "m/s: "; Lit reason])
            [("checker", MStr "PhysicsConstraintChecker");
             ("rule", MStr "attitude_velocity_consistency");
             ("timestep", meta_timestep idx roll_vals);
             ("roll", MNum roll_float);
             ("pitch", MNum pitch_float);
             ("vertical_velocity", MNum vu_float);
             ("reason", MStr reason)])
        else mret tt))
  else mret tt.

Definition verify `{!PyBuiltins} (std : Standards) (cfg : Config) (ctx : Context)
  : Run unit :=
  if negb (enabled cfg) then mret tt
  else
    match json_data ctx with
    | None => mret tt
    | Some json_data =>
        _ ← continuity_rule std cfg ctx json_data;
        _ ← velocity_altitude_rule json_data;
        attitude_rule json_data
    end.

Definition get_capabilities : list string := ["physics_constraints"].

End PhysicsConstraintChecker.

(* ===================================================================== *)
(** * verifiers/safety_constraint_checker_old.py                          *)
(* ===================================================================== *)

(** The class [SafetyConstraintChecker] that [main.py] puts in the
    verifier graph and that [tests/test_verifiers.py] exercises.  (The
    package imports it under the module name [safety_constraint_checker];
    the sources hold the class in [safety_constraint_checker_old.py].) *)

Module SafetyConstraintChecker.

Record Config : Type := {
  enabled : bool
}.

Definition verifier_id : string := "SAFETY_CONSTRAINT".

Definition meta_timestep {A : Type} (idx : nat) (vals : list A) : MetaVal :=
  if (1 <? length vals)%nat then MNat idx else MNull.

Definition timestep_info {A : Type} (idx : nat) (vals : list A) : list MsgPart :=
  if (1 <? length vals)%nat then [Lit "[t="; FmtNat idx; Lit "] "] else [].

(** Rule 1: rapid descent.  In the critical case the meta entry
    [altitude] converts [alt_val] after the evidence ID has been drawn. *)
Definition rapid_descent_rule `{!PyBuiltins} (json_data : gmap string value)
  : Run unit :=
  let vertical_speed := get_value json_data "Vertical Speed (fpm)" in
  let altitude := get_value json_data "GPS Altitude (WGS84 ft)" in
  if negb (is_none vertical_speed) then
    try_except (
      let vs_vals := _normalize_to_list vertical_speed in
      let alt_vals :=
        if negb (is_none altitude) then _normalize_to_list altitude
        else replicate (length vs_vals) VNone in
      for_each (enumerate (zip vs_vals alt_vals)) (fun '(idx, (vs_val, alt_val)) =>
        vs_float ← lift_raise (float_ vs_val);
        if fltb vs_float (Fin (-3000)) then
          i ← _generate_evidence_id verifier_id;
          alt_meta ← (if is_none (Some alt_val) then mret MNull
                      else a ← lift_raise (float_ alt_val); mret (MNum a));
          append (mk_atom i "safety_constraint" (Some "Rapid_Descent")
            false CRITICAL SAMPLE
            (timestep_info idx vs_vals ++
             [Lit "Rapid descent detected: "; FmtFixed 1 vs_float;
              Lit " fpm (threshold: -3000 fpm)"])
            [("checker", MStr "SafetyConstraintChecker");
             ("rule", MStr "rapid_descent");
             ("timestep", meta_timestep idx vs_vals);
             ("vertical_speed", MNum vs_float);
             ("threshold", MNum (Fin (-3000.0)));
             ("altitude", alt_meta)])
        else if fltb vs_float (Fin (-2000)) then
          i ← _generate_evidence_id verifier_id;
          append (mk_atom i "safety_constraint" (Some "Rapid_Descent")
            false WARNING SAMPLE
            (timestep_info idx vs_vals ++
             [Lit "High descent rate: "; FmtFixed 1 vs_float;
              Lit " fpm (warning threshold: -2000 fpm)"])
            [("checker", MStr "SafetyConstraintChecker");
             ("rule", MStr "rapid_descent");
             ("timestep", meta_timestep idx vs_vals);
             ("vertical_speed", MNum vs_float);
             ("threshold", MNum (Fin (-2000.0)))])
        else mret tt))
  else mret tt.

(** Rule 2, first half: extreme airspeed. *)
Definition extreme_speed_rule `{!PyBuiltins} (json_data : gmap string value)
  : Run unit :=
  let airspeed := get_value json_data "Indicated Airspeed (kt)" in
  if negb (is_none airspeed) then
    try_except (
      let ias_vals := _normalize_to_list airspeed in
      for_each (enumerate ias_vals) (fun '(idx, ias_val) =>
        ias_float ← lift_raise (float_ ias_val);
        if fltb ias_float (Fin 30) then
          i ← _generate_evidence_id verifier_id;
          append (mk_atom i "safety_constraint" (Some "Extreme_Speed")
            false CRITICAL FIELD
            (timestep_info idx ias_vals ++
             [Lit "Extremely low airspeed: "; FmtFixed 1 ias_float;
              Lit " kt (stall risk threshold: 30 kt)"])
            [("checker", MStr "SafetyConstraintChecker");
             ("rule", MStr "extreme_speed");
             ("timestep", meta_timestep idx ias_vals);
             ("airspeed", MNum ias_float);
             ("threshold", MNum (Fin 30.0));
             ("type", MStr "low")])
        else if fgtb ias_float (Fin 180) then
          i ← _generate_evidence_id verifier_id;
          append (mk_atom i "safety_constraint" (Some "Extreme_Speed")
            false WARNING FIELD
            (timestep_info idx ias_vals ++
             [Lit "Extremely high airspeed: "; FmtFixed 1 ias_float;
              Lit " kt (overspeed threshold: 180 kt)"])
            [("checker", MStr "SafetyConstraintChecker");
             ("rule", MStr "extreme_speed");
             ("timestep", meta_timestep idx ias_vals);
             ("airspeed", MNum ias_float);
             ("threshold", MNum (Fin 180.0));
             ("type", MStr "high")])
        else mret tt))
  else mret tt.

(** Rule 2, second half: extreme altitude. *)
Definition extreme_altitude_rule `{!PyBuiltins} (json_data : gmap string value)
  : Run unit :=
  let altitude := get_value json_data "GPS Altitude (WGS84 ft)" in
  if negb (is_none altitude) then
    try_except (
      let alt_vals := _normalize_to_list altitude in
      for_each (enumerate alt_vals) (fun '(idx, alt_val) =>
        alt_float ← lift_raise (float_ alt_val);
        if fltb alt_float (Fin 0) then
          i ← _generate_evidence_id verifier_id;
          append (mk_atom i "safety_constraint" (Some "Extreme_Altitude")
            false CRITICAL FIELD
            (timestep_info idx alt_vals ++
             [Lit "Negative altitude: "; FmtFixed 1 alt_float;
              Lit " ft (ground contact risk)"])
            [("checker", MStr "SafetyConstraintChecker");
             ("rule", MStr "extreme_altitude");
             ("timestep", meta_timestep idx alt_vals);
             ("altitude", MNum alt_float);
             ("threshold", MNum (Fin 0.0));
             ("type", MStr "low")])
        else if fgtb alt_float (Fin 15000) then
          i ← _generate_evidence_id verifier_id;
          append (mk_atom i "safety_constraint" (Some "Extreme_Altitude")
            false WARNING FIELD
            (timestep_info idx alt_vals ++
             [Lit "Extremely high altitude: "; FmtFixed 1 alt_float;
              Lit " ft (high altitude threshold: 15000 ft)"])
            [("checker", MStr "SafetyConstraintChecker");
             ("rule", MStr "extreme_altitude");
             ("timestep", meta_timestep idx alt_vals);
             ("altitude", MNum alt_float);
             ("threshold", MNum (Fin 15000.0));
             ("type", MStr "high")])
        else mret tt))
  else mret tt.

(** Rule 3: stall-like condition. *)
Definition stall_rule `{!PyBuiltins} (json_data : gmap string value) : Run unit :=
  let airspeed := get_value json_data "Indicated Airspeed (kt)" in
  let pitch := get_value json_data "Pitch (deg)" in
  let vertical_speed := get_value json_data "Vertical Speed (fpm)" in
  if negb (is_none airspeed) && negb (is_none pitch) && negb (is_none vertical_speed)
  then
    try_except (
      let ias_vals := _normalize_to_list airspeed in
      let pitch_vals := _normalize_to_list pitch in
      let vs_vals := _normalize_to_list vertical_speed in
      for_each (enumerate (zip3 ias_vals pitch_vals vs_vals))
        (fun '(idx, (ias_val, pitch_val, vs_val)) =>
        ias_float ← lift_raise (float_ ias_val);
        pitch_float ← lift_raise (float_ pitch_val);
        vs_float ← lift_raise (float_ vs_val);
        if fltb ias_float (Fin 50) && fgtb pitch_float (Fin 15)
           && fltb vs_float (Fin 500) then
          i ← _generate_evidence_id verifier_id;
          append (mk_atom i "safety_constraint" (Some "Stall_Condition")
            false CRITICAL SAMPLE
            (timestep_info idx ias_vals ++
             [Lit "Stall-like condition: low airspeed ("; FmtFixed 1 ias_float;
              Lit "kt) + high pitch ("; FmtFixed 1 pitch_float;
              Lit "°) + low vertical speed ("; FmtFixed 1 vs_float; Lit "fpm)"])
            [("checker", MStr "SafetyConstraintChecker");
             ("rule", MStr "stall_condition");
             ("timestep", meta_timestep idx ias_vals);
             ("airspeed", MNum ias_float);
             ("pitch", MNum pitch_float);
             ("vertical_speed", MNum vs_float);
             ("thresholds",
              MThresholds [("airspeed", Fin 50.0); ("pitch", Fin 15.0);
                           ("vertical_speed", Fin 500.0)])])
        else mret tt))
  else mret tt.

Definition verify `{!PyBuiltins} (cfg : Config) (ctx : Context) : Run unit :=
  if negb (enabled cfg) then mret tt
  else
    match json_data ctx with
    | None => mret tt
    | Some json_data =>
        _ ← rapid_descent_rule json_data;
        _ ← extreme_speed_rule json_data;
        _ ← extreme_altitude_rule json_data;
        stall_rule json_data
    end.

Definition get_capabilities : list string := ["safety_constraints"].

End SafetyConstraintChecker.

(* ===================================================================== *)
(** * verifiers/safety_constraint_checker_v2.py                           *)
(* ===================================================================== *)

Module SafetyConstraintCheckerV2.

Record Config : Type := {
  enabled : bool
}.

Definition verifier_id : string := "SAFETY_CONSTRAINT_V2".

(** [max(g)] over a non-empty sequence. *)
Definition max_of (x0 : pyfloat) (xs : list pyfloat) : pyfloat :=
  fold_left py_max xs x0.

(** [sum(xs) / len(xs)]. *)
Definition average (xs : list pyfloat) : pyfloat :=
  fdiv (py_sum xs) (of_nat (length xs)).

(** Severity and verdict from a score. *)
Definition severity_of_score (score : pyfloat) : Severity :=
  if fltb score (Fin 0.25) then CRITICAL
  else if fltb score (Fin 0.5) then WARNING
  else INFO.

Definition pass_of_score (score : pyfloat) : bool := fgeb score (Fin 0.5).

(** The five-level ladder on an average error. *)
Definition ladder (avg_error : pyfloat) (t1 t2 t3 t4 : Q) : pyfloat :=
  if fltb avg_error (Fin t1) then Fin 1.0
  else if fltb avg_error (Fin t2) then Fin 0.75
  else if fltb avg_error (Fin t3) then Fin 0.5
  else if fltb avg_error (Fin t4) then Fin 0.25
  else Fin 0.0.

(** [(error, relative_error, pred, true)] for every pair that converts. *)
Fixpoint airspeed_errors `{!PyBuiltins} (pairs : list (value * value))
  : list (pyfloat * pyfloat * pyfloat * pyfloat) :=
  match pairs with
  | [] => []
  | (pred_val, true_val) :: rest =>
      match float_ pred_val, float_ true_val with
      | Some pred_float, Some true_float =>
          let error := fabs (fsub pred_float true_float) in
          let relative_error := fdiv error (py_max (fabs true_float) (Fin 1.0)) in
          (error, relative_error, pred_float, true_float) :: airspeed_errors rest
      | _, _ => airspeed_errors rest
      end
  end.

Definition _calculate_airspeed_safety_score (avg_error avg_rel_error max_error : pyfloat)
    (errors : list (pyfloat * pyfloat * pyfloat * pyfloat)) : pyfloat :=
  let base_score := ladder avg_error 5 15 30 50 in
  let danger_penalty :=
    fold_left (fun danger_penalty '(error, rel_error, pred, true_) =>
      if fltb true_ (Fin 50) && fgtb pred (Fin 100) then py_max danger_penalty (Fin 0.5)
      else if fgtb true_ (Fin 150) && fltb pred (Fin 100)
      then py_max danger_penalty (Fin 0.5)
      else if fgtb rel_error (Fin 0.5) then py_max danger_penalty (Fin 0.25)
      else danger_penalty) errors (Fin 0.0) in
  let final_score := py_max (Fin 0.0) (fsub base_score danger_penalty) in
  if fgeb final_score (Fin 0.9) then Fin 1.0
  else if fgeb final_score (Fin 0.65) then Fin 0.75
  else if fgeb final_score (Fin 0.4) then Fin 0.5
  else if fgeb final_score (Fin 0.15) then Fin 0.25
  else Fin 0.0.

Definition scored_atom (id field : string) (score : pyfloat)
    (message : list MsgPart) (meta : list (string * MetaVal)) : EvidenceAtom :=
  {| id := id; type := "safety_constraint"; field := Some field;
     pass_ := pass_of_score score; severity := severity_of_score score;
     scope := SAMPLE; message := message; meta := meta; score := Some score |}.

Definition _check_airspeed_safety `{!PyBuiltins}
    (predicted_data ground_truth : gmap string value) : Run unit :=
  let pred_airspeed := get_value predicted_data "Indicated Airspeed (kt)" in
  let true_airspeed := get_value ground_truth "Indicated Airspeed (kt)" in
  if is_none pred_airspeed || is_none true_airspeed then mret tt
  else
    let pred_vals := _normalize_to_list pred_airspeed in
    let true_vals := _normalize_to_list true_airspeed in
    match airspeed_errors (zip pred_vals true_vals) with
    | [] => mret tt
    | (e0 :: es) as errors =>
        let avg_error := average (map (fun e => e.1.1.1) errors) in
        let avg_rel_error := average (map (fun e => e.1.1.2) errors) in
        let max_error := max_of e0.1.1.1 (map (fun e => e.1.1.1) es) in
        let score :=
          _calculate_airspeed_safety_score avg_error avg_rel_error max_error errors in
        i ← _generate_evidence_id verifier_id;
        append (scored_atom i "Airspeed_Safety" score
          [Lit "Airspeed prediction safety: avg_error="; FmtFixed 1 avg_error;
           Lit "kt, max_error="; FmtFixed 1 max_error; Lit "kt, score=";
           FmtFixed 2 score]
          [("checker", MStr "SafetyConstraintCheckerV2");
           ("rule", MStr "airspeed_prediction_safety");
           ("avg_error", MNum avg_error);
           ("avg_relative_error", MNum avg_rel_error);
           ("max_error", MNum max_error);
           ("num_timesteps", MNat (length errors));
           ("score", MNum score)])
    end.

(** [(error, pred, true)] for every pair that converts. *)
Fixpoint altitude_errors `{!PyBuiltins} (pairs : list (value * value))
  : list (pyfloat * pyfloat * pyfloat) :=
  match pairs with
  | [] => []
  | (pred_val, true_val) :: rest =>
      match float_ pred_val, float_ true_val with
      | Some pred_float, Some true_float =>
          (fabs (fsub pred_float true_float), pred_float, true_float)
            :: altitude_errors rest
      | _, _ => altitude_errors rest
      end
  end.

Definition _check_altitude_safety `{!PyBuiltins}
    (predicted_data ground_truth : gmap string value) : Run unit :=
  let pred_altitude := get_value predicted_data "GPS Altitude (WGS84 ft)" in
  let true_altitude := get_value ground_truth "GPS Altitude (WGS84 ft)" in
  if is_none pred_altitude || is_none true_altitude then mret tt
  else
    let pred_vals := _normalize_to_list pred_altitude in
    let true_vals := _normalize_to_list true_altitude in
    match altitude_errors (zip pred_vals true_vals) with
    | [] => mret tt
    | (e0 :: es) as errors =>
        let avg_error := average (map (fun e => e.1.1) errors) in
        let max_error := max_of e0.1.1 (map (fun e => e.1.1) es) in
        let score := ladder avg_error 50 150 300 500 in
        let score :=
          fold_left (fun score '(error, pred, true_) =>
            if fltb true_ (Fin 500) && fgtb error (Fin 200)
            then py_min score (Fin 0.25) else score) errors score in
        i ← _generate_evidence_id verifier_id;
        append (scored_atom i "Altitude_Safety" score
          [Lit "Altitude prediction safety: avg_error="; FmtFixed 1 avg_error;
           Lit "ft, max_error="; FmtFixed 1 max_error; Lit "ft, score=";
           FmtFixed 2 score]
          [("checker", MStr "SafetyConstraintCheckerV2");
           ("rule", MStr "altitude_prediction_safety");
           ("avg_error", MNum avg_error);
           ("max_error", MNum max_error);
           ("num_timesteps", MNat (length errors));
           ("score", MNum score)])
    end.

(** [pred_float - true_val] with the unconverted reference value:
    [TypeError] unless it is a number. *)
Definition sub_raw (pred_float : pyfloat) (true_val : value) : option pyfloat :=
  match true_val with
  | VNum x => Some (fsub pred_float x)
  | VBool b => Some (fsub pred_float (Fin (if b then 1 else 0)))
  | _ => None
  end.

Fixpoint vertical_speed_errors `{!PyBuiltins} (pairs : list (value * value))
  : list (pyfloat * pyfloat * pyfloat) :=
  match pairs with
  | [] => []
  | (pred_val, true_val) :: rest =>
      match float_ pred_val, float_ true_val with
      | Some pred_float, Some true_float =>
          match sub_raw pred_float true_val with
          | Some d => (fabs d, pred_float, true_float) :: vertical_speed_errors rest
          | None => vertical_speed_errors rest
          end
      | _, _ => vertical_speed_errors rest
      end
  end.

Definition _check_vertical_speed_safety `{!PyBuiltins}
    (predicted_data ground_truth : gmap string value) : Run unit :=
  let pred_vs := get_value predicted_data "Vertical Speed (fpm)" in
  let true_vs := get_value ground_truth "Vertical Speed (fpm)" in
  if is_none pred_vs || is_none true_vs then mret tt
  else
    let pred_vals := _normalize_to_list pred_vs in
    let true_vals := _normalize_to_list true_vs in
    match vertical_speed_errors (zip pred_vals true_vals) with
    | [] => mret tt
    | (e0 :: es) as errors =>
        let avg_error := average (map (fun e => e.1.1) errors) in
        let max_error := max_of e0.1.1 (map (fun e => e.1.1) es) in
        let score := ladder avg_error 500 1000 1500 2000 in
        let score :=
          fold_left (fun score '(error, pred, true_) =>
            if fltb true_ (Fin (-2000)) && fgtb (fabs (fsub pred true_)) (Fin 1000)
            then py_min score (Fin 0.25) else score) errors score in
        i ← _generate_evidence_id verifier_id;
        append (scored_atom i "Vertical_Speed_Safety" score
          [Lit "Vertical speed prediction safety: avg_error="; FmtFixed 1 avg_error;
           Lit "fpm, max_error="; FmtFixed 1 max_error; Lit "fpm, score=";
           FmtFixed 2 score]
          [("checker", MStr "SafetyConstraintCheckerV2");
           ("rule", MStr "vertical_speed_prediction_safety");
           ("avg_error", MNum avg_error);
           ("max_error", MNum max_error);
           ("num_timesteps", MNat (length errors));
           ("score", MNum score)])
    end.

Definition verify `{!PyBuiltins} (cfg : Config) (ctx : Context) : Run unit :=
  if negb (enabled cfg) then mret tt
  else
    let ground_truth := gold_data (ctx_sample ctx) in
    match json_data ctx with
    | None => mret tt
    | Some predicted_data =>
        if bool_decide (ground_truth = ∅) then mret tt
        else
          _ ← _check_airspeed_safety predicted_data ground_truth;
          _ ← _check_altitude_safety predicted_data ground_truth;
          _check_vertical_speed_safety predicted_data ground_truth
    end.

Definition get_capabilities : list string := ["safety_constraints_v2"].

End SafetyConstraintCheckerV2.

(* ===================================================================== *)
(** * core/verifier_base.py : the verifier graph                          *)
(* ===================================================================== *)

(** A verifier object: its ID, its [verify] method and its
    capabilities.  Its [evidence_counter] lives in the graph state, under
    its ID. *)
Record Verifier : Type := {
  verifier_id : string;
  verify : Context -> Run unit;
  get_capabilities : list string
}.

Record VerifierGraph : Type := {
  verifiers : list Verifier;
  dependencies : list (string * list string)
}.

(** [VerifierGraph.add_verifier]. *)
Definition add_verifier (g : VerifierGraph) (v : Verifier) (deps : list string)
  : VerifierGraph :=
  {| verifiers := verifiers g ++ [v];
     dependencies := dependencies g ++ [(verifier_id v, deps)] |}.

(** [d.get(k, [])] on the dependency dictionary: the last binding wins. *)
Definition dependencies_of (g : VerifierGraph) (vid : string) : list string :=
  match find (fun kv => string_eqb kv.1 vid) (rev (dependencies g)) with
  | Some kv => kv.2
  | None => []
  end.

(** The local state of [execute]: the set [executed], the list
    [all_evidence], and the counters of the verifier objects. *)
Record ExecState : Type := {
  executed : list string;
  all_evidence : list EvidenceAtom;
  counters : gmap string nat
}.

Definition counter_of (cs : gmap string nat) (vid : string) : nat :=
  default 0%nat (cs !! vid).

(** The call [verifier.verify(...)] inside [execute_verifier]: extend
    [all_evidence], mark the verifier executed, store its counter. *)
Definition call_verify (ctx : Context) (v : Verifier) : StateExc ExecState unit :=
  fun st =>
    match run_verify (verify v ctx) (counter_of (counters st) (verifier_id v)) with
    | (Some evidence, c) =>
        (Done tt,
         {| executed := verifier_id v :: executed st;
            all_evidence := all_evidence st ++ evidence;
            counters := <[verifier_id v := c]> (counters st) |})
    | (None, c) =>
        (Raised,
         {| executed := executed st;
            all_evidence := all_evidence st;
            counters := <[verifier_id v := c]> (counters st) |})
    end.

Definition is_executed (v : Verifier) : StateExc ExecState bool :=
  fun st => (Done (str_in (verifier_id v) (executed st)), st).

(** The closure [execute_verifier], in the state of [execute].  An
    exception is one that leaves a [verify], or the recursion limit on a
    cyclic dependency (here: [fuel] exhausted). *)
Fixpoint execute_verifier (fuel : nat) (g : VerifierGraph) (ctx : Context)
    (v : Verifier) : StateExc ExecState unit :=
  match fuel with
  | O => raise
  | S fuel' =>
      done ← is_executed v;
      if done : bool then mret tt
      else
        _ ← for_each (dependencies_of g (verifier_id v)) (fun dep_id =>
              match find (fun v' => string_eqb (verifier_id v') dep_id) (verifiers g) with
              | Some v' => execute_verifier fuel' g ctx v'
              | None => mret tt
              end);
        call_verify ctx v
  end.

(** [VerifierGraph.execute], in the state of the verifiers' counters. *)
Definition execute (g : VerifierGraph) (ctx : Context)
  : StateExc (gmap string nat) (list EvidenceAtom) :=
  fun cs =>
    match
      for_each (verifiers g) (execute_verifier (S (length (verifiers g))) g ctx)
        {| executed := []; all_evidence := []; counters := cs |}
    with
    | (Done _, st) => (Done (all_evidence st), counters st)
    | (Raised, st) => (Raised, counters st)
    end.

(* ===================================================================== *)
(** * agents/evaluator_agent.py                                           *)
(* ===================================================================== *)

Module EvaluatorAgent.

Record Config : Type := {
  model : string;
  temperature : Q
}.

Record ChecklistItem : Type := {
  item_id : string;
  constraint_id : string;
  evidence_id : option string;
  evidence_ids : option (list string);
  status : string
}.

(** One entry of the attribution list. *)
Record Attribution : Type := {
  reason : list MsgPart;
  attr_evidence_ids : list string;
  attr_severity : string;
  rank : nat;
  count : nat
}.

Definition capability_to_constraint (capability : string) : string :=
  if string_eqb capability "numeric_validity" then "NUMERIC_VALIDITY"
  else if string_eqb capability "range_sanity" then "RANGE_SANITY"
  else if string_eqb capability "jump_dynamics" then "JUMP_DYNAMICS"
  else if string_eqb capability "physics_constraints" then "PHYSICS_CONSTRAINT"
  else if string_eqb capability "safety_constraints" then "SAFETY_CONSTRAINT"
  else if string_eqb capability "cross_field_consistency" then "CROSS_FIELD_CONSISTENCY"
  else upper capability.

Definition generate_checklist (verifier_capabilities : list string)
  : list ChecklistItem :=
  imap (fun i capability =>
    {| item_id := "CHECK_" +:+ zero_pad 3 (S i);
       constraint_id := capability_to_constraint capability;
       evidence_id := None;
       evidence_ids := None;
       status := "unknown" |}) verifier_capabilities.

Definition constraint_to_type (constraint_id : string) : string :=
  if string_eqb constraint_id "NUMERIC_VALIDITY" then "numeric_validity"
  else if string_eqb constraint_id "RANGE_SANITY" then "range_sanity"
  else if string_eqb constraint_id "JUMP_DYNAMICS" then "jump_dynamics"
  else if string_eqb constraint_id "PHYSICS_CONSTRAINT" then "physics_constraints"
  else if string_eqb constraint_id "SAFETY_CONSTRAINT" then "safety_constraints"
  else if string_eqb constraint_id "CROSS_FIELD_CONSISTENCY" then "cross_field_consistency"
  else lower constraint_id.

(** [organize_verification_workflow]: the updated checklist. *)
Definition organize_verification_workflow (checklist : list ChecklistItem)
    (evidence_atoms : list EvidenceAtom) : list ChecklistItem :=
  map (fun item =>
    let evidence_type := constraint_to_type (constraint_id item) in
    let relevant_atoms :=
      filter (fun atom => type atom = evidence_type) evidence_atoms in
    match relevant_atoms with
    | a :: _ =>
        {| item_id := item_id item;
           constraint_id := constraint_id item;
           evidence_id := Some (id a);
           evidence_ids := Some (map id relevant_atoms);
           status := if forallb pass_ relevant_atoms then "pass" else "fail" |}
    | [] =>
        {| item_id := item_id item;
           constraint_id := constraint_id item;
           evidence_id := None;
           evidence_ids := Some [];
           status := "unknown" |}
    end) checklist.

Definition is_critical_failure (e : EvidenceAtom) : bool :=
  string_eqb (severity_value (severity e)) "critical" && negb (pass_ e).

Definition is_warning_failure (e : EvidenceAtom) : bool :=
  string_eqb (severity_value (severity e)) "warning" && negb (pass_ e).

Definition is_protocol_failure (e : EvidenceAtom) : bool :=
  string_eqb (type e) "numeric_validity" && negb (pass_ e).

(** The key [f"{failure.type}:{failure.field or 'unknown'}"]. *)
Definition group_key (failure : EvidenceAtom) : string :=
  type failure +:+ ":" +:+
  match field failure with
  | Some f => if string_eqb f "" then "unknown" else f
  | None => "unknown"
  end.

(** [failure_groups[key].append(failure)] on an insertion-ordered dict. *)
Fixpoint group_add (key : string) (failure : EvidenceAtom)
    (groups : list (string * list EvidenceAtom)) : list (string * list EvidenceAtom) :=
  match groups with
  | [] => [(key, [failure])]
  | (k, fs) :: rest =>
      if string_eqb k key then (k, fs ++ [failure]) :: rest
      else (k, fs) :: group_add key failure rest
  end.

Definition attribution_entry (i : nat) (failures : list EvidenceAtom)
  : option Attribution :=
  match failures with
  | [] => None
  | representative :: _ =>
      Some {| reason :=
                match message representative with
                | [] =>
                    [Lit (type representative); Lit " violation in ";
                     Lit (match field representative with
                          | Some f => if string_eqb f "" then "unknown field" else f
                          | None => "unknown field"
                          end)]
                | m => m
                end;
              attr_evidence_ids := map id failures;
              attr_severity := severity_value (severity representative);
              rank := i;
              count := length failures |}
  end.

(** [adjudicate]: the verdict and the top five attributions. *)
Definition adjudicate (evidence_atoms : list EvidenceAtom)
    (checklist : list ChecklistItem) : string * list Attribution :=
  let critical_failures := List.filter is_critical_failure evidence_atoms in
  let protocol_failures := List.filter is_protocol_failure evidence_atoms in
  let adjudication :=
    match critical_failures, protocol_failures with
    | [], [] => ELIGIBLE
    | _, _ => INELIGIBLE
    end in
  let all_failures :=
    List.filter is_critical_failure evidence_atoms ++
    List.filter is_warning_failure evidence_atoms in
  let failure_groups :=
    fold_left (fun groups failure => group_add (group_key failure) failure groups)
      all_failures [] in
  let attribution :=
    omap (fun '(i, (key, failures)) => attribution_entry (S i) failures)
      (enumerate (take 5 failure_groups)) in
  (adjudication_value adjudication, attribution).

End EvaluatorAgent.

(* ===================================================================== *)
(** * Protocol result                                                     *)
(* ===================================================================== *)

Record Parsing : Type := {
  success : bool;
  error : option string
}.

Record FieldCompleteness : Type := {
  missing_fields : list string;
  completeness_rate : pyfloat
}.

(** The dictionary [protocol_result]; the record of a transport error
    has the [parsing] entry only. *)
Record ProtocolResult : Type := {
  parsing : option Parsing;
  field_completeness : option FieldCompleteness;
  type_validation : option (list string)
}.

(** [protocol_result.get('parsing', {}).get('success', False)]. *)
Definition parsing_success (p : ProtocolResult) : bool :=
  match parsing p with Some x => success x | None => false end.

(** [protocol_result.get('field_completeness', {}).get('completeness_rate', 0.0)]. *)
Definition get_completeness_rate (p : ProtocolResult) : pyfloat :=
  match field_completeness p with Some x => completeness_rate x | None => Fin 0.0 end.

(* ===================================================================== *)
(** * rubric/rubric_definition_fixed.py                                   *)
(* ===================================================================== *)

Inductive Grade : Type := A | B | C | D.

Inductive Dimension : Type :=
  | PROTOCOL_SCHEMA
  | FIELD_VALIDITY
  | PHYSICS_CONSISTENCY
  | SAFETY_CONSTRAINT
  | PREDICTIVE_QUALITY.

#[global] Instance Grade_eq_dec : EqDecision Grade.
Proof. solve_decision. Defined.

#[global] Instance Dimension_eq_dec : EqDecision Dimension.
Proof. solve_decision. Defined.

Definition grade_value (g : Grade) : string :=
  match g with A => "A" | B => "B" | C => "C" | D => "D" end.

Definition dimension_value (d : Dimension) : string :=
  match d with
  | PROTOCOL_SCHEMA => "protocol_schema_compliance"
  | FIELD_VALIDITY => "field_validity_local_dynamics"
  | PHYSICS_CONSISTENCY => "physics_cross_field_consistency"
  | SAFETY_CONSTRAINT => "safety_constraint_satisfaction"
  | PREDICTIVE_QUALITY => "predictive_quality_reliability"
  end.

(** [for dimension in Dimension]. *)
Definition all_dimensions : list Dimension :=
  [PROTOCOL_SCHEMA; FIELD_VALIDITY; PHYSICS_CONSISTENCY; SAFETY_CONSTRAINT;
   PREDICTIVE_QUALITY].

Definition GRADE_SCORE_MAP (g : Grade) : Q :=
  match g with
  | A => 1.0
  | B => 0.75
  | C => 0.5
  | D => 0.0
  end.

Definition aggregate_grade_scores (grade_scores : list pyfloat) : pyfloat :=
  match grade_scores with
  | [] => Fin 0.0
  | _ => fdiv (py_sum grade_scores) (of_nat (length grade_scores))
  end.

(** The dictionary [evidence_requirements] of one rubric cell: each key
    that can occur is a field, [None] when the cell does not have it.
    A ratio entry holds its [max_failure_rate]. *)
Record Requirements : Type := {
  req_numeric_validity : option Q;
  req_parsing : option bool;
  req_field_completeness : option Q;
  req_range_sanity : option Q;
  req_jump_dynamics : option Q;
  req_cross_field_consistency : option Q;
  req_physics_constraint : option Q;
  req_safety_constraint : option Q;
  req_conditional_error : option (Q * Q);
  req_reliability : bool
}.

Definition no_requirements : Requirements :=
  {| req_numeric_validity := None; req_parsing := None;
     req_field_completeness := None; req_range_sanity := None;
     req_jump_dynamics := None; req_cross_field_consistency := None;
     req_physics_constraint := None; req_safety_constraint := None;
     req_conditional_error := None; req_reliability := false |}.

Definition protocol_requirements (rate : Q) (parse : bool) (completeness : Q)
  : Requirements :=
  {| req_numeric_validity := Some rate; req_parsing := Some parse;
     req_field_completeness := Some completeness; req_range_sanity := None;
     req_jump_dynamics := None; req_cross_field_consistency := None;
     req_physics_constraint := None; req_safety_constraint := None;
     req_conditional_error := None; req_reliability := false |}.

Definition field_requirements (rate : Q) : Requirements :=
  {| req_numeric_validity := None; req_parsing := None;
     req_field_completeness := None; req_range_sanity := Some rate;
     req_jump_dynamics := Some rate; req_cross_field_consistency := None;
     req_physics_constraint := None; req_safety_constraint := None;
     req_conditional_error := None; req_reliability := false |}.

Definition physics_requirements (rate : Q) : Requirements :=
  {| req_numeric_validity := None; req_parsing := None;
     req_field_completeness := None; req_range_sanity := None;
     req_jump_dynamics := None; req_cross_field_consistency := Some rate;
     req_physics_constraint := Some rate; req_safety_constraint := None;
     req_conditional_error := None; req_reliability := false |}.

Definition safety_requirements (rate : Q) : Requirements :=
  {| req_numeric_validity := None; req_parsing := None;
     req_field_completeness := None; req_range_sanity := None;
     req_jump_dynamics := None; req_cross_field_consistency := None;
     req_physics_constraint := None; req_safety_constraint := Some rate;
     req_conditional_error := None; req_reliability := false |}.

Definition quality_requirements (mae rmse : Q) : Requirements :=
  {| req_numeric_validity := None; req_parsing := None;
     req_field_completeness := None; req_range_sanity := None;
     req_jump_dynamics := None; req_cross_field_consistency := None;
     req_physics_constraint := None; req_safety_constraint := None;
     req_conditional_error := Some (mae, rmse); req_reliability := true |}.

(** [RUBRIC[dimension][grade]['evidence_requirements']]. *)
Definition RUBRIC (dimension : Dimension) (grade : Grade) : Requirements :=
  match dimension, grade with
  | PROTOCOL_SCHEMA, A => protocol_requirements 0.0 true 1.0
  | PROTOCOL_SCHEMA, B => protocol_requirements 0.05 true 1.0
  | PROTOCOL_SCHEMA, C => protocol_requirements 0.15 true 0.9
  | PROTOCOL_SCHEMA, D => protocol_requirements 1.0 false 0.8
  | FIELD_VALIDITY, A => field_requirements 0.0
  | FIELD_VALIDITY, B => field_requirements 0.05
  | FIELD_VALIDITY, C => field_requirements 0.15
  | FIELD_VALIDITY, D => field_requirements 1.0
  | PHYSICS_CONSISTENCY, A => physics_requirements 0.0
  | PHYSICS_CONSISTENCY, B => physics_requirements 0.10
  | PHYSICS_CONSISTENCY, C => physics_requirements 0.25
  | PHYSICS_CONSISTENCY, D => physics_requirements 1.0
  | SAFETY_CONSTRAINT, A => safety_requirements 0.0
  | SAFETY_CONSTRAINT, B => safety_requirements 0.10
  | SAFETY_CONSTRAINT, C => safety_requirements 0.25
  | SAFETY_CONSTRAINT, D => safety_requirements 1.0
  | PREDICTIVE_QUALITY, A => quality_requirements 90 90
  | PREDICTIVE_QUALITY, B => quality_requirements 70 70
  | PREDICTIVE_QUALITY, C => quality_requirements 50 50
  | PREDICTIVE_QUALITY, D => quality_requirements 0 0
  end.

(* ===================================================================== *)
(** * Scores                                                              *)
(* ===================================================================== *)

Record ConditionalError : Type := {
  mae : pyfloat;
  rmse : pyfloat;
  ce_mae_score : pyfloat;
  ce_rmse_score : pyfloat;
  combined_score : pyfloat
}.

(** The dictionary returned by [RuleBasedFusionAligned.calculate_scores]. *)
Record AlignedScores : Type := {
  grade_vector : list (string * option string);
  overall_grade : string;
  dimension_scores : list (string * pyfloat);
  dimension_scores_scaled : list (string * pyfloat);
  overall_score : pyfloat;
  predictive_quality_score : pyfloat;
  mae_score : pyfloat;
  rmse_score : pyfloat;
  al_availability_score : pyfloat;
  al_constraint_satisfaction_score : pyfloat;
  al_conditional_error_score : pyfloat;
  al_total_score : pyfloat
}.

(** The dictionary returned by [RuleBasedFusion.calculate_scores]. *)
Record RuleScores : Type := {
  availability_score : pyfloat;
  constraint_satisfaction_score : pyfloat;
  conditional_error_score : pyfloat;
  total_score : pyfloat
}.

(** The dictionary [optional_scores] of a record. *)
Inductive OptionalScores : Type :=
  | NoScores
  | FromRule (s : RuleScores) (gating_failed : option (list (list MsgPart)))
  | FromAligned (s : AlignedScores) (gating_failed : option (list (list MsgPart)))
  | GatingFailed (gating_reasons : list (list MsgPart)).

(** [severity_weights.get(atom.severity.value, 1.0)]. *)
Definition severity_weight (s : Severity) : Q :=
  match s with
  | CRITICAL => 3.0
  | WARNING => 1.0
  | INFO => 0.5
  end.

(** The weighted pass ratio of the evidence, shared by the fusion
    classes; [use_score] is the aligned variant, which prefers an atom's
    [score] over its [pass_] flag. *)
Definition constraint_satisfaction (use_score : bool)
    (evidence_atoms : list EvidenceAtom) : pyfloat :=
  match evidence_atoms with
  | [] => Fin 100.0
  | _ =>
      let '(total_weight, passed_weight) :=
        fold_left (fun '(total_weight, passed_weight) atom =>
          let weight := Fin (severity_weight (severity atom)) in
          (fadd total_weight weight,
           match (if use_score then score atom else None) with
           | Some s => fadd passed_weight (fmul weight s)
           | None => if pass_ atom then fadd passed_weight weight else passed_weight
           end)) evidence_atoms (Fin 0.0, Fin 0.0) in
      if fgtb total_weight (Fin 0) then
        fmul (fdiv passed_weight total_weight) (Fin 100.0)
      else Fin 100.0
  end.

(** The absolute errors of the aligned fusion: element-wise on two
    arrays, on the two scalars otherwise; a value that does not convert
    is skipped. *)
Fixpoint pair_errors `{!PyBuiltins} (pairs : list (value * value)) : list pyfloat :=
  match pairs with
  | [] => []
  | (p, g) :: rest =>
      match float_ p, float_ g with
      | Some pf, Some gf => fabs (fsub pf gf) :: pair_errors rest
      | _, _ => pair_errors rest
      end
  end.

(** [mae] and [rmse] of a non-empty error list. *)
Definition mean_abs_error (errors : list pyfloat) : pyfloat :=
  fdiv (py_sum errors) (of_nat (length errors)).

Definition root_mean_square_error `{!PyBuiltins} (errors : list pyfloat) : pyfloat :=
  pow_half (fdiv (py_sum (map (fun e => fmul e e) errors)) (of_nat (length errors))).

(* ===================================================================== *)
(** * fusion/rule_based_fusion.py                                         *)
(* ===================================================================== *)

Module RuleBasedFusion.

Record Config : Type := {
  availability_weight : Q;
  constraint_satisfaction_weight : Q;
  conditional_error_weight : Q
}.

Definition gate (evidence_atoms : list EvidenceAtom) : bool * list (list MsgPart) :=
  let critical_failures :=
    List.filter EvaluatorAgent.is_critical_failure evidence_atoms in
  match critical_failures with
  | [] => (true, [])
  | _ =>
      (false,
       [[Lit "Found "; FmtNat (length critical_failures);
         Lit " critical constraint violations"]])
  end.

Definition _mae_to_score (mae : pyfloat) : pyfloat :=
  if fltb mae (Fin 5) then
    fsub (Fin 100) (fmul (fdiv mae (Fin 5)) (Fin 10))
  else if fltb mae (Fin 20) then
    fsub (Fin 90) (fmul (fdiv (fsub mae (Fin 5)) (Fin 15)) (Fin 20))
  else if fltb mae (Fin 50) then
    fsub (Fin 70) (fmul (fdiv (fsub mae (Fin 20)) (Fin 30)) (Fin 20))
  else if fltb mae (Fin 100) then
    fsub (Fin 50) (fmul (fdiv (fsub mae (Fin 50)) (Fin 50)) (Fin 20))
  else if fltb mae (Fin 200) then
    fsub (Fin 30) (fmul (fdiv (fsub mae (Fin 100)) (Fin 100)) (Fin 15))
  else
    py_max (Fin 5) (fsub (Fin 15) (fmul (fdiv (fsub mae (Fin 200)) (Fin 100)) (Fin 10))).

Definition _rmse_to_score (rmse : pyfloat) : pyfloat :=
  if fltb rmse (Fin 10) then
    fsub (Fin 100) (fmul (fdiv rmse (Fin 10)) (Fin 10))
  else if fltb rmse (Fin 50) then
    fsub (Fin 90) (fmul (fdiv (fsub rmse (Fin 10)) (Fin 40)) (Fin 20))
  else if fltb rmse (Fin 100) then
    fsub (Fin 70) (fmul (fdiv (fsub rmse (Fin 50)) (Fin 50)) (Fin 20))
  else if fltb rmse (Fin 200) then
    fsub (Fin 50) (fmul (fdiv (fsub rmse (Fin 100)) (Fin 100)) (Fin 20))
  else if fltb rmse (Fin 300) then
    fsub (Fin 30) (fmul (fdiv (fsub rmse (Fin 200)) (Fin 100)) (Fin 15))
  else
    py_max (Fin 5) (fsub (Fin 15) (fmul (fdiv (fsub rmse (Fin 300)) (Fin 100)) (Fin 10))).

(** The error list of this class: both values are converted with
    [float] first, so an array is skipped with its [TypeError]. *)
Definition field_errors `{!PyBuiltins} (json_data gold_data : gmap string value)
    (required_fields : list string) : list pyfloat :=
  flat_map (fun field =>
    match json_data !! field, gold_data !! field with
    | Some p, Some g =>
        match float_ p with
        | Some pred_val =>
            match float_ g with
            | Some gold_val => [fabs (fsub pred_val gold_val)]
            | None => []
            end
        | None => []
        end
    | _, _ => []
    end) required_fields.

Definition calculate_scores `{!PyBuiltins} (cfg : Config)
    (evidence_atoms : list EvidenceAtom) (protocol_result : ProtocolResult)
    (sample : Sample) (ctx : Context) : RuleScores :=
  let availability_score := get_completeness_rate protocol_result in
  let constraint_satisfaction_score := constraint_satisfaction false evidence_atoms in
  let conditional_error_score :=
    if available (gold sample) then
      match json_data ctx with
      | Some json_data =>
          let gold_data := gold_data sample in
          if bool_decide (json_data = ∅) || bool_decide (gold_data = ∅) then None
          else
            match field_errors json_data gold_data (required_fields ctx) with
            | [] => None
            | errors =>
                let mae_score := _mae_to_score (mean_abs_error errors) in
                let rmse_score := _rmse_to_score (root_mean_square_error errors) in
                Some (fadd (fmul mae_score (Fin 0.6)) (fmul rmse_score (Fin 0.4)))
            end
      | None => None
      end
    else None in
  let conditional_error_score :=
    default constraint_satisfaction_score conditional_error_score in
  let total_score :=
    fadd (fadd (fmul availability_score (Fin (availability_weight cfg)))
               (fmul constraint_satisfaction_score
                     (Fin (constraint_satisfaction_weight cfg))))
         (fmul conditional_error_score (Fin (conditional_error_weight cfg))) in
  {| availability_score := availability_score;
     constraint_satisfaction_score := constraint_satisfaction_score;
     conditional_error_score := conditional_error_score;
     total_score := total_score |}.

End RuleBasedFusion.

(* ===================================================================== *)
(** * fusion/rule_based_fusion_aligned.py                                 *)
(* ===================================================================== *)

Module RuleBasedFusionAligned.

Definition gate (evidence_atoms : list EvidenceAtom) : bool * list (list MsgPart) :=
  let critical_failures :=
    List.filter EvaluatorAgent.is_critical_failure evidence_atoms in
  match critical_failures with
  | [] => (true, [])
  | _ =>
      (false,
       [[Lit "Found "; FmtNat (length critical_failures);
         Lit " critical constraint violations"]])
  end.

(** One entry of the dictionary built by [_count_evidence_by_type]. *)
Record Counts : Type := {
  n_critical : nat;
  n_warning : nat;
  n_info : nat;
  n_pass : nat;
  n_fail : nat
}.

Definition zero_counts : Counts :=
  {| n_critical := 0; n_warning := 0; n_info := 0; n_pass := 0; n_fail := 0 |}.

Definition bump (atom : EvidenceAtom) (c : Counts) : Counts :=
  {| n_critical := n_critical c + (if decide (severity atom = CRITICAL) then 1 else 0);
     n_warning := n_warning c + (if decide (severity atom = WARNING) then 1 else 0);
     n_info := n_info c + (if decide (severity atom = INFO) then 1 else 0);
     n_pass := n_pass c + (if pass_ atom then 1 else 0);
     n_fail := n_fail c + (if pass_ atom then 0 else 1) |}.

(** [_count_evidence_by_type] on atom objects (the branch for atoms
    that were serialized to strings is not reached by the pipeline). *)
Definition _count_evidence_by_type (evidence_atoms : list EvidenceAtom)
  : gmap string Counts :=
  fold_left (fun counts atom =>
    <[type atom := bump atom (default zero_counts (counts !! type atom))]> counts)
    evidence_atoms ∅.

(** The ratio test of one requirement entry: [false] when the failure
    rate of the atoms of [ev_type] exceeds [max_failure_rate]. *)
Definition rate_ok (evidence_counts : gmap string Counts) (ev_type : string)
    (max_failure_rate : Q) : bool :=
  let c := default zero_counts (evidence_counts !! ev_type) in
  let total := (n_pass c + n_fail c)%nat in
  if (0 <? total)%nat then
    let failure_rate := inject_Z (Z.of_nat (n_fail c)) / inject_Z (Z.of_nat total) in
    negb (Qltb max_failure_rate failure_rate)
  else true.

(** An optional requirement: absent keys are not tested. *)
Definition when_present {X : Type} (r : option X) (test : X -> bool) : bool :=
  match r with
  | Some x => test x
  | None => true
  end.

(** The body of the loop over the grades: does [grade] match? *)
Definition grade_matches (dimension : Dimension) (grade : Grade)
    (evidence_counts : gmap string Counts) (protocol_result : ProtocolResult)
    (conditional_error : option ConditionalError) : bool :=
  let requirements := RUBRIC dimension grade in
  match dimension with
  | PROTOCOL_SCHEMA =>
      when_present (req_numeric_validity requirements)
        (rate_ok evidence_counts "numeric_validity")
      && when_present (req_parsing requirements)
           (fun s => eqb s (parsing_success protocol_result))
      && when_present (req_field_completeness requirements)
           (fun required_rate =>
              negb (fltb (get_completeness_rate protocol_result) (Fin required_rate)))
  | FIELD_VALIDITY =>
      when_present (req_range_sanity requirements)
        (rate_ok evidence_counts "range_sanity")
      && when_present (req_jump_dynamics requirements)
           (rate_ok evidence_counts "jump_dynamics")
  | PHYSICS_CONSISTENCY =>
      when_present (req_cross_field_consistency requirements)
        (rate_ok evidence_counts "cross_field_consistency")
      && when_present (req_physics_constraint requirements)
           (rate_ok evidence_counts "physics_constraint")
  | SAFETY_CONSTRAINT =>
      when_present (req_safety_constraint requirements)
        (rate_ok evidence_counts "safety_constraint")
  | PREDICTIVE_QUALITY =>
      match req_conditional_error requirements, conditional_error with
      | Some (req_mae, req_rmse), Some ce =>
          negb (fgtb (Fin req_mae) (ce_mae_score ce))
          && negb (fgtb (Fin req_rmse) (ce_rmse_score ce))
      | _, _ => true
      end
      && (if req_reliability requirements
          then match conditional_error with Some _ => true | None => false end
          else true)
  end.

(** [_determine_grade]: the first grade from A to D that matches, D
    when none does. *)
Definition _determine_grade (dimension : Dimension)
    (evidence_counts : gmap string Counts) (protocol_result : ProtocolResult)
    (conditional_error : option ConditionalError) : Grade :=
  match
    find (fun grade =>
      grade_matches dimension grade evidence_counts protocol_result conditional_error)
      [A; B; C; D]
  with
  | Some grade => grade
  | None => D
  end.

Definition _mae_to_score (mae : pyfloat) : pyfloat :=
  if fltb mae (Fin 5) then
    fsub (Fin 100) (fmul (fdiv mae (Fin 5)) (Fin 10))
  else if fltb mae (Fin 20) then
    fsub (Fin 90) (fmul (fdiv (fsub mae (Fin 5)) (Fin 15)) (Fin 20))
  else if fltb mae (Fin 50) then
    fsub (Fin 70) (fmul (fdiv (fsub mae (Fin 20)) (Fin 30)) (Fin 20))
  else if fltb mae (Fin 100) then
    fsub (Fin 50) (fmul (fdiv (fsub mae (Fin 50)) (Fin 50)) (Fin 20))
  else if fltb mae (Fin 200) then
    fsub (Fin 30) (fmul (fdiv (fsub mae (Fin 100)) (Fin 100)) (Fin 15))
  else
    py_max (Fin 5) (fsub (Fin 15) (fmul (fdiv (fsub mae (Fin 200)) (Fin 100)) (Fin 10))).

Definition _rmse_to_score (rmse : pyfloat) : pyfloat :=
  if fltb rmse (Fin 10) then
    fsub (Fin 100) (fmul (fdiv rmse (Fin 10)) (Fin 10))
  else if fltb rmse (Fin 50) then
    fsub (Fin 90) (fmul (fdiv (fsub rmse (Fin 10)) (Fin 40)) (Fin 20))
  else if fltb rmse (Fin 100) then
    fsub (Fin 70) (fmul (fdiv (fsub rmse (Fin 50)) (Fin 50)) (Fin 20))
  else if fltb rmse (Fin 200) then
    fsub (Fin 50) (fmul (fdiv (fsub rmse (Fin 100)) (Fin 100)) (Fin 20))
  else if fltb rmse (Fin 300) then
    fsub (Fin 30) (fmul (fdiv (fsub rmse (Fin 200)) (Fin 100)) (Fin 15))
  else
    py_max (Fin 5) (fsub (Fin 15) (fmul (fdiv (fsub rmse (Fin 300)) (Fin 100)) (Fin 10))).

(** The error list of this class. *)
Definition field_errors `{!PyBuiltins} (json_data gold_data : gmap string value)
    (required_fields : list string) : list pyfloat :=
  flat_map (fun field =>
    match json_data !! field, gold_data !! field with
    | Some (VList ps), Some (VList gs) => pair_errors (zip ps gs)
    | Some pred_val, Some gold_val => pair_errors [(pred_val, gold_val)]
    | _, _ => []
    end) required_fields.

Definition conditional_error_of `{!PyBuiltins} (sample : Sample) (ctx : Context)
  : option ConditionalError :=
  match json_data ctx with
  | Some json_data =>
      let gold_data := gold_data sample in
      if bool_decide (json_data = ∅) || bool_decide (gold_data = ∅) then None
      else
        match field_errors json_data gold_data (required_fields ctx) with
        | [] => None
        | errors =>
            let mae := mean_abs_error errors in
            let rmse := root_mean_square_error errors in
            let mae_score := _mae_to_score mae in
            let rmse_score := _rmse_to_score rmse in
            Some {| mae := mae; rmse := rmse;
                    ce_mae_score := mae_score; ce_rmse_score := rmse_score;
                    combined_score := fdiv (fadd mae_score rmse_score) (Fin 2.0) |}
        end
  | None => None
  end.

(** The grade (if any) and the score of one dimension. *)
Definition dimension_result (dimension : Dimension)
    (evidence_counts : gmap string Counts) (protocol_result : ProtocolResult)
    (conditional_error : option ConditionalError) : option Grade * pyfloat :=
  match dimension with
  | PREDICTIVE_QUALITY =>
      match conditional_error with
      | Some ce =>
          let predictive_quality_score :=
            fdiv (fadd (ce_mae_score ce) (ce_rmse_score ce)) (Fin 2.0) in
          (None, fdiv predictive_quality_score (Fin 100.0))
      | None => (None, Fin 0.0)
      end
  | _ =>
      let grade :=
        _determine_grade dimension evidence_counts protocol_result conditional_error in
      (Some grade, Fin (GRADE_SCORE_MAP grade))
  end.

(** [dimension_scores.get(key, 0.0)]. *)
Definition score_of (dimension_scores : list (string * pyfloat)) (key : string)
  : pyfloat :=
  match find (fun kv => string_eqb kv.1 key) dimension_scores with
  | Some kv => kv.2
  | None => Fin 0.0
  end.

Definition calculate_scores `{!PyBuiltins} (evidence_atoms : list EvidenceAtom)
    (protocol_result : ProtocolResult) (sample : Sample) (ctx : Context)
  : AlignedScores :=
  let evidence_counts := _count_evidence_by_type evidence_atoms in
  let conditional_error := conditional_error_of sample ctx in
  let results :=
    map (fun dimension =>
           (dimension,
            dimension_result dimension evidence_counts protocol_result conditional_error))
        all_dimensions in
  let grade_vector :=
    map (fun '(d, (g, s)) => (dimension_value d, grade_value <$> g)) results in
  let dimension_scores :=
    map (fun '(d, (g, s)) => (dimension_value d, s)) results in
  let overall_score :=
    match dimension_scores with
    | [] => Fin 0.0
    | _ => fdiv (py_sum (map snd dimension_scores)) (of_nat (length dimension_scores))
    end in
  let overall_grade :=
    if fgeb overall_score (Fin 0.875) then grade_value A
    else if fgeb overall_score (Fin 0.625) then grade_value B
    else if fgeb overall_score (Fin 0.25) then grade_value C
    else grade_value D in
  let availability_score :=
    fmul (get_completeness_rate protocol_result) (Fin 100.0) in
  let constraint_satisfaction_score := constraint_satisfaction true evidence_atoms in
  let conditional_error_score :=
    match conditional_error with
    | Some ce => combined_score ce
    | None => constraint_satisfaction_score
    end in
  let predictive_quality_score :=
    fmul (score_of dimension_scores (dimension_value PREDICTIVE_QUALITY)) (Fin 100.0) in
  {| grade_vector := grade_vector;
     overall_grade := overall_grade;
     dimension_scores := dimension_scores;
     dimension_scores_scaled :=
       map (fun '(k, v) => (k, fmul v (Fin 100.0))) dimension_scores;
     overall_score := fmul overall_score (Fin 100.0);
     predictive_quality_score := predictive_quality_score;
     mae_score := match conditional_error with
                  | Some ce => ce_mae_score ce | None => Fin 0.0 end;
     rmse_score := match conditional_error with
                   | Some ce => ce_rmse_score ce | None => Fin 0.0 end;
     al_availability_score := availability_score;
     al_constraint_satisfaction_score := constraint_satisfaction_score;
     al_conditional_error_score := conditional_error_score;
     al_total_score := fmul overall_score (Fin 100.0) |}.

End RuleBasedFusionAligned.

(* ===================================================================== *)
(** * utils/json_parser.py                                                *)
(* ===================================================================== *)

Definition error_keywords : list string :=
  ["api error"; "api request failed"; "timeout";
   "http error"; "status code";
   "forbidden"; "access denied"; "unauthorized"; "time out";
   "internal server error"; "rate limit exceeded";
   "connection error"; "network error"; "failed to connect";
   "service unavailable"; "bad request"; "invalid request";
   "authentication failed"; "quota exceeded"].

Definition is_api_error (response : string) : bool :=
  let response_lower := lower response in
  existsb (fun keyword => contains keyword response_lower) error_keywords.

(** The first element of [matches] that [json.loads] accepts. *)
Fixpoint first_loadable `{!PyBuiltins} (matches : list string)
  : option (gmap string value) :=
  match matches with
  | [] => None
  | m :: rest =>
      match json_loads m with
      | Some d => Some d
      | None => first_loadable rest
      end
  end.

Definition extract_json_from_response `{!PyBuiltins} (response : string)
  : option (gmap string value) :=
  match json_loads response with
  | Some d => Some d
  | None =>
      match first_loadable (findall_code_blocks response) with
      | Some d => Some d
      | None => first_loadable (findall_json_objects response)
      end
  end.

(* ===================================================================== *)
(** * main.py                                                             *)
(* ===================================================================== *)

Record EvalConfig : Type := {
  version : string;
  methodology : string;
  task_specs : list (string * value);
  constraint_lib_keys : list string;
  numeric_validity : NumericValidityChecker.Config;
  range_sanity : RangeSanityChecker.Config;
  jump_dynamics : JumpDynamicsChecker.Config;
  physics_constraints : PhysicsConstraintChecker.Config;
  agent_meta_prompt : EvaluatorAgent.Config;
  fusion_type : string;
  scoring_rules : RuleBasedFusion.Config
}.

(** The fusion object of the evaluator: [RuleBasedFusion] after
    construction, [RuleBasedFusionAligned] once the deterministic driver
    has replaced it.  (The LLM based fusion is outside the model.) *)
Inductive Fusion : Type := UseRuleBased | UseAligned.

Record AgentOutput : Type := {
  checklist : list EvaluatorAgent.ChecklistItem;
  adjudication : string;
  attribution : list EvaluatorAgent.Attribution
}.

Record ReproducibilityInfo : Type := {
  repro_model : string;
  repro_temperature : Q;
  verifier_count : nat;
  verifier_ids : list string
}.

(** The dictionary [trace]: the record of a transport error carries
    [config_version] only. *)
Inductive Trace : Type :=
  | ShortTrace (config_version : string)
  | FullTrace (config_version config_hash evaluator_version timestamp
               schema_version constraint_lib_version : string)
              (reproducibility_info : ReproducibilityInfo).

Record EvalRecord : Type := {
  rec_sample_id : string;
  rec_model_name : string;
  rec_task_id : string;
  protocol_result : ProtocolResult;
  evidence_pack : list EvidenceAtom;
  agent_output : option AgentOutput;
  optional_scores : OptionalScores;
  trace : Trace
}.

(** The attributes of a [FLYEvalPlusPlus] object that change while it
    runs: the counters of its six verifier objects and the per-model
    previous predictions. *)
Record Evaluator : Type := {
  ev_counters : gmap string nat;
  ev_previous_predictions : gmap string (gmap string value)
}.

Definition initial_evaluator : Evaluator :=
  {| ev_counters := ∅; ev_previous_predictions := ∅ |}.

Definition _get_required_fields (task_id : string) : list string :=
  ["Latitude (WGS84 deg)"; "Longitude (WGS84 deg)"; "GPS Altitude (WGS84 ft)";
   "GPS Ground Track (deg true)"; "Magnetic Heading (deg)";
   "GPS Velocity E (m/s)"; "GPS Velocity N (m/s)"; "GPS Velocity U (m/s)";
   "GPS Ground Speed (kt)"; "Roll (deg)"; "Pitch (deg)"; "Turn Rate (deg/sec)";
   "Slip/Skid"; "Normal Acceleration (G)"; "Lateral Acceleration (G)";
   "Vertical Speed (fpm)"; "Indicated Airspeed (kt)";
   "Baro Altitude (ft)"; "Pressure Altitude (ft)"].

Definition _get_missing_fields (json_data : option (gmap string value))
    (required_fields : list string) : list string :=
  match json_data with
  | None => required_fields
  | Some d => List.filter (fun f => bool_decide (d !! f = None)) required_fields
  end.

Definition _calculate_completeness (json_data : option (gmap string value))
    (required_fields : list string) : pyfloat :=
  match json_data with
  | None => Fin 0.0
  | Some d =>
      let provided :=
        length (List.filter (fun f => negb (bool_decide (d !! f = None))) required_fields) in
      fmul (fdiv (of_nat provided) (of_nat (length required_fields))) (Fin 100.0)
  end.

(** [_build_verifier_graph]: the six verifiers, the three constraint
    checkers enabled whatever the configuration says. *)
Definition _build_verifier_graph `{!PyBuiltins} (std : Standards) (config : EvalConfig)
  : VerifierGraph :=
  let graph := {| verifiers := []; dependencies := [] |} in
  let graph :=
    add_verifier graph
      {| verifier_id := NumericValidityChecker.verifier_id;
         verify := NumericValidityChecker.verify (numeric_validity config);
         get_capabilities := NumericValidityChecker.get_capabilities |} [] in
  let graph :=
    add_verifier graph
      {| verifier_id := RangeSanityChecker.verifier_id;
         verify := RangeSanityChecker.verify (range_sanity config);
         get_capabilities := RangeSanityChecker.get_capabilities |}
      ["NUMERIC_VALIDITY"] in
  let graph :=
    add_verifier graph
      {| verifier_id := JumpDynamicsChecker.verifier_id;
         verify := JumpDynamicsChecker.verify (jump_dynamics config);
         get_capabilities := JumpDynamicsChecker.get_capabilities |}
      ["NUMERIC_VALIDITY"] in
  let graph :=
    add_verifier graph
      {| verifier_id := CrossFieldConsistencyChecker.verifier_id;
         verify := CrossFieldConsistencyChecker.verify
                     {| CrossFieldConsistencyChecker.enabled := true |};
         get_capabilities := CrossFieldConsistencyChecker.get_capabilities |}
      ["RANGE_SANITY"] in
  let graph :=
    add_verifier graph
      {| verifier_id := PhysicsConstraintChecker.verifier_id;
         verify := PhysicsConstraintChecker.verify std
                     {| PhysicsConstraintChecker.enabled := true;
                        PhysicsConstraintChecker.m3_continuity_thresholds :=
                          PhysicsConstraintChecker.m3_continuity_thresholds
                            (physics_constraints config) |};
         get_capabilities := PhysicsConstraintChecker.get_capabilities |}
      ["RANGE_SANITY"] in
  add_verifier graph
    {| verifier_id := SafetyConstraintChecker.verifier_id;
       verify := SafetyConstraintChecker.verify
                   {| SafetyConstraintChecker.enabled := true |};
       get_capabilities := SafetyConstraintChecker.get_capabilities |}
    ["RANGE_SANITY"].

(** The three hashes of the trace. *)
Definition config_hash_of `{!PyBuiltins} (config : EvalConfig) : string :=
  sha256_16 (VDict [("version", VStr (version config));
                    ("methodology", VStr (methodology config));
                    ("task_specs", VDict (task_specs config));
                    ("constraint_lib_keys",
                     VList (map VStr (constraint_lib_keys config)))]).

Definition constraint_lib_hash_of `{!PyBuiltins} (std : Standards) : string :=
  sha256_16 (VDict [("field_limits_keys",
                     VList (map VStr (elements (dom (FIELD_LIMITS std)))));
                    ("jump_thresholds_keys",
                     VList (map VStr (elements (dom (JUMP_THRESHOLDS std)))))]).

Definition schema_hash_of `{!PyBuiltins} (required_fields : list string)
    (task_id : string) : string :=
  sha256_16 (VDict [("required_fields", VList (map VStr required_fields));
                    ("task_type", VStr task_id)]).

(** Step 7 of [evaluate_sample]: remember this sample's predictions
    for the model. *)
Definition update_previous_predictions (json_data : option (gmap string value))
    (required_fields : list string) (model_name : string)
    (previous_predictions : gmap string (gmap string value))
  : gmap string (gmap string value) :=
  let previous_predictions :=
    match previous_predictions !! model_name with
    | None => <[model_name := ∅]> previous_predictions
    | Some _ => previous_predictions
    end in
  match json_data with
  | Some d =>
      if bool_decide (d = ∅) then previous_predictions
      else
        fold_left (fun pp field =>
          match d !! field with
          | Some v =>
              <[model_name := <[field := v]> (default ∅ (pp !! model_name))]> pp
          | None => pp
          end) required_fields previous_predictions
  | None => previous_predictions
  end.

(** [FLYEvalPlusPlus.evaluate_sample].  [now] is the reading of
    [datetime.now().isoformat()] taken while the trace is built. *)
Definition evaluate_sample `{!PyBuiltins} (std : Standards) (config : EvalConfig)
    (fusion : Fusion) (sample : Sample) (model_output : ModelOutput) (now : string)
  : StateExc Evaluator EvalRecord :=
  fun self =>
  let json_data := extract_json_from_response (raw_response_text model_output) in
  if is_api_error (raw_response_text model_output) then
    (Done {| rec_sample_id := sample_id sample;
             rec_model_name := model_name model_output;
             rec_task_id := task_id sample;
             protocol_result :=
               {| parsing := Some {| success := false; error := Some "API error" |};
                  field_completeness := None;
                  type_validation := None |};
             evidence_pack := [];
             agent_output := None;
             optional_scores := NoScores;
             trace := ShortTrace (version config) |},
     self)
  else
    let ctx :=
      {| json_data := json_data;
         task_type := task_id sample;
         required_fields := _get_required_fields (task_id sample);
         previous_predictions := ev_previous_predictions self;
         ctx_sample := sample;
         ctx_model_output := model_output |} in
    let verifier_graph := _build_verifier_graph std config in
    match execute verifier_graph ctx (ev_counters self) with
    | (Raised, cs) =>
        (Raised,
         {| ev_counters := cs;
            ev_previous_predictions := ev_previous_predictions self |})
    | (Done evidence_atoms, cs) =>
        let verifier_capabilities :=
          flat_map get_capabilities (verifiers verifier_graph) in
        let checklist := EvaluatorAgent.generate_checklist verifier_capabilities in
        let updated_checklist :=
          EvaluatorAgent.organize_verification_workflow checklist evidence_atoms in
        let adjudication_result :=
          EvaluatorAgent.adjudicate evidence_atoms updated_checklist in
        let protocol_result :=
          {| parsing :=
               Some {| success := match json_data with Some _ => true | None => false end;
                       error := match json_data with
                                | Some d =>
                                    if bool_decide (d = ∅)
                                    then Some "JSON parsing failed" else None
                                | None => Some "JSON parsing failed"
                                end |};
             field_completeness :=
               Some {| missing_fields :=
                         _get_missing_fields json_data (required_fields ctx);
                       completeness_rate :=
                         _calculate_completeness json_data (required_fields ctx) |};
             type_validation := Some [] |} in
        let '(passed_gating, gating_reasons) :=
          match fusion with
          | UseRuleBased => RuleBasedFusion.gate evidence_atoms
          | UseAligned => RuleBasedFusionAligned.gate evidence_atoms
          end in
        let is_aligned_fusion :=
          match fusion with UseAligned => true | UseRuleBased => false end in
        let optional_scores :=
          if string_eqb (fusion_type config) "llm_based" || passed_gating
             || is_aligned_fusion then
            let gating := if negb passed_gating then Some gating_reasons else None in
            match fusion with
            | UseRuleBased =>
                FromRule (RuleBasedFusion.calculate_scores (scoring_rules config)
                            evidence_atoms protocol_result sample ctx) gating
            | UseAligned =>
                FromAligned (RuleBasedFusionAligned.calculate_scores
                               evidence_atoms protocol_result sample ctx) gating
            end
          else GatingFailed gating_reasons in
        let previous_predictions :=
          update_previous_predictions json_data (required_fields ctx)
            (model_name model_output) (ev_previous_predictions self) in
        let trace :=
          FullTrace (version config) (config_hash_of config) "1.0.0" now
            (schema_hash_of (required_fields ctx) (task_id sample))
            (constraint_lib_hash_of std)
            {| repro_model := EvaluatorAgent.model (agent_meta_prompt config);
               repro_temperature := EvaluatorAgent.temperature (agent_meta_prompt config);
               verifier_count := length (verifiers verifier_graph);
               verifier_ids := map verifier_id (verifiers verifier_graph) |} in
        (Done {| rec_sample_id := sample_id sample;
                 rec_model_name := model_name model_output;
                 rec_task_id := task_id sample;
                 protocol_result := protocol_result;
                 evidence_pack := evidence_atoms;
                 agent_output :=
                   Some {| checklist := updated_checklist;
                           adjudication := adjudication_result.1;
                           attribution := adjudication_result.2 |};
                 optional_scores := optional_scores;
                 trace := trace |},
         {| ev_counters := cs; ev_previous_predictions := previous_predictions |})
    end.

(** [evaluate_all_samples]: the samples with their outputs and the
    clock readings, in order. *)
Fixpoint evaluate_all_samples `{!PyBuiltins} (std : Standards) (config : EvalConfig)
    (fusion : Fusion) (inputs : list (Sample * ModelOutput * string))
  : StateExc Evaluator (list EvalRecord) :=
  match inputs with
  | [] => mret []
  | (sample, model_output, now) :: rest =>
      record ← evaluate_sample std config fusion sample model_output now;
      records ← evaluate_all_samples std config fusion rest;
      mret (record :: records)
  end.

(* ===================================================================== *)
(** * Specification predicates                                            *)
(* ===================================================================== *)

(** The atoms a [verify] body appends, whether it ends normally or not. *)
Definition atoms_of (m : Run unit) (counter : nat) : list EvidenceAtom :=
  evidence (m {| evidence_counter := counter; evidence := [] |}).2.

(** The pass flag and the severity of an atom agree. *)
Definition severity_matches_pass (a : EvidenceAtom) : Prop :=
  (pass_ a = true -> severity a = INFO) /\
  (pass_ a = false -> severity a = WARNING \/ severity a = CRITICAL).

(** A postcondition on the evidence list: a step started with atoms
    that satisfy [P] leaves atoms that satisfy [P]. *)
Definition emits {A : Type} (P : EvidenceAtom -> Prop) (m : Run A) : Prop :=
  forall s, Forall P (evidence s) -> Forall P (evidence (m s).2).

(** A step that always ends normally. *)
Definition no_raise {S A : Type} (m : StateExc S A) : Prop :=
  forall s, exists a, (m s).1 = Done a.

Definition is_fin (x : pyfloat) : Prop :=
  match x with Fin _ => True | _ => False end.

(** The counter a [verify] body leaves behind. *)
Definition counter_after (m : Run unit) (counter : nat) : nat :=
  evidence_counter (m {| evidence_counter := counter; evidence := [] |}).2.

(** The verifiers run one after the other, in list order: the evidence
    collected and the counters left. *)
Definition run_in_order (ctx : Context) (vs : list Verifier)
    (start : list EvidenceAtom * gmap string nat)
  : list EvidenceAtom * gmap string nat :=
  fold_left (fun '(ev, cs) v =>
    let c := counter_of cs (verifier_id v) in
    (ev ++ atoms_of (verify v ctx) c,
     <[verifier_id v := counter_after (verify v ctx) c]> cs)) vs start.

(** The evidence and the counters of the six-verifier graph. *)
Definition graph_evidence `{!PyBuiltins} (std : Standards) (config : EvalConfig)
    (ctx : Context) (cs : gmap string nat) : list EvidenceAtom :=
  (run_in_order ctx (verifiers (_build_verifier_graph std config)) ([], cs)).1.

Definition graph_counters `{!PyBuiltins} (std : Standards) (config : EvalConfig)
    (ctx : Context) (cs : gmap string nat) : gmap string nat :=
  (run_in_order ctx (verifiers (_build_verifier_graph std config)) ([], cs)).2.

(** What holds of every atom of the six verifiers of the graph: flag
    and severity agree, a failing numeric-validity atom is critical, and
    a safety atom is a failing one. *)
Definition graph_atom_ok (a : EvidenceAtom) : Prop :=
  severity_matches_pass a /\
  (type a = "numeric_validity" -> pass_ a = false -> severity a = CRITICAL) /\
  (type a = "safety_constraint" -> pass_ a = false).

(** The evidence list only grows. *)
Definition extends {A : Type} (m : Run A) : Prop :=
  forall s, exists more, evidence (m s).2 = evidence s ++ more.

(* ===================================================================== *)
(** * The scoring curves as the specification words them                 *)
(* ===================================================================== *)

(** The straight line from [(x0, y0)] to [(x1, y1)], at [x]. *)
Definition line (x0 x1 y0 y1 x : Q) : Q :=
  y0 + (y1 - y0) * ((x - x0) / (x1 - x0)).

(** MAE to score: [0,5): 100 to 90; [5,20): 90 to 70; [20,50): 70 to 50;
    [50,100): 50 to 30; [100,200): 30 to 15;
    [200,oo): max(5, 15 - (mae-200)/100 * 10). *)
Definition spec_mae_score (mae : Q) : Q :=
  if Qltb mae 5 then line 0 5 100 90 mae
  else if Qltb mae 20 then line 5 20 90 70 mae
  else if Qltb mae 50 then line 20 50 70 50 mae
  else if Qltb mae 100 then line 50 100 50 30 mae
  else if Qltb mae 200 then line 100 200 30 15 mae
  else Qmax 5 (15 - (mae - 200) / 100 * 10).

(** RMSE to score: [0,10): 100 to 90; [10,50): 90 to 70; [50,100): 70 to
    50; [100,200): 50 to 30; [200,300): 30 to 15;
    [300,oo): max(5, 15 - (rmse-300)/100 * 10). *)
Definition spec_rmse_score (rmse : Q) : Q :=
  if Qltb rmse 10 then line 0 10 100 90 rmse
  else if Qltb rmse 50 then line 10 50 90 70 rmse
  else if Qltb rmse 100 then line 50 100 70 50 rmse
  else if Qltb rmse 200 then line 100 200 50 30 rmse
  else if Qltb rmse 300 then line 200 300 30 15 rmse
  else Qmax 5 (15 - (rmse - 300) / 100 * 10).

(** A float is the rational [q], up to the equality of rationals. *)
Definition is_rational (x : pyfloat) (q : Q) : Prop :=
  match x with
  | Fin r => r == q
  | _ => False
  end.

(* ===================================================================== *)
(** * Example inputs                                                      *)
(* ===================================================================== *)

(** An instance of the library functions for the examples: it agrees
    with the library on the inputs used below.  The only reply text
    that is JSON is [reply_latitude]; the other reply texts are prose
    without braces or fences, on which nothing parses.  No example holds
    a string value; the velocity components of the examples are zero,
    so that the only square root taken is that of 0 and the only arc
    tangent that of (0, 0), both 0. *)
Definition double_quote : string := String (ascii_of_nat 34) EmptyString.

(** The reply [{"Latitude (WGS84 deg)": 40.0}]. *)
Definition reply_latitude : string :=
  "{" +:+ double_quote +:+ "Latitude (WGS84 deg)" +:+ double_quote +:+ ": 40.0}".

Definition latitude_only : gmap string value :=
  {[ "Latitude (WGS84 deg)" := VNum (Fin 40.0) ]}.

#[local] Instance example_builtins : PyBuiltins := {|
  float_of_str := fun _ => None;
  pow_half := fun x => x;
  atan2_degrees := fun _ _ => Fin 0;
  json_loads := fun s => if String.eqb s reply_latitude then Some latitude_only else None;
  findall_code_blocks := fun _ => [];
  findall_json_objects := fun _ => [];
  sha256_16 := fun _ => "0000000000000000"
|}.

Definition example_numeric_config : NumericValidityChecker.Config :=
  {| NumericValidityChecker.check_nan := true;
     NumericValidityChecker.check_inf := true;
     NumericValidityChecker.check_type := true;
     NumericValidityChecker.check_missing := true |}.

(** Jump thresholds for the examples: 200 ft on the GPS altitude. *)
Definition example_standards : Standards :=
  {| FIELD_LIMITS := ∅;
     JUMP_THRESHOLDS := {[ "GPS Altitude (WGS84 ft)" := 200 ]} |}.

Definition example_jump_config : JumpDynamicsChecker.Config :=
  {| JumpDynamicsChecker.mutation_thresholds := JUMP_THRESHOLDS example_standards;
     JumpDynamicsChecker.phase_aware := false;
     JumpDynamicsChecker.angle_fields :=
       {[ "GPS Ground Track (deg true)"; "Magnetic Heading (deg)" ]} |}.

(** The default configuration of [_create_default_config]. *)
Definition example_config : EvalConfig :=
  {| version := "1.0.0";
     methodology := "FLY-EVAL++";
     task_specs := [];
     constraint_lib_keys :=
       ["numeric_validity"; "range_sanity"; "jump_dynamics"; "physics_constraints";
        "safety_constraints"; "cross_field_consistency"];
     numeric_validity := example_numeric_config;
     range_sanity :=
       {| RangeSanityChecker.field_limits := FIELD_LIMITS example_standards;
          RangeSanityChecker.unit_validation := true |};
     jump_dynamics := example_jump_config;
     physics_constraints :=
       {| PhysicsConstraintChecker.enabled := true;
          PhysicsConstraintChecker.m3_continuity_thresholds := ∅ |};
     agent_meta_prompt :=
       {| EvaluatorAgent.model := "gpt-4o"; EvaluatorAgent.temperature := 0 |};
     fusion_type := "rule_based";
     scoring_rules :=
       {| RuleBasedFusion.availability_weight := 0.2;
          RuleBasedFusion.constraint_satisfaction_weight := 0.3;
          RuleBasedFusion.conditional_error_weight := 0.5 |} |}.

Definition example_sample (task : string) : Sample :=
  {| sample_id := "sample_0"; task_id := task; context := VNone;
     gold := {| next_second := None; T_plus_1 := None; available := false |} |}.

Definition example_output (task text : string) : ModelOutput :=
  {| model_name := "model_a"; mo_sample_id := "sample_0";
     raw_response_text := text; timestamp := "2025-01-19"; mo_task_id := task |}.

(** The context of a sample whose reply parsed to [d]. *)
Definition example_context (task : string) (d : gmap string value)
    (previous : gmap string (gmap string value)) : Context :=
  {| json_data := Some d;
     task_type := task;
     required_fields := _get_required_fields task;
     previous_predictions := previous;
     ctx_sample := example_sample task;
     ctx_model_output := example_output task "" |}.

(** The protocol result that [evaluate_sample] builds from the parsed
    reply. *)
Definition protocol_result_of (json_data : option (gmap string value)) (task : string)
  : ProtocolResult :=
  {| parsing :=
       Some {| success := match json_data with Some _ => true | None => false end;
               error := match json_data with
                        | Some d =>
                            if bool_decide (d = ∅)
                            then Some "JSON parsing failed" else None
                        | None => Some "JSON parsing failed"
                        end |};
     field_completeness :=
       Some {| missing_fields := _get_missing_fields json_data (_get_required_fields task);
               completeness_rate :=
                 _calculate_completeness json_data (_get_required_fields task) |};
     type_validation := Some [] |}.

(** The context that [evaluate_sample] hands to the verifiers. *)
Definition context_of `{!PyBuiltins} (self : Evaluator) (sample : Sample)
    (model_output : ModelOutput) : Context :=
  {| json_data := extract_json_from_response (raw_response_text model_output);
     task_type := task_id sample;
     required_fields := _get_required_fields (task_id sample);
     previous_predictions := ev_previous_predictions self;
     ctx_sample := sample;
     ctx_model_output := model_output |}.

Definition steady (x : Q) : value :=
  VList [VNum (Fin x); VNum (Fin x); VNum (Fin x)].

(** An M3 prediction: every required field a steady array of three. *)
Definition m3_steady : gmap string value :=
  list_to_map (map (fun f => (f, steady 0)) (_get_required_fields "M3")).

(** ... with one element of the latitude array not a number. *)
Definition m3_one_nan : gmap string value :=
  <[ "Latitude (WGS84 deg)" := VList [VNum (Fin 0); VNum NaN; VNum (Fin 0)] ]> m3_steady.

(** ... with the field [Slip/Skid] left out. *)
Definition m3_one_missing : gmap string value := delete "Slip/Skid" m3_steady.

(** ... with a GPS altitude that jumps by 300 ft and then by 700 ft. *)
Definition m3_two_jumps : gmap string value :=
  <[ "GPS Altitude (WGS84 ft)" := VList [VNum (Fin 0); VNum (Fin 300); VNum (Fin 1000)] ]>
    m3_steady.

(** A scalar prediction with a boolean where a number is expected. *)
Definition s1_boolean : gmap string value :=
  {[ "Slip/Skid" := VBool true ]}.

(** The context and the evidence of an M3 prediction [d] on a new
    evaluator. *)
Definition m3_context (d : gmap string value) : Context := example_context "M3" d ∅.

Definition m3_evidence (d : gmap string value) : list EvidenceAtom :=
  graph_evidence example_standards example_config (m3_context d) ∅.

(** The boolean prediction as a context. *)
Definition s1_boolean_context : Context := example_context "S1" s1_boolean ∅.

(* ===================================================================== *)
(** * Evidence populations                                                *)
(* ===================================================================== *)

Definition is_failing_of (t : string) (a : EvidenceAtom) : bool :=
  String.eqb (type a) t && negb (pass_ a).

Definition is_passing_of (t : string) (a : EvidenceAtom) : bool :=
  String.eqb (type a) t && pass_ a.

(** The number of failing and of passing atoms of type [t]. *)
Definition failures_of (t : string) (l : list EvidenceAtom) : nat :=
  length (List.filter (is_failing_of t) l).

Definition passes_of (t : string) (l : list EvidenceAtom) : nat :=
  length (List.filter (is_passing_of t) l).

(** A critical failing atom of type [t] is part of the evidence. *)
Definition has_critical (t : string) (l : list EvidenceAtom) : Prop :=
  exists a, In a l /\ type a = t /\ severity a = CRITICAL /\ pass_ a = false.

(** The grades of the deterministic rule adjudicator on an evidence
    list and a protocol result. *)
Definition rule_grade (dimension : Dimension) (evidence_atoms : list EvidenceAtom)
    (protocol_result : ProtocolResult) (conditional_error : option ConditionalError)
  : Grade :=
  RuleBasedFusionAligned._determine_grade dimension
    (RuleBasedFusionAligned._count_evidence_by_type evidence_atoms)
    protocol_result conditional_error.

(** The monotonicity property as the specification states it, for one
    graded sample. *)
Definition monotonicity_claim (evidence_atoms : list EvidenceAtom)
    (protocol_result : ProtocolResult) (conditional_error : option ConditionalError)
  : Prop :=
  (parsing_success protocol_result = false \/
   has_critical "numeric_validity" evidence_atoms ->
   rule_grade PROTOCOL_SCHEMA evidence_atoms protocol_result conditional_error = C \/
   rule_grade PROTOCOL_SCHEMA evidence_atoms protocol_result conditional_error = D) /\
  (has_critical "safety_constraint" evidence_atoms ->
   rule_grade SAFETY_CONSTRAINT evidence_atoms protocol_result conditional_error = C \/
   rule_grade SAFETY_CONSTRAINT evidence_atoms protocol_result conditional_error = D).

(** Some critical failing atom is part of the evidence, as a test. *)
Definition has_criticalb (t : string) (l : list EvidenceAtom) : bool :=
  existsb (fun a => String.eqb (type a) t
                    && bool_decide (severity a = CRITICAL) && negb (pass_ a)) l.

(* ===================================================================== *)
(** * Jumps within an array                                               *)
(* ===================================================================== *)

(** The adjacent-step changes of an array of numbers and their maximum,
    as the specification words them. *)
Definition adjacent_changes (cfg : JumpDynamicsChecker.Config) (name : string)
    (values : list pyfloat) : list pyfloat :=
  zip_with (fun prev curr => JumpDynamicsChecker.change_of cfg name curr prev)
    values (tail values).

Definition max_adjacent_change (cfg : JumpDynamicsChecker.Config) (name : string)
    (values : list pyfloat) : pyfloat :=
  fold_right py_max (Fin 0) (adjacent_changes cfg name values).

(** The severity the specification gives to a failing jump atom. *)
Definition spec_jump_severity (max_change : pyfloat) (threshold : Q) : Severity :=
  if fgtb (fdiv max_change (Fin threshold)) (Fin 2.0) then CRITICAL else WARNING.

(** The previous predictions of the model after one steady sample. *)
Definition steady_history : gmap string (gmap string value) :=
  {[ "model_a" := m3_steady ]}.

Definition gps_altitude : string := "GPS Altitude (WGS84 ft)".

(** The jump atoms of the field [gps_altitude] of [m3_two_jumps], after
    a steady sample and on a new evaluator. *)
Definition two_jumps_after_history : list EvidenceAtom :=
  atoms_of (JumpDynamicsChecker.verify_field example_jump_config "M3"
              m3_two_jumps m3_steady gps_altitude) 0.

Definition two_jumps_first_sample : list EvidenceAtom :=
  atoms_of (JumpDynamicsChecker.verify_field example_jump_config "M3"
              m3_two_jumps ∅ gps_altitude) 0.

(* ===================================================================== *)
(** * Records of the pipeline                                             *)
(* ===================================================================== *)

(** The record a run returned, if it returned one. *)
Definition record_of {S A : Type} (result : outcome A * S) : option A :=
  match result.1 with
  | Done a => Some a
  | Raised => None
  end.

(** The verdict of a record: [agent_output.get('adjudication')]. *)
Definition verdict (r : EvalRecord) : option string :=
  adjudication <$> agent_output r.

Definition critical_failure_in (l : list EvidenceAtom) : Prop :=
  exists a, In a l /\ severity a = CRITICAL /\ pass_ a = false.

(** The gating rule as the specification states it. *)
Definition gating_claim (r : EvalRecord) : Prop :=
  (verdict r = Some "ineligible" <->
   critical_failure_in (evidence_pack r) \/
   parsing_success (protocol_result r) = false \/
   fltb (get_completeness_rate (protocol_result r)) (Fin 80) = true) /\
  (verdict r <> Some "ineligible" -> verdict r = Some "eligible").

(** The record of a transport failure as the specification states it. *)
Definition transport_failure_claim (r : EvalRecord) : Prop :=
  verdict r = Some "ineligible" /\ length (evidence_pack r) = 1%nat.

(** The record that [evaluate_sample] returns on a transport error. *)
Definition api_error_record (config : EvalConfig) (sample : Sample)
    (model_output : ModelOutput) : EvalRecord :=
  {| rec_sample_id := sample_id sample;
     rec_model_name := model_name model_output;
     rec_task_id := task_id sample;
     protocol_result :=
       {| parsing := Some {| success := false; error := Some "API error" |};
          field_completeness := None;
          type_validation := None |};
     evidence_pack := [];
     agent_output := None;
     optional_scores := NoScores;
     trace := ShortTrace (version config) |}.

(** Three replies: prose that holds no JSON, a transport error, and
    the JSON object [reply_latitude]. *)
Definition prose_output : ModelOutput :=
  example_output "S1" "I cannot give a prediction.".

Definition error_output : ModelOutput :=
  example_output "S1" "API Error: 503".

Definition latitude_output : ModelOutput :=
  example_output "S1" reply_latitude.

(** A record without the clock reading of its trace. *)
Definition erase_timestamp (r : EvalRecord) : EvalRecord :=
  {| rec_sample_id := rec_sample_id r;
     rec_model_name := rec_model_name r;
     rec_task_id := rec_task_id r;
     protocol_result := protocol_result r;
     evidence_pack := evidence_pack r;
     agent_output := agent_output r;
     optional_scores := optional_scores r;
     trace :=
       match trace r with
       | ShortTrace v => ShortTrace v
       | FullTrace v h e _ s c i => FullTrace v h e "" s c i
       end |}.

(** The inputs of a run with the readings of the clock: [clock i] is
    read while sample [i] is evaluated. *)
Definition with_clock (inputs : list (Sample * ModelOutput)) (clock : nat -> string)
  : list (Sample * ModelOutput * string) :=
  imap (fun i '(sample, model_output) => (sample, model_output, clock i)) inputs.

(** One run of the pipeline: a new evaluator evaluates the inputs. *)
Definition run_pipeline `{!PyBuiltins} (std : Standards) (config : EvalConfig)
    (fusion : Fusion) (inputs : list (Sample * ModelOutput)) (clock : nat -> string)
  : outcome (list EvalRecord) * Evaluator :=
  evaluate_all_samples std config fusion (with_clock inputs clock) initial_evaluator.

(** Idempotence as the specification states it: two runs on the same
    inputs return the same records. *)
Definition idempotence_claim `{!PyBuiltins} (std : Standards) (config : EvalConfig)
    (fusion : Fusion) (inputs : list (Sample * ModelOutput)) : Prop :=
  forall clock1 clock2 : nat -> string,
    (run_pipeline std config fusion inputs clock1).1 =
    (run_pipeline std config fusion inputs clock2).1.

Definition morning : nat -> string := fun _ => "2025-01-19T09:00:00".

Definition evening : nat -> string := fun _ => "2025-01-19T21:00:00".

(** The evidence identifiers of a list of records. *)
Definition evidence_ids (records : list EvalRecord) : list (list string) :=
  map (fun r => map id (evidence_pack r)) records.

(** The clock reading kept in the trace of a record. *)
Definition trace_timestamp (r : EvalRecord) : option string :=
  match trace r with
  | ShortTrace _ => None
  | FullTrace _ _ _ t _ _ _ => Some t
  end.

Definition timestamps_of (result : outcome (list EvalRecord)) : list (option string) :=
  match result with
  | Done records => map trace_timestamp records
  | Raised => []
  end.

(* ===================================================================== *)
(** * Evidence identifiers                                                *)
(* ===================================================================== *)

(** The identifier that the verifier [vid] draws at counter [k]. *)
Definition evidence_id (vid : string) (k : nat) : string :=
  "EVID_" +:+ vid +:+ "_" +:+ pad4 k.

(** The number printed at the end of a padded decimal string. *)
Definition decode_decimal (s : string) : option nat :=
  Nat.of_uint <$> NilEmpty.uint_of_string s.

(** A Hoare triple on [Run]: from a state in [P] the step ends
    normally in [Q], or raises in a state in [E]. *)
Definition triple {A : Type} (P : VState -> Prop) (m : Run A)
    (Q : A -> VState -> Prop) (E : VState -> Prop) : Prop :=
  forall s, P s ->
    match m s with
    | (Done a, s') => Q a s'
    | (Raised, s') => E s'
    end.

(** A step that leaves the state as it is. *)
Definition no_write {A : Type} (m : Run A) : Prop :=
  forall s, (m s).2 = s.

(** The identifiers of the atoms collected so far were drawn by [vid]
    at the counters [ks], in increasing order, after [c0] and up to
    [bound]. *)
Definition ids_drawn (vid : string) (c0 bound : nat) (l : list EvidenceAtom) : Prop :=
  exists ks,
    map id l = map (evidence_id vid) ks /\
    StronglySorted lt ks /\
    Forall (fun k => (c0 < k <= bound)%nat) ks.

(** The invariant of a [verify] body of [vid] started at counter [c0]. *)
Definition ids_inv (vid : string) (c0 : nat) (s : VState) : Prop :=
  (c0 <= evidence_counter s)%nat /\
  ids_drawn vid c0 (evidence_counter s) (evidence s).

(** ... when the identifier [i] has just been drawn and not yet used. *)
Definition ids_pending (vid : string) (c0 : nat) (i : string) (s : VState) : Prop :=
  (c0 < evidence_counter s)%nat /\
  i = evidence_id vid (evidence_counter s) /\
  ids_drawn vid c0 (evidence_counter s - 1) (evidence s).

(** The six verifier identifiers of the graph. *)
Definition graph_verifier_ids : list string :=
  ["NUMERIC_VALIDITY"; "RANGE_SANITY"; "JUMP_DYNAMICS"; "CROSS_FIELD_CONSISTENCY";
   "PHYSICS_CONSTRAINT"; "SAFETY_CONSTRAINT"].

(** The atoms of one verifier of the graph, started at its counter in [cs]. *)
Definition verifier_atoms (ctx : Context) (v : Verifier) (cs : gmap string nat)
  : list EvidenceAtom :=
  atoms_of (verify v ctx) (counter_of cs (verifier_id v)).

(** An identifier drawn by a verifier of the graph between the counters
    [cs] and [cs']. *)
Definition id_between (cs cs' : gmap string nat) (i : string) : Prop :=
  exists vid k,
    In vid graph_verifier_ids /\ i = evidence_id vid k /\
    (counter_of cs vid < k <= counter_of cs' vid)%nat.

(** The two judgements of the identifier invariant: a step keeps it,
    and a step that starts with a drawn identifier re-establishes it. *)
Definition ids_ok {A : Type} (vid : string) (c0 : nat) (m : Run A) : Prop :=
  triple (ids_inv vid c0) m (fun _ => ids_inv vid c0) (ids_inv vid c0).

Definition ids_ok_pending {A : Type} (vid : string) (c0 : nat) (i : string)
    (m : Run A) : Prop :=
  triple (ids_pending vid c0 i) m (fun _ => ids_inv vid c0) (ids_inv vid c0).

(** A label: the verifier of the graph and the counter at which an
    identifier was drawn, between the counters [cs] and [cs']. *)
Definition label_between (cs cs' : gmap string nat) (lab : string * nat) : Prop :=
  In lab.1 graph_verifier_ids /\
  (counter_of cs lab.1 < lab.2 <= counter_of cs' lab.1)%nat.

(** The identifiers of [l] are those of pairwise distinct labels
    between [cs] and [cs']. *)
Definition labelled (cs cs' : gmap string nat) (l : list EvidenceAtom) : Prop :=
  exists labels : list (string * nat),
    map id l = map (fun lab => evidence_id lab.1 lab.2) labels /\
    NoDup labels /\
    Forall (label_between cs cs') labels.

(** No counter goes back. *)
Definition counters_le (cs cs' : gmap string nat) : Prop :=
  forall vid, (counter_of cs vid <= counter_of cs' vid)%nat.

(** All the evidence of a list of records. *)
Definition all_atoms (records : list EvalRecord) : list EvidenceAtom :=
  concat (map evidence_pack records).

(* ===================================================================== *)
(** * The blocks of the evidence and the checklist                        *)
(* ===================================================================== *)

(** The evidence types of the six verifiers of the graph, in the order
    of the graph. *)
Definition graph_evidence_types : list string :=
  ["numeric_validity"; "range_sanity"; "jump_dynamics"; "cross_field_consistency";
   "physics_constraint"; "safety_constraint"].

(** The atoms of [l] whose type is [t], as [organize_verification_workflow]
    selects them. *)
Definition atoms_of_type (t : string) (l : list EvidenceAtom) : list EvidenceAtom :=
  filter (fun atom => type atom = t) l.

(** The status that the workflow gives to a checklist item whose
    evidence type is [t]. *)
Definition status_of_type (t : string) (l : list EvidenceAtom) : string :=
  match atoms_of_type t l with
  | [] => "unknown"
  | relevant_atoms => if forallb pass_ relevant_atoms then "pass" else "fail"
  end.

(* ===================================================================== *)
(** * Attribution                                                         *)
(* ===================================================================== *)

(** A failing atom of severity critical or warning: what [adjudicate]
    collects in [all_failures]. *)
Definition is_failure (e : EvidenceAtom) : bool :=
  EvaluatorAgent.is_critical_failure e || EvaluatorAgent.is_warning_failure e.

(** The groups that [adjudicate] builds from the failures. *)
Definition failure_groups (evidence_atoms : list EvidenceAtom)
  : list (string * list EvidenceAtom) :=
  fold_left (fun groups failure =>
               EvaluatorAgent.group_add (EvaluatorAgent.group_key failure) failure groups)
    (List.filter EvaluatorAgent.is_critical_failure evidence_atoms ++
     List.filter EvaluatorAgent.is_warning_failure evidence_atoms) [].

(** Every group is non-empty and holds atoms that satisfy [P]. *)
Definition groups_ok (P : EvidenceAtom -> Prop)
    (groups : list (string * list EvidenceAtom)) : Prop :=
  Forall (fun kv => kv.2 <> [] /\ Forall P kv.2) groups.

(** What holds of an entry of the attribution list. *)
Definition attribution_ok (evidence_atoms : list EvidenceAtom)
    (a : EvaluatorAgent.Attribution) : Prop :=
  EvaluatorAgent.attr_evidence_ids a <> [] /\
  EvaluatorAgent.count a = length (EvaluatorAgent.attr_evidence_ids a) /\
  (EvaluatorAgent.attr_severity a = "critical" \/
   EvaluatorAgent.attr_severity a = "warning") /\
  Forall (fun i => exists f, In f evidence_atoms /\ id f = i /\ is_failure f = true)
    (EvaluatorAgent.attr_evidence_ids a).

(* ===================================================================== *)
(** * Failure rates and grades                                            *)
(* ===================================================================== *)

(** The failing atoms of type [t] are at most [num] in [den] of the
    atoms of that type; stated on the counts, so that it holds when no
    atom has the type. *)
Definition within (t : string) (l : list EvidenceAtom) (num den : nat) : Prop :=
  (den * failures_of t l <= num * (passes_of t l + failures_of t l))%nat.

(** The position of a grade on the ladder from A down to D. *)
Definition grade_rank (g : Grade) : nat :=
  match g with
  | A => 0
  | B => 1
  | C => 2
  | D => 3
  end.

(* ===================================================================== *)
(** * Scores and the gate                                                 *)
(* ===================================================================== *)

(** The failing critical atoms of an evidence list. *)
Definition critical_failures (l : list EvidenceAtom) : list EvidenceAtom :=
  List.filter EvaluatorAgent.is_critical_failure l.

(** The reason that a failed gate reports. *)
Definition gating_reason (n : nat) : list MsgPart :=
  [Lit "Found "; FmtNat n; Lit " critical constraint violations"].

(** The scores of a record were withheld. *)
Definition scores_withheld (r : EvalRecord) : Prop :=
  match optional_scores r with
  | GatingFailed _ => True
  | _ => False
  end.

(** The [gating_failed] entry of the scores of a record, when it has
    scores. *)
Definition gating_failed_of (r : EvalRecord) : option (option (list (list MsgPart))) :=
  match optional_scores r with
  | FromRule _ g => Some g
  | FromAligned _ g => Some g
  | _ => None
  end.

(* ===================================================================== *)
(** * What a verifier reports                                             *)
(* ===================================================================== *)

(** What an atom reports: the name it is about and the verdict. *)
Definition report (a : EvidenceAtom) : option string * bool := (field a, pass_ a).

(** A step ends normally, appends atoms with the reports [rs] to the
    evidence and draws exactly one identifier for each of them. *)
Definition reports {A : Type} (m : Run A) (rs : list (option string * bool)) : Prop :=
  forall s, exists a more,
    m s = (Done a, {| evidence_counter := evidence_counter s + length rs;
                      evidence := evidence s ++ more |}) /\
    map report more = rs.

(** The values that the numeric-validity check looks at for one
    required field, with the verdict on each: the field itself when it
    is missing or a scalar, every element when it is an array. *)
Definition numeric_checks `{!PyBuiltins} (cfg : NumericValidityChecker.Config)
    (d : gmap string value) (field : string) : list (option string * bool) :=
  match d !! field with
  | None => if NumericValidityChecker.check_missing cfg then [(Some field, false)] else []
  | Some (VList l) =>
      map (fun '(i, v) =>
             (Some (indexed field i), NumericValidityChecker.is_valid_numeric_value v))
          (enumerate l)
  | Some v => [(Some field, NumericValidityChecker.is_valid_numeric_value v)]
  end.

(** The range check of one required field: fields that the reply does
    not hold are skipped. *)
Definition range_checks `{!PyBuiltins} (cfg : RangeSanityChecker.Config)
    (d : gmap string value) (field : string) : list (option string * bool) :=
  match d !! field with
  | None => []
  | Some v => [(Some field, (RangeSanityChecker.check_range_validity cfg field v).1)]
  end.

(* ===================================================================== *)
(** * The five levels of the scored safety check                          *)
(* ===================================================================== *)

(** The scores that a scored safety atom can carry, with the verdict
    and the severity that go with each. *)
Definition safety_levels : list (pyfloat * bool * Severity) :=
  [(Fin 1.0, true, INFO); (Fin 0.75, true, INFO); (Fin 0.5, true, INFO);
   (Fin 0.25, false, WARNING); (Fin 0.0, false, CRITICAL)].

Definition on_safety_level (a : EvidenceAtom) : Prop :=
  type a = "safety_constraint" /\ scope a = SAMPLE /\
  exists s, score a = Some s /\ In (s, pass_ a, severity a) safety_levels.

Definition is_level (s : pyfloat) : Prop :=
  In s [Fin 1.0; Fin 0.75; Fin 0.5; Fin 0.25; Fin 0.0].

(* ===================================================================== *)
(** * The cross-field rules                                               *)
(* ===================================================================== *)

(** A passing comparison is recorded for the first time step only. *)
Definition passes_at_first_step (a : EvidenceAtom) : Prop :=
  type a = "cross_field_consistency" /\ scope a = CROSS_FIELD /\
  (pass_ a = true ->
   forall idx, In ("timestep", MNat idx) (meta a) -> idx = 0%nat).


(* ===================================================================== *)
(** * The evidence postcondition calculus                                 *)
(* ===================================================================== *)

Section Emits.
Context {P : EvidenceAtom -> Prop}.

Lemma emits_ret {A : Type} (a : A) : emits P (mret a).
Proof. intros s Hs. exact Hs. Qed.

Lemma emits_raise {A : Type} : emits P (@raise VState A).
Proof. intros s Hs. exact Hs. Qed.

Lemma emits_lift_raise {A : Type} (o : option A) : emits P (lift_raise o).
Proof. destruct o; [apply emits_ret | apply emits_raise]. Qed.

Lemma emits_bind {A B : Type} (m : Run A) (f : A -> Run B) :
  emits P m -> (forall a, emits P (f a)) -> emits P (m ≫= f).
Proof.
  intros Hm Hf s Hs. unfold mbind, StateExc_bind.
  specialize (Hm s Hs). destruct (m s) as [[a|] s']; simpl in *.
  - apply Hf, Hm.
  - exact Hm.
Qed.

Lemma emits_try (m : Run unit) : emits P m -> emits P (try_except m).
Proof.
  intros Hm s Hs. unfold try_except.
  specialize (Hm s Hs). destruct (m s) as [[a|] s']; exact Hm.
Qed.

Lemma emits_for_each {A : Type} (l : list A) (body : A -> Run unit) :
  (forall x, emits P (body x)) -> emits P (for_each l body).
Proof.
  intros Hb. induction l as [|x l IH]; simpl.
  - apply emits_ret.
  - apply emits_bind; [apply Hb | intros _; exact IH].
Qed.

Lemma emits_for_fold {A L : Type} (l : list A) (body : A -> L -> Run L) (acc : L) :
  (forall x acc, emits P (body x acc)) -> emits P (for_fold l body acc).
Proof.
  intros Hb. revert acc. induction l as [|x l IH]; intros acc; simpl.
  - apply emits_ret.
  - apply emits_bind; [apply Hb | intros acc'; apply IH].
Qed.

Lemma emits_generate_evidence_id (vid : string) :
  emits P (_generate_evidence_id vid).
Proof. intros s Hs. exact Hs. Qed.

Lemma emits_append (a : EvidenceAtom) : P a -> emits P (append a).
Proof.
  intros Ha s Hs. simpl. apply Forall_app. split; [exact Hs | constructor; [exact Ha | constructor]].
Qed.

Lemma emits_atoms_of (m : Run unit) (counter : nat) :
  emits P m -> Forall P (atoms_of m counter).
Proof. intros Hm. apply Hm. constructor. Qed.

End Emits.

(** One step of a postcondition proof: a rule of the calculus, or a
    case split on the test the code branches on. *)
Ltac emits_step :=
  first
  [ apply emits_ret
  | apply emits_raise
  | apply emits_lift_raise
  | apply emits_generate_evidence_id
  | apply emits_try
  | apply emits_for_each; intros
  | apply emits_for_fold; intros
  | apply emits_bind; [| intros]
  | match goal with
    | |- emits _ (let '(_, _) := ?x in _) => destruct x eqn:?
    | |- emits _ (if ?b then _ else _) => destruct b eqn:?
    | |- emits _ (match ?x with _ => _ end) => destruct x eqn:?
    end ].

Ltac emits_auto tac := repeat emits_step; try (apply emits_append; tac).

Lemma matches_pass_fail (id type : string) (field : option string)
    (sev : Severity) (sc : Scope) msg meta :
  sev <> INFO -> severity_matches_pass (mk_atom id type field false sev sc msg meta).
Proof.
  intros Hs. split; simpl; [discriminate | intros _]. destruct sev; auto. congruence.
Qed.

Lemma matches_pass_ok (id type : string) (field : option string)
    (sc : Scope) msg meta :
  severity_matches_pass (mk_atom id type field true INFO sc msg meta).
Proof. split; simpl; [reflexivity | discriminate]. Qed.

(** The verdict of a rule is computed as a pair before the atom is
    built: split the tests that produced it. *)
Ltac split_verdict :=
  repeat match goal with
         | H : (if ?b then _ else _) = _ |- _ => destruct b eqn:?
         end;
  simplify_eq.

Ltac atom_ok :=
  split_verdict;
  first [ apply matches_pass_ok
        | apply matches_pass_fail; repeat case_match; discriminate ].

(** The three parts of [graph_atom_ok] for an atom built by [mk_atom]
    with a literal type. *)
Ltac graph_ok :=
  split_verdict;
  (split; [atom_ok | split; simpl; intros; first [reflexivity | congruence]]).

(* ===================================================================== *)
(** * Pass flag and severity of the atoms of each verifier                *)
(* ===================================================================== *)

Lemma numeric_validity_atoms_ok `{!PyBuiltins} cfg ctx :
  emits graph_atom_ok (NumericValidityChecker.verify cfg ctx).
Proof.
  unfold NumericValidityChecker.verify, NumericValidityChecker.verify_field,
    NumericValidityChecker.check_value.
  emits_auto ltac:(unfold NumericValidityChecker.missing_atom,
    NumericValidityChecker.invalid_atom, NumericValidityChecker.valid_atom; graph_ok).
Qed.

Lemma failure_severity_not_info `{!PyBuiltins} cfg field value error_msg deviation :
  (RangeSanityChecker.failure_severity cfg field value error_msg deviation).1 <> INFO.
Proof.
  unfold RangeSanityChecker.failure_severity.
  repeat case_match; simpl; discriminate.
Qed.

Lemma range_sanity_atoms_ok `{!PyBuiltins} cfg ctx :
  emits graph_atom_ok (RangeSanityChecker.verify cfg ctx).
Proof.
  unfold RangeSanityChecker.verify, RangeSanityChecker.verify_field.
  repeat emits_step; try (apply emits_append; graph_ok).
  apply emits_append.
  split; [| split; simpl; intros; congruence].
  apply matches_pass_fail.
  match goal with
  | E : RangeSanityChecker.failure_severity ?c ?f ?v ?e ?d = (_, _) |- _ =>
      pose proof (failure_severity_not_info c f v e d) as Hne; rewrite E in Hne
  end.
  exact Hne.
Qed.

Lemma jump_dynamics_atoms_ok `{!PyBuiltins} cfg ctx :
  emits graph_atom_ok (JumpDynamicsChecker.verify cfg ctx).
Proof.
  unfold JumpDynamicsChecker.verify, JumpDynamicsChecker.verify_field.
  emits_auto graph_ok.
Qed.

Lemma cross_field_atoms_ok `{!PyBuiltins} cfg ctx :
  emits graph_atom_ok (CrossFieldConsistencyChecker.verify cfg ctx).
Proof.
  unfold CrossFieldConsistencyChecker.verify,
    CrossFieldConsistencyChecker.altitude_rule,
    CrossFieldConsistencyChecker.speed_rule,
    CrossFieldConsistencyChecker.track_rule,
    CrossFieldConsistencyChecker.grade_diff, zip3.
  emits_auto ltac:(simplify_eq; graph_ok).
Qed.

Lemma physics_atoms_ok `{!PyBuiltins} std cfg ctx :
  emits graph_atom_ok (PhysicsConstraintChecker.verify std cfg ctx).
Proof.
  unfold PhysicsConstraintChecker.verify,
    PhysicsConstraintChecker.continuity_rule,
    PhysicsConstraintChecker.continuity_field,
    PhysicsConstraintChecker.velocity_altitude_rule,
    PhysicsConstraintChecker.attitude_rule, zip3.
  emits_auto ltac:(simplify_eq; graph_ok).
Qed.

Lemma safety_atoms_ok `{!PyBuiltins} cfg ctx :
  emits graph_atom_ok (SafetyConstraintChecker.verify cfg ctx).
Proof.
  unfold SafetyConstraintChecker.verify,
    SafetyConstraintChecker.rapid_descent_rule,
    SafetyConstraintChecker.extreme_speed_rule,
    SafetyConstraintChecker.extreme_altitude_rule,
    SafetyConstraintChecker.stall_rule, zip3.
  emits_auto ltac:(simplify_eq; graph_ok).
Qed.

(* ===================================================================== *)
(** * Comparisons on rationals and floats                                 *)
(* ===================================================================== *)

Lemma Qltb_lt (x y : Q) : Qltb x y = true <-> x < y.
Proof.
  unfold Qltb. rewrite Qlt_alt. destruct (x ?= y); split; congruence.
Qed.

Lemma Qltb_ge (x y : Q) : Qltb x y = false <-> y <= x.
Proof.
  rewrite <- not_true_iff_false, Qltb_lt. split.
  - apply Qnot_lt_le.
  - apply Qle_not_lt.
Qed.

Lemma Qleb_le (x y : Q) : Qleb x y = true <-> x <= y.
Proof.
  unfold Qleb. rewrite Qle_alt. destruct (x ?= y); split; congruence.
Qed.

Lemma Qleb_gt (x y : Q) : Qleb x y = false <-> y < x.
Proof.
  rewrite <- not_true_iff_false, Qleb_le. split.
  - apply Qnot_le_lt.
  - apply Qlt_not_le.
Qed.

Lemma py_min_fin (a b : pyfloat) : is_fin a -> is_fin b -> is_fin (py_min a b).
Proof. unfold py_min. destruct (fltb b a); auto. Qed.

Lemma ladder_fin (x : pyfloat) (t1 t2 t3 t4 : Q) :
  is_fin (SafetyConstraintCheckerV2.ladder x t1 t2 t3 t4).
Proof. unfold SafetyConstraintCheckerV2.ladder. repeat case_match; exact I. Qed.

Lemma airspeed_score_fin (avg_error avg_rel_error max_error : pyfloat) errors :
  is_fin (SafetyConstraintCheckerV2._calculate_airspeed_safety_score
            avg_error avg_rel_error max_error errors).
Proof.
  unfold SafetyConstraintCheckerV2._calculate_airspeed_safety_score.
  repeat case_match; exact I.
Qed.

Lemma fold_left_fin {X : Type} (step : pyfloat -> X -> pyfloat) (l : list X)
    (score : pyfloat) :
  (forall s x, is_fin s -> is_fin (step s x)) ->
  is_fin score -> is_fin (fold_left step l score).
Proof.
  intros Hstep. revert score. induction l as [|x l IH]; intros score Hs; simpl.
  - exact Hs.
  - apply IH, Hstep, Hs.
Qed.

Lemma scored_atom_matches (id field : string) (score : pyfloat) msg meta :
  is_fin score ->
  severity_matches_pass (SafetyConstraintCheckerV2.scored_atom id field score msg meta).
Proof.
  destruct score as [q| | |]; try contradiction. intros _.
  unfold severity_matches_pass, SafetyConstraintCheckerV2.scored_atom. simpl.
  unfold SafetyConstraintCheckerV2.pass_of_score,
    SafetyConstraintCheckerV2.severity_of_score, fgeb. simpl.
  destruct (Qleb 0.5 q) eqn:Hp, (Qltb q 0.25) eqn:Hc, (Qltb q 0.5) eqn:Hw;
    split; intros Hx; try discriminate; auto;
    rewrite ?Qleb_le, ?Qleb_gt, ?Qltb_lt, ?Qltb_ge in *; exfalso;
    repeat match goal with
           | H1 : (?a <= ?b)%Q, H2 : (?b < ?a)%Q |- _ => exact (Qle_not_lt _ _ H1 H2)
           | H1 : (?a <= ?b)%Q, H2 : (?b < ?c)%Q |- _ =>
               assert (a < c)%Q by (eapply Qle_lt_trans; eassumption); clear H2
           end;
    try (match goal with H : (_ < _)%Q |- _ => revert H; compute; congruence end).
Qed.

Lemma safety_v2_matches `{!PyBuiltins} cfg ctx :
  emits severity_matches_pass (SafetyConstraintCheckerV2.verify cfg ctx).
Proof.
  unfold SafetyConstraintCheckerV2.verify,
    SafetyConstraintCheckerV2._check_airspeed_safety,
    SafetyConstraintCheckerV2._check_altitude_safety,
    SafetyConstraintCheckerV2._check_vertical_speed_safety.
  repeat emits_step; apply emits_append, scored_atom_matches.
  - apply airspeed_score_fin.
  - apply fold_left_fin; [| apply ladder_fin].
    intros s [[error pred] true_] Hs.
    destruct (_ && _); [apply py_min_fin; [exact Hs | exact I] | exact Hs].
  - apply fold_left_fin; [| apply ladder_fin].
    intros s [[error pred] true_] Hs.
    destruct (_ && _); [apply py_min_fin; [exact Hs | exact I] | exact Hs].
Qed.

(* ===================================================================== *)
(** * Steps that end normally                                             *)
(* ===================================================================== *)

Section NoRaise.
Context {S : Type}.

Lemma no_raise_ret {A : Type} (a : A) : no_raise (mret a : StateExc S A).
Proof. intros s. exists a. reflexivity. Qed.

Lemma no_raise_bind {A B : Type} (m : StateExc S A) (f : A -> StateExc S B) :
  no_raise m -> (forall a, no_raise (f a)) -> no_raise (m ≫= f).
Proof.
  intros Hm Hf s. unfold mbind, StateExc_bind.
  destruct (Hm s) as [a Ha]. destruct (m s) as [o s']; simpl in Ha; subst o.
  apply Hf.
Qed.

Lemma no_raise_try (m : StateExc S unit) : no_raise (try_except m).
Proof.
  intros s. unfold try_except. destruct (m s) as [[a|] s']; eexists; reflexivity.
Qed.

Lemma no_raise_for_each {A : Type} (l : list A) (body : A -> StateExc S unit) :
  (forall x, no_raise (body x)) -> no_raise (for_each l body).
Proof.
  intros Hb. induction l as [|x l IH]; simpl.
  - apply no_raise_ret.
  - apply no_raise_bind; [apply Hb | intros _; exact IH].
Qed.

Lemma no_raise_for_fold {A L : Type} (l : list A) (body : A -> L -> StateExc S L)
    (acc : L) :
  (forall x acc, no_raise (body x acc)) -> no_raise (for_fold l body acc).
Proof.
  intros Hb. revert acc. induction l as [|x l IH]; intros acc; simpl.
  - apply no_raise_ret.
  - apply no_raise_bind; [apply Hb | intros acc'; apply IH].
Qed.

End NoRaise.

Lemma no_raise_generate_evidence_id (vid : string) :
  no_raise (_generate_evidence_id vid).
Proof. intros s. eexists. reflexivity. Qed.

Lemma no_raise_append (a : EvidenceAtom) : no_raise (append a).
Proof. intros s. eexists. reflexivity. Qed.

Ltac no_raise_step :=
  first
  [ apply no_raise_ret
  | apply no_raise_try
  | apply no_raise_generate_evidence_id
  | apply no_raise_append
  | apply no_raise_for_each; intros
  | apply no_raise_for_fold; intros
  | apply no_raise_bind; [| intros]
  | match goal with
    | |- no_raise (let '(_, _) := ?x in _) => destruct x
    | |- no_raise (if ?b then _ else _) => destruct b
    | |- no_raise (match ?x with _ => _ end) => destruct x
    end ].

Lemma numeric_validity_no_raise `{!PyBuiltins} cfg ctx :
  no_raise (NumericValidityChecker.verify cfg ctx).
Proof.
  unfold NumericValidityChecker.verify, NumericValidityChecker.verify_field,
    NumericValidityChecker.check_value.
  repeat no_raise_step.
Qed.

Lemma range_sanity_no_raise `{!PyBuiltins} cfg ctx :
  no_raise (RangeSanityChecker.verify cfg ctx).
Proof.
  unfold RangeSanityChecker.verify, RangeSanityChecker.verify_field.
  repeat no_raise_step.
Qed.

Lemma jump_dynamics_no_raise `{!PyBuiltins} cfg ctx :
  no_raise (JumpDynamicsChecker.verify cfg ctx).
Proof.
  unfold JumpDynamicsChecker.verify, JumpDynamicsChecker.verify_field.
  repeat no_raise_step.
Qed.

Lemma cross_field_no_raise `{!PyBuiltins} cfg ctx :
  no_raise (CrossFieldConsistencyChecker.verify cfg ctx).
Proof.
  unfold CrossFieldConsistencyChecker.verify,
    CrossFieldConsistencyChecker.altitude_rule,
    CrossFieldConsistencyChecker.speed_rule,
    CrossFieldConsistencyChecker.track_rule.
  repeat no_raise_step.
Qed.

Lemma physics_no_raise `{!PyBuiltins} std cfg ctx :
  no_raise (PhysicsConstraintChecker.verify std cfg ctx).
Proof.
  unfold PhysicsConstraintChecker.verify,
    PhysicsConstraintChecker.continuity_rule,
    PhysicsConstraintChecker.continuity_field,
    PhysicsConstraintChecker.velocity_altitude_rule,
    PhysicsConstraintChecker.attitude_rule.
  repeat no_raise_step.
Qed.

Lemma safety_no_raise `{!PyBuiltins} cfg ctx :
  no_raise (SafetyConstraintChecker.verify cfg ctx).
Proof.
  unfold SafetyConstraintChecker.verify,
    SafetyConstraintChecker.rapid_descent_rule,
    SafetyConstraintChecker.extreme_speed_rule,
    SafetyConstraintChecker.extreme_altitude_rule,
    SafetyConstraintChecker.stall_rule.
  repeat no_raise_step.
Qed.

Lemma run_verify_done (m : Run unit) (counter : nat) :
  no_raise m ->
  run_verify m counter = (Some (atoms_of m counter), counter_after m counter).
Proof.
  intros Hm. unfold run_verify, atoms_of, counter_after.
  destruct (Hm {| evidence_counter := counter; evidence := [] |}) as [a Ha].
  destruct (m _) as [o s]; simpl in *; subst o. reflexivity.
Qed.

(* ===================================================================== *)
(** * The verifier graph runs its six verifiers in order                  *)
(* ===================================================================== *)

Lemma call_verify_done (ctx : Context) (v : Verifier) (st : ExecState) :
  no_raise (verify v ctx) ->
  call_verify ctx v st =
  (Done tt,
   {| executed := verifier_id v :: executed st;
      all_evidence :=
        all_evidence st ++
        atoms_of (verify v ctx) (counter_of (counters st) (verifier_id v));
      counters :=
        <[verifier_id v :=
            counter_after (verify v ctx) (counter_of (counters st) (verifier_id v))]>
          (counters st) |}).
Proof.
  intros Hn. unfold call_verify. rewrite run_verify_done by exact Hn. reflexivity.
Qed.

(** The control flow of [execute] on the shape of graph that
    [_build_verifier_graph] builds, whatever the six [verify] methods. *)
Lemma execute_six (ctx : Context) (cs : gmap string nat)
    (f1 f2 f3 f4 f5 f6 : Context -> Run unit) (c1 c2 c3 c4 c5 c6 : list string) :
  no_raise (f1 ctx) -> no_raise (f2 ctx) -> no_raise (f3 ctx) ->
  no_raise (f4 ctx) -> no_raise (f5 ctx) -> no_raise (f6 ctx) ->
  let vs :=
    [ {| verifier_id := "NUMERIC_VALIDITY"; verify := f1; get_capabilities := c1 |};
      {| verifier_id := "RANGE_SANITY"; verify := f2; get_capabilities := c2 |};
      {| verifier_id := "JUMP_DYNAMICS"; verify := f3; get_capabilities := c3 |};
      {| verifier_id := "CROSS_FIELD_CONSISTENCY"; verify := f4; get_capabilities := c4 |};
      {| verifier_id := "PHYSICS_CONSTRAINT"; verify := f5; get_capabilities := c5 |};
      {| verifier_id := "SAFETY_CONSTRAINT"; verify := f6; get_capabilities := c6 |} ] in
  execute
    {| verifiers := vs;
       dependencies :=
         [("NUMERIC_VALIDITY", []); ("RANGE_SANITY", ["NUMERIC_VALIDITY"]);
          ("JUMP_DYNAMICS", ["NUMERIC_VALIDITY"]);
          ("CROSS_FIELD_CONSISTENCY", ["RANGE_SANITY"]);
          ("PHYSICS_CONSTRAINT", ["RANGE_SANITY"]);
          ("SAFETY_CONSTRAINT", ["RANGE_SANITY"])] |} ctx cs
  = (Done (run_in_order ctx vs ([], cs)).1, (run_in_order ctx vs ([], cs)).2).
Proof.
  intros H1 H2 H3 H4 H5 H6 vs. subst vs.
  unfold execute, run_in_order.
  cbn -[call_verify atoms_of counter_after].
  unfold mbind, StateExc_bind, is_executed.
  cbn -[call_verify atoms_of counter_after].
  rewrite call_verify_done by exact H1. cbn -[call_verify atoms_of counter_after].
  rewrite call_verify_done by exact H2. cbn -[call_verify atoms_of counter_after].
  rewrite call_verify_done by exact H3. cbn -[call_verify atoms_of counter_after].
  rewrite call_verify_done by exact H4. cbn -[call_verify atoms_of counter_after].
  rewrite call_verify_done by exact H5. cbn -[call_verify atoms_of counter_after].
  rewrite call_verify_done by exact H6. cbn -[call_verify atoms_of counter_after].
  reflexivity.
Qed.

(** [execute] on the graph of the evaluator always returns. *)
Lemma execute_build_graph `{!PyBuiltins} (std : Standards) (config : EvalConfig)
    (ctx : Context) (cs : gmap string nat) :
  execute (_build_verifier_graph std config) ctx cs =
  (Done (graph_evidence std config ctx cs), graph_counters std config ctx cs).
Proof.
  unfold graph_evidence, graph_counters.
  apply (execute_six ctx cs
           (NumericValidityChecker.verify (numeric_validity config))
           (RangeSanityChecker.verify (range_sanity config))
           (JumpDynamicsChecker.verify (jump_dynamics config))
           (CrossFieldConsistencyChecker.verify
              {| CrossFieldConsistencyChecker.enabled := true |})
           (PhysicsConstraintChecker.verify std
              {| PhysicsConstraintChecker.enabled := true;
                 PhysicsConstraintChecker.m3_continuity_thresholds :=
                   PhysicsConstraintChecker.m3_continuity_thresholds
                     (physics_constraints config) |})
           (SafetyConstraintChecker.verify {| SafetyConstraintChecker.enabled := true |})).
  - apply numeric_validity_no_raise.
  - apply range_sanity_no_raise.
  - apply jump_dynamics_no_raise.
  - apply cross_field_no_raise.
  - apply physics_no_raise.
  - apply safety_no_raise.
Qed.

Lemma run_in_order_Forall (P : EvidenceAtom -> Prop) (ctx : Context)
    (vs : list Verifier) (ev : list EvidenceAtom) (cs : gmap string nat) :
  List.Forall (fun v => emits P (verify v ctx)) vs ->
  Forall P ev ->
  Forall P (run_in_order ctx vs (ev, cs)).1.
Proof.
  intros Hvs. revert ev cs. induction Hvs as [|v vs Hv _ IH]; intros ev cs Hev.
  - exact Hev.
  - unfold run_in_order. simpl. apply IH.
    apply Forall_app. split; [exact Hev | apply emits_atoms_of, Hv].
Qed.

Lemma graph_evidence_ok `{!PyBuiltins} (std : Standards) (config : EvalConfig)
    (ctx : Context) (cs : gmap string nat) :
  Forall graph_atom_ok (graph_evidence std config ctx cs).
Proof.
  unfold graph_evidence. apply run_in_order_Forall; [| constructor].
  unfold _build_verifier_graph, add_verifier. simpl.
  repeat constructor; simpl.
  - apply numeric_validity_atoms_ok.
  - apply range_sanity_atoms_ok.
  - apply jump_dynamics_atoms_ok.
  - apply cross_field_atoms_ok.
  - apply physics_atoms_ok.
  - apply safety_atoms_ok.
Qed.

Lemma Forall_weaken_ok (l : list EvidenceAtom) :
  Forall graph_atom_ok l -> Forall severity_matches_pass l.
Proof. intros H. eapply Forall_impl; [exact H |]. intros a Ha. apply Ha. Qed.

(* ===================================================================== *)
(** * C2 : pass flag and severity                                         *)
(* ===================================================================== *)

(** C2.  Every evidence atom emitted by a verifier has severity [info]
    when its pass flag is true and severity [warning] or [critical] when
    its pass flag is false.  This holds of the atoms of each of the
    seven verifier classes, from any counter and on any context, and of
    the evidence that the verifier graph collects. *)
Theorem evidence_severity_matches_pass `{!PyBuiltins}
    (std : Standards) (config : EvalConfig)
    (nv : NumericValidityChecker.Config) (rs : RangeSanityChecker.Config)
    (jd : JumpDynamicsChecker.Config) (cf : CrossFieldConsistencyChecker.Config)
    (ph : PhysicsConstraintChecker.Config) (sf : SafetyConstraintChecker.Config)
    (sf2 : SafetyConstraintCheckerV2.Config)
    (ctx : Context) (counter : nat) (cs : gmap string nat) :
  Forall severity_matches_pass (atoms_of (NumericValidityChecker.verify nv ctx) counter) /\
  Forall severity_matches_pass (atoms_of (RangeSanityChecker.verify rs ctx) counter) /\
  Forall severity_matches_pass (atoms_of (JumpDynamicsChecker.verify jd ctx) counter) /\
  Forall severity_matches_pass
    (atoms_of (CrossFieldConsistencyChecker.verify cf ctx) counter) /\
  Forall severity_matches_pass
    (atoms_of (PhysicsConstraintChecker.verify std ph ctx) counter) /\
  Forall severity_matches_pass (atoms_of (SafetyConstraintChecker.verify sf ctx) counter) /\
  Forall severity_matches_pass
    (atoms_of (SafetyConstraintCheckerV2.verify sf2 ctx) counter) /\
  Forall severity_matches_pass (graph_evidence std config ctx cs).
Proof.
  repeat split.
  - apply Forall_weaken_ok, emits_atoms_of, numeric_validity_atoms_ok.
  - apply Forall_weaken_ok, emits_atoms_of, range_sanity_atoms_ok.
  - apply Forall_weaken_ok, emits_atoms_of, jump_dynamics_atoms_ok.
  - apply Forall_weaken_ok, emits_atoms_of, cross_field_atoms_ok.
  - apply Forall_weaken_ok, emits_atoms_of, physics_atoms_ok.
  - apply Forall_weaken_ok, emits_atoms_of, safety_atoms_ok.
  - apply emits_atoms_of, safety_v2_matches.
  - apply Forall_weaken_ok, graph_evidence_ok.
Qed.

(* ===================================================================== *)
(** * C6 : the scoring curves                                             *)
(* ===================================================================== *)

Lemma py_max_Qmax (a b : Q) : is_rational (py_max (Fin a) (Fin b)) (Qmax a b).
Proof.
  unfold py_max, fgtb. simpl. destruct (Qltb a b) eqn:E; simpl.
  - apply Qltb_lt in E. symmetry. apply Q.max_r. apply Qlt_le_weak, E.
  - apply Qltb_ge in E. symmetry. apply Q.max_l, E.
Qed.

Lemma is_rational_eq (x : pyfloat) (q q' : Q) :
  is_rational x q -> q == q' -> is_rational x q'.
Proof. destruct x; simpl; try contradiction. intros H1 H2. rewrite H1. exact H2. Qed.

Lemma aligned_mae_curve (mae : Q) :
  is_rational (RuleBasedFusionAligned._mae_to_score (Fin mae)) (spec_mae_score mae).
Proof.
  unfold RuleBasedFusionAligned._mae_to_score, spec_mae_score, line.
  cbn -[py_max Qmax Qplus Qminus Qmult Qdiv].
  repeat (match goal with |- context [Qltb mae ?c] => destruct (Qltb mae c) end);
    try (simpl; unfold Qminus; field).
  change (Qeqb 100 0) with false. cbn -[py_max Qmax Qplus Qminus Qmult Qdiv Qopp].
  eapply is_rational_eq; [apply py_max_Qmax |].
  apply Q.max_compat; [reflexivity |]. unfold Qminus. field.
Qed.

Lemma aligned_rmse_curve (rmse : Q) :
  is_rational (RuleBasedFusionAligned._rmse_to_score (Fin rmse)) (spec_rmse_score rmse).
Proof.
  unfold RuleBasedFusionAligned._rmse_to_score, spec_rmse_score, line.
  cbn -[py_max Qmax Qplus Qminus Qmult Qdiv].
  repeat (match goal with |- context [Qltb rmse ?c] => destruct (Qltb rmse c) end);
    try (simpl; unfold Qminus; field).
  change (Qeqb 100 0) with false. cbn -[py_max Qmax Qplus Qminus Qmult Qdiv Qopp].
  eapply is_rational_eq; [apply py_max_Qmax |].
  apply Q.max_compat; [reflexivity |]. unfold Qminus. field.
Qed.

(** The two fusion classes carry the same curves. *)
Lemma fusion_curves_agree (x : pyfloat) :
  RuleBasedFusion._mae_to_score x = RuleBasedFusionAligned._mae_to_score x /\
  RuleBasedFusion._rmse_to_score x = RuleBasedFusionAligned._rmse_to_score x.
Proof. split; reflexivity. Qed.

(** C6.  For every non-negative MAE the MAE-to-score function of both
    fusion classes is the contractual piecewise-linear curve (100 to 90
    on [0,5), 90 to 70 on [5,20), 70 to 50 on [20,50), 50 to 30 on
    [50,100), 30 to 15 on [100,200), max(5, 15 - (mae-200)/100*10) from
    200 on), and for every non-negative RMSE the RMSE-to-score function
    is its curve with breakpoints 10, 50, 100, 200, 300. *)
Theorem error_to_score_follows_contract (e : Q) :
  0 <= e ->
  is_rational (RuleBasedFusionAligned._mae_to_score (Fin e)) (spec_mae_score e) /\
  is_rational (RuleBasedFusion._mae_to_score (Fin e)) (spec_mae_score e) /\
  is_rational (RuleBasedFusionAligned._rmse_to_score (Fin e)) (spec_rmse_score e) /\
  is_rational (RuleBasedFusion._rmse_to_score (Fin e)) (spec_rmse_score e).
Proof.
  intros _.
  destruct (fusion_curves_agree (Fin e)) as [Hm Hr]. rewrite Hm, Hr.
  repeat split; first [apply aligned_mae_curve | apply aligned_rmse_curve].
Qed.

Lemma error_to_score_follows_contract_witness :
  0 <= 7 /\
  is_rational (RuleBasedFusionAligned._mae_to_score (Fin 7)) (spec_mae_score 7) /\
  is_rational (RuleBasedFusion._mae_to_score (Fin 7)) (spec_mae_score 7) /\
  is_rational (RuleBasedFusionAligned._rmse_to_score (Fin 7)) (spec_rmse_score 7) /\
  is_rational (RuleBasedFusion._rmse_to_score (Fin 7)) (spec_rmse_score 7).
Proof.
  split; [discriminate | apply (error_to_score_follows_contract 7); discriminate].
Defined.

(* ===================================================================== *)
(** * C4 : grade scores and the overall score                             *)
(* ===================================================================== *)

(** [sum] of five finite scores. *)
Lemma py_sum_five (a b c d e : Q) :
  py_sum [Fin a; Fin b; Fin c; Fin d; Fin e] = Fin (0 + a + b + c + d + e).
Proof. reflexivity. Qed.

(** C4.  The grade-to-score mapping is exactly A = 1.0, B = 0.75,
    C = 0.5, D = 0.0, and for every evidence, protocol result and
    sample the aligned fusion reports five dimension scores (the mapped
    grades of the four graded dimensions and the predictive-quality
    score) whose arithmetic mean is the overall score: [overall_score]
    is their mean on the reported scale 0 to 100, that is 100 times the
    mean of [dimension_scores]. *)
Theorem overall_score_is_mean_of_dimension_scores `{!PyBuiltins}
    (evidence_atoms : list EvidenceAtom) (protocol_result : ProtocolResult)
    (sample : Sample) (ctx : Context) :
  (GRADE_SCORE_MAP A = 1.0 /\ GRADE_SCORE_MAP B = 0.75 /\
   GRADE_SCORE_MAP C = 0.5 /\ GRADE_SCORE_MAP D = 0.0) /\
  let r := RuleBasedFusionAligned.calculate_scores
             evidence_atoms protocol_result sample ctx in
  let grade_of d :=
    RuleBasedFusionAligned._determine_grade d
      (RuleBasedFusionAligned._count_evidence_by_type evidence_atoms)
      protocol_result (RuleBasedFusionAligned.conditional_error_of sample ctx) in
  exists s5 : pyfloat,
    grade_vector r =
      [(dimension_value PROTOCOL_SCHEMA, Some (grade_value (grade_of PROTOCOL_SCHEMA)));
       (dimension_value FIELD_VALIDITY, Some (grade_value (grade_of FIELD_VALIDITY)));
       (dimension_value PHYSICS_CONSISTENCY,
        Some (grade_value (grade_of PHYSICS_CONSISTENCY)));
       (dimension_value SAFETY_CONSTRAINT, Some (grade_value (grade_of SAFETY_CONSTRAINT)));
       (dimension_value PREDICTIVE_QUALITY, None)] /\
    dimension_scores r =
      [(dimension_value PROTOCOL_SCHEMA, Fin (GRADE_SCORE_MAP (grade_of PROTOCOL_SCHEMA)));
       (dimension_value FIELD_VALIDITY, Fin (GRADE_SCORE_MAP (grade_of FIELD_VALIDITY)));
       (dimension_value PHYSICS_CONSISTENCY,
        Fin (GRADE_SCORE_MAP (grade_of PHYSICS_CONSISTENCY)));
       (dimension_value SAFETY_CONSTRAINT,
        Fin (GRADE_SCORE_MAP (grade_of SAFETY_CONSTRAINT)));
       (dimension_value PREDICTIVE_QUALITY, s5)] /\
    overall_score r =
      fmul (fdiv (py_sum (map snd (dimension_scores r))) (of_nat 5)) (Fin 100.0) /\
    (forall q5 : Q, s5 = Fin q5 ->
       is_rational (overall_score r)
         (100 * ((GRADE_SCORE_MAP (grade_of PROTOCOL_SCHEMA)
                  + GRADE_SCORE_MAP (grade_of FIELD_VALIDITY)
                  + GRADE_SCORE_MAP (grade_of PHYSICS_CONSISTENCY)
                  + GRADE_SCORE_MAP (grade_of SAFETY_CONSTRAINT) + q5) / 5)) /\
       is_rational (overall_score r)
         ((100 * GRADE_SCORE_MAP (grade_of PROTOCOL_SCHEMA)
           + 100 * GRADE_SCORE_MAP (grade_of FIELD_VALIDITY)
           + 100 * GRADE_SCORE_MAP (grade_of PHYSICS_CONSISTENCY)
           + 100 * GRADE_SCORE_MAP (grade_of SAFETY_CONSTRAINT) + 100 * q5) / 5)).
Proof.
  split; [repeat split |].
  intros r grade_of. subst r.
  unfold RuleBasedFusionAligned.calculate_scores.
  cbn [grade_vector dimension_scores overall_score all_dimensions map snd fst length
       RuleBasedFusionAligned.dimension_result fmap option_fmap option_map].
  fold (grade_of PROTOCOL_SCHEMA) (grade_of FIELD_VALIDITY)
       (grade_of PHYSICS_CONSISTENCY) (grade_of SAFETY_CONSTRAINT).
  destruct (RuleBasedFusionAligned.conditional_error_of sample ctx) as [ce|].
  - exists (fdiv (fdiv (fadd (ce_mae_score ce) (ce_rmse_score ce)) (Fin 2.0)) (Fin 100.0)).
    split; [reflexivity |]. split; [reflexivity |]. split; [reflexivity |].
    intros q5 H5. cbn [snd]. rewrite H5, py_sum_five. split; simpl; field.
  - exists (Fin 0.0).
    split; [reflexivity |]. split; [reflexivity |]. split; [reflexivity |].
    intros q5 H5. cbn [snd]. rewrite H5, py_sum_five. split; simpl; field.
Qed.

(* ===================================================================== *)
(** * C10 : booleans pass the numeric-validity check                      *)
(* ===================================================================== *)

Lemma pad4_evidence_id (s : VState) :
  (_generate_evidence_id NumericValidityChecker.verifier_id s).1 =
  Done ("EVID_NUMERIC_VALIDITY_" +:+ pad4 (S (evidence_counter s))).
Proof. reflexivity. Qed.

Lemma extends_ret {A : Type} (a : A) : extends (mret a : Run A).
Proof. intros s. exists []. simpl. rewrite app_nil_r. reflexivity. Qed.

Lemma extends_bind {A B : Type} (m : Run A) (f : A -> Run B) :
  extends m -> (forall a, extends (f a)) -> extends (m ≫= f).
Proof.
  intros Hm Hf s. unfold mbind, StateExc_bind.
  destruct (Hm s) as [more1 H1]. destruct (m s) as [[a|] s']; simpl in *.
  - destruct (Hf a s') as [more2 H2]. exists (more1 ++ more2).
    rewrite H2, H1, app_assoc. reflexivity.
  - exists more1. exact H1.
Qed.

Lemma extends_for_each {A : Type} (l : list A) (body : A -> Run unit) :
  (forall x, extends (body x)) -> extends (for_each l body).
Proof.
  intros Hb. induction l as [|x l IH]; simpl.
  - apply extends_ret.
  - apply extends_bind; [apply Hb | intros _; exact IH].
Qed.

Lemma extends_emit (vid : string) (mk : string -> EvidenceAtom) :
  extends (i ← _generate_evidence_id vid; append (mk i)).
Proof. intros s. eexists. reflexivity. Qed.

Lemma numeric_verify_field_extends `{!PyBuiltins} cfg d field :
  extends (NumericValidityChecker.verify_field cfg d field).
Proof.
  unfold NumericValidityChecker.verify_field, NumericValidityChecker.check_value.
  repeat first
    [ apply extends_ret | apply extends_emit | apply extends_for_each; intros
    | match goal with
      | |- extends (let '(_, _) := ?x in _) => destruct x
      | |- extends (if ?b then _ else _) => destruct b
      | |- extends (match ?x with _ => _ end) => destruct x
      end ].
Qed.

Lemma numeric_verify_field_no_raise `{!PyBuiltins} cfg d field :
  no_raise (NumericValidityChecker.verify_field cfg d field).
Proof.
  unfold NumericValidityChecker.verify_field, NumericValidityChecker.check_value.
  repeat no_raise_step.
Qed.

(** The loop body on a boolean field appends one passing atom. *)
Lemma numeric_verify_field_boolean `{!PyBuiltins} cfg (d : gmap string value)
    (field : string) (b : bool) (s : VState) :
  d !! field = Some (VBool b) ->
  NumericValidityChecker.verify_field cfg d field s =
  (Done tt,
   {| evidence_counter := S (evidence_counter s);
      evidence :=
        evidence s ++
        [NumericValidityChecker.valid_atom
           ("EVID_NUMERIC_VALIDITY_" +:+ pad4 (S (evidence_counter s)))
           field (VBool b)] |}).
Proof.
  intros Hd. unfold NumericValidityChecker.verify_field. rewrite Hd.
  destruct b; reflexivity.
Qed.

(** What a loop body appended stays in the evidence of the whole loop. *)
Lemma for_each_keeps `{!PyBuiltins} cfg (d : gmap string value) (field : string)
    (b : bool) (fields : list string) (s : VState) :
  d !! field = Some (VBool b) ->
  In field fields ->
  exists c,
    In (NumericValidityChecker.valid_atom
          ("EVID_NUMERIC_VALIDITY_" +:+ pad4 c) field (VBool b))
       (evidence (for_each fields (NumericValidityChecker.verify_field cfg d) s).2).
Proof.
  intros Hd. revert s. induction fields as [|f fields IH]; intros s Hin; [destruct Hin|].
  simpl. unfold mbind, StateExc_bind.
  destruct Hin as [-> | Hin].
  - rewrite (numeric_verify_field_boolean cfg d field b s Hd).
    destruct (extends_for_each fields (NumericValidityChecker.verify_field cfg d)
                (numeric_verify_field_extends cfg d)
                {| evidence_counter := S (evidence_counter s);
                   evidence := evidence s ++
                     [NumericValidityChecker.valid_atom
                        ("EVID_NUMERIC_VALIDITY_" +:+ pad4 (S (evidence_counter s)))
                        field (VBool b)] |}) as [more Hmore].
    exists (S (evidence_counter s)). rewrite Hmore. simpl.
    apply in_or_app. left. apply in_or_app. right. left. reflexivity.
  - destruct (numeric_verify_field_no_raise cfg d f s) as [[] Hdone].
    destruct (NumericValidityChecker.verify_field cfg d f s) as [o s'].
    simpl in Hdone. subst o. apply IH, Hin.
Qed.

(** C10.  The numeric-validity predicate accepts booleans:
    [is_valid_numeric_value] is true of the JSON literals [true] and
    [false], so a required scalar field holding one receives a passing
    numeric_validity atom of severity info: the loop body for that field
    appends exactly that atom, and it is part of the evidence of
    [verify]. *)
Theorem boolean_field_passes_numeric_validity `{!PyBuiltins}
    (cfg : NumericValidityChecker.Config) (ctx : Context) (d : gmap string value)
    (name : string) (b : bool) (counter : nat) :
  json_data ctx = Some d ->
  In name (required_fields ctx) ->
  d !! name = Some (VBool b) ->
  NumericValidityChecker.is_valid_numeric_value (VBool b) = true /\
  (forall s,
     evidence (NumericValidityChecker.verify_field cfg d name s).2 =
     evidence s ++
     [NumericValidityChecker.valid_atom
        ("EVID_NUMERIC_VALIDITY_" +:+ pad4 (S (evidence_counter s))) name (VBool b)]) /\
  exists a,
    In a (atoms_of (NumericValidityChecker.verify cfg ctx) counter) /\
    type a = "numeric_validity" /\ field a = Some name /\
    pass_ a = true /\ severity a = INFO.
Proof.
  intros Hj Hin Hd. split; [destruct b; reflexivity |]. split.
  - intros s. rewrite (numeric_verify_field_boolean cfg d name b s Hd). reflexivity.
  - unfold atoms_of, NumericValidityChecker.verify. rewrite Hj.
    destruct (for_each_keeps cfg d name b (required_fields ctx)
                {| evidence_counter := counter; evidence := [] |} Hd Hin) as [c Hc].
    eexists. split; [exact Hc |]. repeat split.
Qed.

Lemma boolean_field_passes_numeric_validity_witness :
  (json_data s1_boolean_context = Some s1_boolean /\
   In "Slip/Skid" (required_fields s1_boolean_context) /\
   s1_boolean !! "Slip/Skid" = Some (VBool true)) /\
  NumericValidityChecker.is_valid_numeric_value (VBool true) = true /\
  (forall s,
     evidence (NumericValidityChecker.verify_field example_numeric_config
                 s1_boolean "Slip/Skid" s).2 =
     evidence s ++
     [NumericValidityChecker.valid_atom
        ("EVID_NUMERIC_VALIDITY_" +:+ pad4 (S (evidence_counter s)))
        "Slip/Skid" (VBool true)]) /\
  exists a,
    In a (atoms_of (NumericValidityChecker.verify example_numeric_config
                      s1_boolean_context) 0) /\
    type a = "numeric_validity" /\ field a = Some "Slip/Skid" /\
    pass_ a = true /\ severity a = INFO.
Proof.
  assert (H1 : json_data s1_boolean_context = Some s1_boolean) by reflexivity.
  assert (H2 : In "Slip/Skid" (required_fields s1_boolean_context))
    by (simpl; tauto).
  assert (H3 : s1_boolean !! "Slip/Skid" = Some (VBool true)) by reflexivity.
  split; [repeat split; assumption |].
  exact (boolean_field_passes_numeric_validity example_numeric_config
           s1_boolean_context s1_boolean "Slip/Skid" true 0 H1 H2 H3).
Defined.

(* ===================================================================== *)
(** * Counting evidence by type                                           *)
(* ===================================================================== *)

Lemma count_step_lookup (acc : gmap string RuleBasedFusionAligned.Counts)
    (a : EvidenceAtom) (t : string) :
  default RuleBasedFusionAligned.zero_counts
    (<[type a := RuleBasedFusionAligned.bump a
                   (default RuleBasedFusionAligned.zero_counts (acc !! type a))]> acc
       !! t) =
  if String.eqb (type a) t
  then RuleBasedFusionAligned.bump a
         (default RuleBasedFusionAligned.zero_counts (acc !! t))
  else default RuleBasedFusionAligned.zero_counts (acc !! t).
Proof.
  destruct (String.eqb_spec (type a) t) as [->|Hne].
  - rewrite lookup_insert_eq. reflexivity.
  - rewrite lookup_insert_ne by exact Hne. reflexivity.
Qed.

Lemma count_fold_lookup (l : list EvidenceAtom)
    (acc : gmap string RuleBasedFusionAligned.Counts) (t : string) :
  let step := fun counts atom =>
    <[type atom := RuleBasedFusionAligned.bump atom
                     (default RuleBasedFusionAligned.zero_counts (counts !! type atom))]>
      counts in
  let before := default RuleBasedFusionAligned.zero_counts (acc !! t) in
  let after := default RuleBasedFusionAligned.zero_counts (fold_left step l acc !! t) in
  RuleBasedFusionAligned.n_fail after =
    (RuleBasedFusionAligned.n_fail before + failures_of t l)%nat /\
  RuleBasedFusionAligned.n_pass after =
    (RuleBasedFusionAligned.n_pass before + passes_of t l)%nat.
Proof.
  revert acc. induction l as [|a l IH]; intros acc; cbn zeta.
  - unfold failures_of, passes_of. simpl. split; lia.
  - cbn [fold_left]. specialize (IH (<[type a := RuleBasedFusionAligned.bump a
        (default RuleBasedFusionAligned.zero_counts (acc !! type a))]> acc)).
    cbn zeta in IH. destruct IH as [IHf IHp]. rewrite IHf, IHp.
    rewrite count_step_lookup.
    unfold failures_of, passes_of, is_failing_of, is_passing_of. cbn [List.filter].
    unfold RuleBasedFusionAligned.bump.
    destruct (String.eqb (type a) t), (pass_ a); simpl; split; lia.
Qed.

Lemma counted (l : list EvidenceAtom) (t : string) :
  let c := default RuleBasedFusionAligned.zero_counts
             (RuleBasedFusionAligned._count_evidence_by_type l !! t) in
  RuleBasedFusionAligned.n_fail c = failures_of t l /\
  RuleBasedFusionAligned.n_pass c = passes_of t l.
Proof.
  cbn zeta. unfold RuleBasedFusionAligned._count_evidence_by_type.
  destruct (count_fold_lookup l ∅ t) as [Hf Hp]. cbn zeta in Hf, Hp.
  rewrite Hf, Hp, lookup_empty. simpl. split; reflexivity.
Qed.

(** The ratio test in terms of the evidence population. *)
Lemma rate_ok_population (l : list EvidenceAtom) (t : string) (max_failure_rate : Q) :
  RuleBasedFusionAligned.rate_ok
    (RuleBasedFusionAligned._count_evidence_by_type l) t max_failure_rate =
  if (0 <? passes_of t l + failures_of t l)%nat
  then negb (Qltb max_failure_rate
               (inject_Z (Z.of_nat (failures_of t l)) /
                inject_Z (Z.of_nat (passes_of t l + failures_of t l))))
  else true.
Proof.
  unfold RuleBasedFusionAligned.rate_ok.
  destruct (counted l t) as [Hf Hp]. cbn zeta in Hf, Hp. rewrite Hf, Hp.
  reflexivity.
Qed.

Lemma has_critical_failures (t : string) (l : list EvidenceAtom) :
  has_critical t l -> (0 < failures_of t l)%nat.
Proof.
  intros (a & Hin & Ht & _ & Hp). unfold failures_of.
  assert (Hf : In a (List.filter (is_failing_of t) l)).
  { apply filter_In. split; [exact Hin |].
    unfold is_failing_of. rewrite Hp. apply andb_true_iff. split; [| reflexivity].
    apply String.eqb_eq, Ht. }
  destruct (List.filter (is_failing_of t) l); [destruct Hf | simpl; lia].
Qed.

Lemma inject_nat_pos (n : nat) : (0 < n)%nat -> 0 < inject_Z (Z.of_nat n).
Proof. intros Hn. unfold Qlt. simpl. lia. Qed.

Lemma ratio_one (f : nat) :
  (0 < f)%nat -> inject_Z (Z.of_nat f) / inject_Z (Z.of_nat f) == 1.
Proof.
  intros Hf. unfold Qdiv. apply Qmult_inv_r.
  intros Hz. pose proof (inject_nat_pos f Hf) as Hp. rewrite Hz in Hp.
  exact (Qlt_irrefl 0 Hp).
Qed.

(** A positive number of failures exceeds the rate zero. *)
Lemma rate_zero_exceeded (f p : nat) :
  (0 < f)%nat ->
  Qltb 0.0 (inject_Z (Z.of_nat f) / inject_Z (Z.of_nat (p + f))) = true.
Proof.
  intros Hf. apply Qltb_lt.
  apply Qlt_shift_div_l.
  - apply inject_nat_pos. lia.
  - unfold Qlt. simpl. lia.
Qed.

(** With no passing atom the failure rate is one, above [r < 1]. *)
Lemma rate_one_exceeds (f : nat) (r : Q) :
  (0 < f)%nat -> r < 1 ->
  Qltb r (inject_Z (Z.of_nat f) / inject_Z (Z.of_nat (0 + f))) = true.
Proof.
  intros Hf Hr. apply Qltb_lt. simpl plus. rewrite (ratio_one f Hf). exact Hr.
Qed.

Lemma rate_one_allowed (f : nat) :
  (0 < f)%nat ->
  Qltb 1.0 (inject_Z (Z.of_nat f) / inject_Z (Z.of_nat (0 + f))) = false.
Proof.
  intros Hf. apply Qltb_ge. simpl plus. rewrite (ratio_one f Hf). discriminate.
Qed.

(** More than one failure in twenty exceeds the rate 0.05. *)
Lemma rate_five_percent_exceeded (f p : nat) :
  (p < 19 * f)%nat ->
  Qltb 0.05 (inject_Z (Z.of_nat f) / inject_Z (Z.of_nat (p + f))) = true.
Proof.
  intros Hf. apply Qltb_lt.
  apply Qlt_shift_div_l.
  - apply inject_nat_pos. lia.
  - unfold Qlt. simpl. lia.
Qed.

(** More than one failure in ten exceeds the rate 0.10. *)
Lemma rate_ten_percent_exceeded (f p : nat) :
  (p < 9 * f)%nat ->
  Qltb 0.10 (inject_Z (Z.of_nat f) / inject_Z (Z.of_nat (p + f))) = true.
Proof.
  intros Hf. apply Qltb_lt.
  apply Qlt_shift_div_l.
  - apply inject_nat_pos. lia.
  - unfold Qlt. simpl. lia.
Qed.

(* ===================================================================== *)
(** * C3, C5 : grades of the deterministic rule adjudicator               *)
(* ===================================================================== *)

(** The grade of a ladder dimension does not read the conditional error. *)
Lemma determine_grade_ignores_error (d : Dimension) counts pr ce :
  d <> PREDICTIVE_QUALITY ->
  RuleBasedFusionAligned._determine_grade d counts pr ce =
  RuleBasedFusionAligned._determine_grade d counts pr None.
Proof. intros Hd. destruct d; [reflexivity .. | congruence]. Qed.

Ltac split_grades :=
  repeat match goal with
         | |- context [if ?b then _ else _] => destruct b
         end.

(** The three tests of a Protocol-Schema cell. *)
Lemma protocol_matches (g : Grade) (l : list EvidenceAtom) (pr : ProtocolResult) ce
    (rate : Q) (parse : bool) (completeness : Q) :
  RUBRIC PROTOCOL_SCHEMA g = protocol_requirements rate parse completeness ->
  RuleBasedFusionAligned.grade_matches PROTOCOL_SCHEMA g
    (RuleBasedFusionAligned._count_evidence_by_type l) pr ce =
  RuleBasedFusionAligned.rate_ok
    (RuleBasedFusionAligned._count_evidence_by_type l) "numeric_validity" rate
  && eqb parse (parsing_success pr)
  && negb (fltb (get_completeness_rate pr) (Fin completeness)).
Proof.
  intros Hr. unfold RuleBasedFusionAligned.grade_matches. rewrite Hr. reflexivity.
Qed.

Lemma safety_matches (g : Grade) (l : list EvidenceAtom) (pr : ProtocolResult) ce
    (rate : Q) :
  RUBRIC SAFETY_CONSTRAINT g = safety_requirements rate ->
  RuleBasedFusionAligned.grade_matches SAFETY_CONSTRAINT g
    (RuleBasedFusionAligned._count_evidence_by_type l) pr ce =
  RuleBasedFusionAligned.rate_ok
    (RuleBasedFusionAligned._count_evidence_by_type l) "safety_constraint" rate.
Proof.
  intros Hr. unfold RuleBasedFusionAligned.grade_matches. rewrite Hr. reflexivity.
Qed.

Lemma parse_failure_grade_D (l : list EvidenceAtom) (pr : ProtocolResult)
    (ce : option ConditionalError) :
  parsing_success pr = false -> rule_grade PROTOCOL_SCHEMA l pr ce = D.
Proof.
  intros Hp. unfold rule_grade, RuleBasedFusionAligned._determine_grade.
  cbn [find].
  rewrite (protocol_matches A l pr ce 0.0 true 1.0) by reflexivity.
  rewrite (protocol_matches B l pr ce 0.05 true 1.0) by reflexivity.
  rewrite (protocol_matches C l pr ce 0.15 true 0.9) by reflexivity.
  rewrite Hp. cbn [eqb]. rewrite !andb_false_r. cbn [andb].
  destruct (RuleBasedFusionAligned.grade_matches _ D _ _ _); reflexivity.
Qed.

Lemma numeric_failure_excludes_A (l : list EvidenceAtom) (pr : ProtocolResult)
    (ce : option ConditionalError) :
  (0 < failures_of "numeric_validity" l)%nat ->
  rule_grade PROTOCOL_SCHEMA l pr ce <> A.
Proof.
  intros Hf. unfold rule_grade, RuleBasedFusionAligned._determine_grade.
  cbn [find].
  rewrite (protocol_matches A l pr ce 0.0 true 1.0) by reflexivity.
  rewrite rate_ok_population.
  replace (0 <? passes_of "numeric_validity" l + failures_of "numeric_validity" l)%nat
    with true by (symmetry; apply Nat.ltb_lt; lia).
  rewrite rate_zero_exceeded by exact Hf. cbn [negb andb].
  split_grades; discriminate.
Qed.

Lemma numeric_failures_exclude_B (l : list EvidenceAtom) (pr : ProtocolResult)
    (ce : option ConditionalError) :
  (passes_of "numeric_validity" l < 19 * failures_of "numeric_validity" l)%nat ->
  rule_grade PROTOCOL_SCHEMA l pr ce = C \/ rule_grade PROTOCOL_SCHEMA l pr ce = D.
Proof.
  intros Hf. unfold rule_grade, RuleBasedFusionAligned._determine_grade.
  cbn [find].
  rewrite (protocol_matches A l pr ce 0.0 true 1.0) by reflexivity.
  rewrite (protocol_matches B l pr ce 0.05 true 1.0) by reflexivity.
  rewrite !rate_ok_population.
  replace (0 <? passes_of "numeric_validity" l + failures_of "numeric_validity" l)%nat
    with true by (symmetry; apply Nat.ltb_lt; lia).
  rewrite rate_zero_exceeded by lia.
  rewrite rate_five_percent_exceeded by exact Hf. cbn [negb andb].
  split_grades; auto.
Qed.

Lemma safety_failures_only_grade_D (l : list EvidenceAtom) (pr : ProtocolResult)
    (ce : option ConditionalError) :
  passes_of "safety_constraint" l = 0%nat ->
  (0 < failures_of "safety_constraint" l)%nat ->
  rule_grade SAFETY_CONSTRAINT l pr ce = D.
Proof.
  intros Hp Hf. unfold rule_grade, RuleBasedFusionAligned._determine_grade.
  cbn [find].
  rewrite (safety_matches A l pr ce 0.0) by reflexivity.
  rewrite (safety_matches B l pr ce 0.10) by reflexivity.
  rewrite (safety_matches C l pr ce 0.25) by reflexivity.
  rewrite (safety_matches D l pr ce 1.0) by reflexivity.
  rewrite !rate_ok_population, Hp.
  replace (0 <? 0 + failures_of "safety_constraint" l)%nat
    with true by (symmetry; apply Nat.ltb_lt; lia).
  rewrite !rate_one_exceeds by (first [exact Hf | reflexivity]).
  rewrite rate_one_allowed by exact Hf. reflexivity.
Qed.

Lemma safety_failure_excludes_A (l : list EvidenceAtom) (pr : ProtocolResult)
    (ce : option ConditionalError) :
  (0 < failures_of "safety_constraint" l)%nat ->
  rule_grade SAFETY_CONSTRAINT l pr ce <> A.
Proof.
  intros Hf. unfold rule_grade, RuleBasedFusionAligned._determine_grade.
  cbn [find].
  rewrite (safety_matches A l pr ce 0.0) by reflexivity.
  rewrite rate_ok_population.
  replace (0 <? passes_of "safety_constraint" l + failures_of "safety_constraint" l)%nat
    with true by (symmetry; apply Nat.ltb_lt; lia).
  rewrite rate_zero_exceeded by exact Hf. cbn [negb].
  split_grades; discriminate.
Qed.

Lemma safety_failures_exclude_B (l : list EvidenceAtom) (pr : ProtocolResult)
    (ce : option ConditionalError) :
  (passes_of "safety_constraint" l < 9 * failures_of "safety_constraint" l)%nat ->
  rule_grade SAFETY_CONSTRAINT l pr ce = C \/ rule_grade SAFETY_CONSTRAINT l pr ce = D.
Proof.
  intros Hf. unfold rule_grade, RuleBasedFusionAligned._determine_grade.
  cbn [find].
  rewrite (safety_matches A l pr ce 0.0) by reflexivity.
  rewrite (safety_matches B l pr ce 0.10) by reflexivity.
  rewrite !rate_ok_population.
  replace (0 <? passes_of "safety_constraint" l + failures_of "safety_constraint" l)%nat
    with true by (symmetry; apply Nat.ltb_lt; lia).
  rewrite rate_zero_exceeded by lia.
  rewrite rate_ten_percent_exceeded by exact Hf. cbn [negb].
  split_grades; auto.
Qed.

(** The safety checker of the graph emits failing atoms only. *)
Lemma safety_atoms_all_fail (l : list EvidenceAtom) :
  Forall graph_atom_ok l -> passes_of "safety_constraint" l = 0%nat.
Proof.
  intros Hl. unfold passes_of. induction Hl as [|a l Ha _ IH]; [reflexivity |].
  cbn [List.filter]. unfold is_passing_of at 1.
  destruct (String.eqb_spec (type a) "safety_constraint") as [Ht|Ht]; cbn [andb].
  - destruct Ha as (_ & _ & Hs). rewrite (Hs Ht). exact IH.
  - exact IH.
Qed.

Lemma has_criticalb_sound (t : string) (l : list EvidenceAtom) :
  has_criticalb t l = true -> has_critical t l.
Proof.
  unfold has_criticalb, has_critical. intros H.
  apply existsb_exists in H. destruct H as (a & Hin & Ha).
  apply andb_true_iff in Ha. destruct Ha as [Ha Hp].
  apply andb_true_iff in Ha. destruct Ha as [Ht Hs].
  exists a. split; [exact Hin |]. split; [apply String.eqb_eq, Ht |].
  split; [exact (bool_decide_eq_true_1 _ Hs) |].
  destruct (pass_ a); [discriminate | reflexivity].
Qed.




(** C5.  The completeness test of the ladder compares a percentage with
    the fractions 1.0, 1.0, 0.9 and 0.8: an M3 prediction without the
    field [Slip/Skid] (18 of 19 required fields, completeness 94.7) is
    graded B on Protocol-Schema. *)
Theorem missing_field_is_graded_B :
  parsing_success (protocol_result_of (Some m3_one_missing) "M3") = true /\
  (exists fc,
     field_completeness (protocol_result_of (Some m3_one_missing) "M3") = Some fc /\
     missing_fields fc = ["Slip/Skid"] /\
     is_rational (completeness_rate fc) (1800 / 19)) /\
  failures_of "numeric_validity" (m3_evidence m3_one_missing) = 1%nat /\
  passes_of "numeric_validity" (m3_evidence m3_one_missing) = 54%nat /\
  rule_grade PROTOCOL_SCHEMA (m3_evidence m3_one_missing)
    (protocol_result_of (Some m3_one_missing) "M3")
    (RuleBasedFusionAligned.conditional_error_of
       (example_sample "M3") (m3_context m3_one_missing)) = B.
Proof.
  split; [reflexivity |]. split.
  - eexists. split; [reflexivity |]. split; [vm_compute; reflexivity |].
    vm_compute. reflexivity.
  - split; [vm_compute; reflexivity |]. split; vm_compute; reflexivity.
Qed.

(* ===================================================================== *)
(** * C7 : jumps within an M3 array                                       *)
(* ===================================================================== *)

(** The scan of an array of numbers stops at the first change above the
    threshold and reports that change; the running maximum is reported
    only when no change is above the threshold. *)
Lemma m3_scan_numbers `{!PyBuiltins} (cfg : JumpDynamicsChecker.Config)
    (name : string) (threshold : Q) (rest : list pyfloat) :
  forall (i : nat) (v0 : pyfloat) (running : pyfloat),
  let changes := adjacent_changes cfg name (v0 :: rest) in
  let result :=
    JumpDynamicsChecker.m3_scan cfg name threshold i (VNum v0) (map VNum rest) running in
  result.1.1 = negb (existsb (fun c => fgtb c (Fin threshold)) changes) /\
  result.2 =
    match find (fun c => fgtb c (Fin threshold)) changes with
    | Some c => c
    | None => fold_left py_max changes running
    end.
Proof.
  induction rest as [|curr rest IH]; intros i v0 running; cbn zeta.
  - split; reflexivity.
  - cbn [map JumpDynamicsChecker.m3_scan float_].
    unfold adjacent_changes. cbn [tail zip_with existsb find fold_left].
    destruct (fgtb (JumpDynamicsChecker.change_of cfg name curr v0) (Fin threshold))
      eqn:Hc.
    + split; reflexivity.
    + specialize (IH (S i) curr
        (py_max running (JumpDynamicsChecker.change_of cfg name curr v0))).
      cbn zeta in IH. exact IH.
Qed.

(** C7.  The GPS altitudes 0, 300 and 1000 ft with the threshold 200 ft:
    after a steady sample the jump atom fails with the first change, 300
    ft, as its [max_change] and with severity WARNING, while the largest
    adjacent change is 700 ft, 3.5 times the threshold; on the first
    sample of a model the atom passes. *)
Theorem jump_atom_reports_first_violation :
  (exists a,
     two_jumps_after_history = [a] /\
     pass_ a = false /\ severity a = WARNING /\
     In ("max_change", MNum (Fin 300)) (meta a)) /\
  max_adjacent_change example_jump_config gps_altitude [Fin 0; Fin 300; Fin 1000]
    = Fin 700 /\
  spec_jump_severity
    (max_adjacent_change example_jump_config gps_altitude [Fin 0; Fin 300; Fin 1000])
    200 = CRITICAL /\
  (exists b,
     two_jumps_first_sample = [b] /\ pass_ b = true /\ severity b = INFO /\
     In ("max_change", MNum (Fin 0)) (meta b)).
Proof.
  split; [| split; [| split]].
  - eexists. split; [vm_compute; reflexivity |].
    split; [reflexivity |]. split; [reflexivity |]. simpl. tauto.
  - vm_compute. reflexivity.
  - vm_compute. reflexivity.
  - eexists. split; [vm_compute; reflexivity |].
    split; [reflexivity |]. split; [reflexivity |]. simpl. tauto.
Qed.

(* ===================================================================== *)
(** * C8 : transport errors                                               *)
(* ===================================================================== *)

(** C8, as the specification states it, fails: the record of the reply
    [API Error: 503] has no verdict and no evidence atom. *)
Lemma transport_failure_counterexample :
  exists r,
    record_of (evaluate_sample example_standards example_config UseAligned
                 (example_sample "S1") error_output "2025-01-19T09:00:00"
                 initial_evaluator) = Some r /\
    verdict r = None /\ evidence_pack r = [] /\
    ~ transport_failure_claim r.
Proof.
  eexists. split; [vm_compute; reflexivity |].
  split; [reflexivity |]. split; [reflexivity |].
  intros [_ Hlen]. discriminate Hlen.
Qed.

(** C8 (amended).  On a reply that matches a transport-error marker
    [evaluate_sample] returns at once: no verifier runs (the evaluator
    is left as it was), and the record holds the parsing failure
    [API error], an empty evidence list, no agent output (so no verdict)
    and no scores. *)
Theorem transport_error_record `{!PyBuiltins} (std : Standards) (config : EvalConfig)
    (fusion : Fusion) (sample : Sample) (model_output : ModelOutput) (now : string)
    (self : Evaluator) :
  is_api_error (raw_response_text model_output) = true ->
  evaluate_sample std config fusion sample model_output now self =
    (Done (api_error_record config sample model_output), self) /\
  evidence_pack (api_error_record config sample model_output) = [] /\
  verdict (api_error_record config sample model_output) = None /\
  parsing_success (protocol_result (api_error_record config sample model_output))
    = false.
Proof.
  intros Herr. split; [| repeat split].
  unfold evaluate_sample. rewrite Herr. reflexivity.
Qed.

Lemma transport_error_record_witness :
  is_api_error (raw_response_text error_output) = true /\
  evaluate_sample example_standards example_config UseAligned
    (example_sample "S1") error_output "2025-01-19T09:00:00" initial_evaluator =
  (Done (api_error_record example_config (example_sample "S1") error_output),
   initial_evaluator).
Proof.
  assert (Herr : is_api_error (raw_response_text error_output) = true)
    by (vm_compute; reflexivity).
  split; [exact Herr |].
  exact (proj1 (transport_error_record example_standards example_config UseAligned
                  (example_sample "S1") error_output "2025-01-19T09:00:00"
                  initial_evaluator Herr)).
Defined.

(* ===================================================================== *)
(** * C1 : the gating verdict                                             *)
(* ===================================================================== *)

Lemma is_critical_failure_spec (a : EvidenceAtom) :
  EvaluatorAgent.is_critical_failure a = true <->
  severity a = CRITICAL /\ pass_ a = false.
Proof.
  unfold EvaluatorAgent.is_critical_failure.
  destruct (severity a), (pass_ a); cbn; split; intros H;
    try discriminate; try (destruct H; discriminate); auto.
Qed.

Lemma filter_nonempty {X : Type} (p : X -> bool) (l : list X) :
  List.filter p l <> [] <-> exists x, In x l /\ p x = true.
Proof.
  split.
  - intros Hne. destruct (List.filter p l) as [|x rest] eqn:Hf; [congruence |].
    exists x. apply filter_In. rewrite Hf. left. reflexivity.
  - intros (x & Hx) Hf. apply filter_In in Hx. rewrite Hf in Hx. destruct Hx.
Qed.

(** The verdict of [adjudicate]: the evidence alone decides. *)
Lemma adjudicate_verdict (evidence_atoms : list EvidenceAtom)
    (checklist : list EvaluatorAgent.ChecklistItem) :
  ((EvaluatorAgent.adjudicate evidence_atoms checklist).1 = "ineligible" <->
   (exists a, In a evidence_atoms /\ EvaluatorAgent.is_critical_failure a = true) \/
   (exists a, In a evidence_atoms /\ EvaluatorAgent.is_protocol_failure a = true)) /\
  ((EvaluatorAgent.adjudicate evidence_atoms checklist).1 <> "ineligible" ->
   (EvaluatorAgent.adjudicate evidence_atoms checklist).1 = "eligible").
Proof.
  unfold EvaluatorAgent.adjudicate. cbn [fst].
  pose proof (filter_nonempty EvaluatorAgent.is_critical_failure evidence_atoms) as Hc.
  pose proof (filter_nonempty EvaluatorAgent.is_protocol_failure evidence_atoms) as Hp.
  destruct (List.filter EvaluatorAgent.is_critical_failure evidence_atoms) as [|c cs];
    destruct (List.filter EvaluatorAgent.is_protocol_failure evidence_atoms) as [|p ps];
    cbn [adjudication_value].
  - split; [split |].
    + intros H. discriminate H.
    + intros [H|H]; [apply Hc in H | apply Hp in H]; congruence.
    + intros _. reflexivity.
  - split; [split |].
    + intros _. right. apply Hp. discriminate.
    + intros _. reflexivity.
    + intros H. congruence.
  - split; [split |].
    + intros _. left. apply Hc. discriminate.
    + intros _. reflexivity.
    + intros H. congruence.
  - split; [split |].
    + intros _. left. apply Hc. discriminate.
    + intros _. reflexivity.
    + intros H. congruence.
Qed.

(** In the evidence of the verifier graph a failing numeric-validity
    atom is a critical one, so that the verdict is decided by the
    critical failures. *)
Lemma graph_verdict `{!PyBuiltins} (std : Standards) (config : EvalConfig)
    (ctx : Context) (cs : gmap string nat)
    (checklist : list EvaluatorAgent.ChecklistItem) :
  (EvaluatorAgent.adjudicate (graph_evidence std config ctx cs) checklist).1
    = "ineligible" <->
  critical_failure_in (graph_evidence std config ctx cs).
Proof.
  destruct (adjudicate_verdict (graph_evidence std config ctx cs) checklist)
    as [Hiff _].
  rewrite Hiff. unfold critical_failure_in. split.
  - intros [(a & Hin & Ha)|(a & Hin & Ha)].
    + exists a. split; [exact Hin | apply is_critical_failure_spec, Ha].
    + exists a. split; [exact Hin |].
      pose proof (graph_evidence_ok std config ctx cs) as Hok.
      rewrite List.Forall_forall in Hok. destruct (Hok a Hin) as (_ & Hnum & _).
      unfold EvaluatorAgent.is_protocol_failure in Ha.
      apply andb_true_iff in Ha. destruct Ha as [Ht Hp].
      apply String.eqb_eq in Ht.
      assert (Hf : pass_ a = false) by (destruct (pass_ a); [discriminate | reflexivity]).
      split; [apply Hnum; assumption | exact Hf].
  - intros (a & Hin & Ha). left. exists a. split; [exact Hin |].
    apply is_critical_failure_spec, Ha.
Qed.

(** Without parsed JSON no verifier emits an atom. *)
Lemma graph_evidence_no_json `{!PyBuiltins} (std : Standards) (config : EvalConfig)
    (ctx : Context) (cs : gmap string nat) :
  json_data ctx = None -> graph_evidence std config ctx cs = [].
Proof.
  intros Hj. unfold graph_evidence, run_in_order, _build_verifier_graph, add_verifier.
  cbn [verifiers fold_left verify verifier_id app fst].
  unfold atoms_of, NumericValidityChecker.verify, RangeSanityChecker.verify,
    JumpDynamicsChecker.verify, CrossFieldConsistencyChecker.verify,
    PhysicsConstraintChecker.verify, SafetyConstraintChecker.verify.
  rewrite Hj. reflexivity.
Qed.

(** What [evaluate_sample] returns on a reply that is not a transport
    error. *)
Lemma evaluate_sample_done `{!PyBuiltins} (std : Standards) (config : EvalConfig)
    (fusion : Fusion) (sample : Sample) (model_output : ModelOutput) (now : string)
    (self : Evaluator) :
  is_api_error (raw_response_text model_output) = false ->
  exists r self',
    evaluate_sample std config fusion sample model_output now self = (Done r, self') /\
    evidence_pack r =
      graph_evidence std config (context_of self sample model_output)
        (ev_counters self) /\
    protocol_result r =
      protocol_result_of
        (extract_json_from_response (raw_response_text model_output))
        (task_id sample) /\
    (forall checklist,
       verdict r = Some (EvaluatorAgent.adjudicate (evidence_pack r) checklist).1) /\
    ev_counters self' =
      graph_counters std config (context_of self sample model_output)
        (ev_counters self).
Proof.
  intros Herr. unfold evaluate_sample. rewrite Herr.
  fold (context_of self sample model_output).
  rewrite execute_build_graph.
  destruct fusion.
  - destruct (RuleBasedFusion.gate _) as [passed reasons].
    eexists. eexists. split; [reflexivity |].
    split; [reflexivity |]. split; [reflexivity |].
    split; [intros checklist; reflexivity | reflexivity].
  - destruct (RuleBasedFusionAligned.gate _) as [passed reasons].
    eexists. eexists. split; [reflexivity |].
    split; [reflexivity |]. split; [reflexivity |].
    split; [intros checklist; reflexivity | reflexivity].
Qed.




(* ===================================================================== *)
(** * C9 : two runs on the same inputs                                    *)
(* ===================================================================== *)

(** One sample, two clock readings: the same evaluator is left behind,
    and the records differ in the timestamp of the trace at most. *)
Lemma evaluate_sample_clock `{!PyBuiltins} (std : Standards) (config : EvalConfig)
    (fusion : Fusion) (sample : Sample) (model_output : ModelOutput)
    (now1 now2 : string) (self : Evaluator) :
  exists r1 r2 self',
    evaluate_sample std config fusion sample model_output now1 self = (Done r1, self') /\
    evaluate_sample std config fusion sample model_output now2 self = (Done r2, self') /\
    erase_timestamp r1 = erase_timestamp r2.
Proof.
  unfold evaluate_sample.
  destruct (is_api_error (raw_response_text model_output)).
  - eexists. eexists. eexists. split; [reflexivity |]. split; reflexivity.
  - fold (context_of self sample model_output).
    rewrite execute_build_graph.
    destruct fusion.
    + destruct (RuleBasedFusion.gate _) as [passed reasons].
      eexists. eexists. eexists. split; [reflexivity |]. split; reflexivity.
    + destruct (RuleBasedFusionAligned.gate _) as [passed reasons].
      eexists. eexists. eexists. split; [reflexivity |]. split; reflexivity.
Qed.

Lemma erase_timestamp_evidence (r1 r2 : EvalRecord) :
  erase_timestamp r1 = erase_timestamp r2 ->
  map id (evidence_pack r1) = map id (evidence_pack r2).
Proof.
  intros He. change (evidence_pack r1) with (evidence_pack (erase_timestamp r1)).
  rewrite He. reflexivity.
Qed.

Lemma evaluate_all_samples_clock `{!PyBuiltins} (std : Standards) (config : EvalConfig)
    (fusion : Fusion) (inputs : list (Sample * ModelOutput)) :
  forall (clock1 clock2 : nat -> string) (self : Evaluator),
  exists rs1 rs2 self',
    evaluate_all_samples std config fusion (with_clock inputs clock1) self
      = (Done rs1, self') /\
    evaluate_all_samples std config fusion (with_clock inputs clock2) self
      = (Done rs2, self') /\
    map erase_timestamp rs1 = map erase_timestamp rs2 /\
    evidence_ids rs1 = evidence_ids rs2.
Proof.
  induction inputs as [|[sample model_output] inputs IH]; intros clock1 clock2 self.
  - exists [], [], self. repeat split.
  - unfold with_clock. cbn [imap evaluate_all_samples].
    destruct (evaluate_sample_clock std config fusion sample model_output
                (clock1 0%nat) (clock2 0%nat) self)
      as (r1 & r2 & self1 & Hr1 & Hr2 & Hr).
    destruct (IH (clock1 ∘ S) (clock2 ∘ S) self1)
      as (rs1 & rs2 & self2 & Hrs1 & Hrs2 & Hrs & Hids).
    unfold with_clock in Hrs1, Hrs2.
    exists (r1 :: rs1), (r2 :: rs2), self2.
    unfold mbind, StateExc_bind, mret, StateExc_ret.
    rewrite Hr1, Hr2.
    change (imap ((fun i '(sample0, model_output0) =>
                     (sample0, model_output0, clock1 i)) ∘ S) inputs)
      with (imap (fun i '(sample0, model_output0) =>
                    (sample0, model_output0, (clock1 ∘ S) i)) inputs).
    change (imap ((fun i '(sample0, model_output0) =>
                     (sample0, model_output0, clock2 i)) ∘ S) inputs)
      with (imap (fun i '(sample0, model_output0) =>
                    (sample0, model_output0, (clock2 ∘ S) i)) inputs).
    rewrite Hrs1, Hrs2.
    split; [reflexivity |]. split; [reflexivity |].
    split.
    + cbn [map]. rewrite Hr, Hrs. reflexivity.
    + unfold evidence_ids in *. cbn [map].
      rewrite (erase_timestamp_evidence r1 r2 Hr), Hids. reflexivity.
Qed.


(** On one evaluator the counters of the verifiers go on: the same
    sample evaluated twice gets other evidence identifiers. *)
Lemma evidence_ids_go_on :
  exists r1 r2 self',
    evaluate_all_samples example_standards example_config UseAligned
      (with_clock [(example_sample "S1", latitude_output);
                   (example_sample "S1", latitude_output)] morning)
      initial_evaluator = (Done [r1; r2], self') /\
    nth_error (map id (evidence_pack r1)) 0 = Some "EVID_NUMERIC_VALIDITY_0001" /\
    nth_error (map id (evidence_pack r2)) 0 = Some "EVID_NUMERIC_VALIDITY_0020".
Proof.
  eexists. eexists. eexists. split; [vm_compute; reflexivity |].
  split; reflexivity.
Qed.


(* ===================================================================== *)
(** * Evidence identifiers are unique                                     *)
(* ===================================================================== *)

Lemma concat_zeros (k : nat) :
  String.concat "" (replicate (S k) "0") =
  String "0" (String.concat "" (replicate k "0")).
Proof. destruct k; reflexivity. Qed.

Lemma decode_zeros (k : nat) (s : string) :
  decode_decimal (String.concat "" (replicate k "0") +:+ s) = decode_decimal s.
Proof.
  induction k as [|k IH]; [reflexivity |].
  rewrite concat_zeros. rewrite <- IH. unfold decode_decimal.
  change (String "0" (String.concat "" (replicate k "0")) +:+ s)
    with (String "0" (String.concat "" (replicate k "0") +:+ s)).
  cbn [NilEmpty.uint_of_string].
  destruct (NilEmpty.uint_of_string (String.concat "" (replicate k "0") +:+ s)) as [d|];
    reflexivity.
Qed.

Lemma decode_zero_pad (w n : nat) : decode_decimal (zero_pad w n) = Some n.
Proof.
  unfold zero_pad. rewrite decode_zeros. unfold decode_decimal.
  rewrite NilEmpty.usu. simpl. f_equal. apply DecimalNat.Unsigned.of_to.
Qed.

Lemma pad4_inj (n m : nat) : pad4 n = pad4 m -> n = m.
Proof.
  intros H. apply (f_equal decode_decimal) in H.
  unfold pad4 in H. rewrite !decode_zero_pad in H. congruence.
Qed.

Section Triples.
Context {P : VState -> Prop} {E : VState -> Prop}.

Lemma triple_ret {A : Type} (a : A) (Q : A -> VState -> Prop) :
  (forall s, P s -> Q a s) -> triple P (mret a) Q E.
Proof. intros H s Hs. apply H, Hs. Qed.

Lemma triple_raise {A : Type} (Q : A -> VState -> Prop) :
  (forall s, P s -> E s) -> triple P (@raise VState A) Q E.
Proof. intros H s Hs. apply H, Hs. Qed.

Lemma triple_bind {A B : Type} (m : Run A) (f : A -> Run B)
    (R : A -> VState -> Prop) (Q : B -> VState -> Prop) :
  triple P m R E -> (forall a, triple (R a) (f a) Q E) -> triple P (m ≫= f) Q E.
Proof.
  intros Hm Hf s Hs. unfold mbind, StateExc_bind.
  specialize (Hm s Hs). destruct (m s) as [[a|] s'].
  - apply Hf, Hm.
  - exact Hm.
Qed.

End Triples.

Section Identifiers.
Variables (vid : string) (c0 : nat).

Lemma ids_drawn_weaken (b b' : nat) (l : list EvidenceAtom) :
  (b <= b')%nat -> ids_drawn vid c0 b l -> ids_drawn vid c0 b' l.
Proof.
  intros Hb (ks & Hids & Hs & Hk). exists ks. split; [exact Hids |]. split; [exact Hs |].
  eapply List.Forall_impl; [| exact Hk]. simpl. intros k Hk'. lia.
Qed.

Lemma ids_pending_inv (i : string) (s : VState) :
  ids_pending vid c0 i s -> ids_inv vid c0 s.
Proof.
  intros (Hc & _ & Hd). split; [lia |].
  apply (ids_drawn_weaken (evidence_counter s - 1)); [lia | exact Hd].
Qed.

Lemma sorted_snoc (ks : list nat) (k : nat) :
  StronglySorted lt ks -> Forall (fun x => (x < k)%nat) ks ->
  StronglySorted lt (ks ++ [k]).
Proof.
  induction 1 as [|x ks Hs IH Hx]; intros Hk; simpl.
  - constructor; constructor.
  - inversion Hk; subst. constructor; [apply IH; assumption |].
    apply Forall_app. split; [exact Hx | constructor; [assumption | constructor]].
Qed.

Lemma ids_ok_ret {A : Type} (a : A) : ids_ok vid c0 (mret a).
Proof. intros s Hs. exact Hs. Qed.

Lemma ids_ok_raise {A : Type} : ids_ok vid c0 (@raise VState A).
Proof. intros s Hs. exact Hs. Qed.

Lemma ids_ok_lift_raise {A : Type} (o : option A) : ids_ok vid c0 (lift_raise o).
Proof. destruct o; [apply ids_ok_ret | apply ids_ok_raise]. Qed.

Lemma ids_ok_bind {A B : Type} (m : Run A) (f : A -> Run B) :
  ids_ok vid c0 m -> (forall a, ids_ok vid c0 (f a)) -> ids_ok vid c0 (m ≫= f).
Proof. intros Hm Hf. eapply triple_bind; [exact Hm | exact Hf]. Qed.

Lemma ids_ok_try (m : Run unit) : ids_ok vid c0 m -> ids_ok vid c0 (try_except m).
Proof.
  intros Hm s Hs. unfold try_except. specialize (Hm s Hs).
  destruct (m s) as [[a|] s']; exact Hm.
Qed.

Lemma ids_ok_for_each {A : Type} (l : list A) (body : A -> Run unit) :
  (forall x, ids_ok vid c0 (body x)) -> ids_ok vid c0 (for_each l body).
Proof.
  intros Hb. induction l as [|x l IH]; simpl.
  - apply ids_ok_ret.
  - apply ids_ok_bind; [apply Hb | intros _; exact IH].
Qed.

Lemma ids_ok_for_fold {A L : Type} (l : list A) (body : A -> L -> Run L) (acc : L) :
  (forall x acc, ids_ok vid c0 (body x acc)) -> ids_ok vid c0 (for_fold l body acc).
Proof.
  intros Hb. revert acc. induction l as [|x l IH]; intros acc; simpl.
  - apply ids_ok_ret.
  - apply ids_ok_bind; [apply Hb | intros acc'; apply IH].
Qed.

(** Drawing an identifier: the rest of the step starts with it pending. *)
Lemma ids_ok_draw {B : Type} (k : string -> Run B) :
  (forall i, ids_ok_pending vid c0 i (k i)) ->
  ids_ok vid c0 (_generate_evidence_id vid ≫= k).
Proof.
  intros Hk s [Hc Hd]. unfold mbind, StateExc_bind, _generate_evidence_id.
  apply Hk. split; [simpl; lia |]. split; [reflexivity |].
  simpl. replace (evidence_counter s - 0)%nat with (evidence_counter s) by lia.
  exact Hd.
Qed.

(** Appending the atom that carries the pending identifier. *)
Lemma ids_pending_append (i : string) (a : EvidenceAtom) :
  id a = i -> ids_ok_pending vid c0 i (append a).
Proof.
  intros Ha s (Hc & Hi & ks & Hids & Hs & Hk). simpl. split; simpl; [lia |].
  exists (ks ++ [evidence_counter s]).
  split; [| split].
  - rewrite !map_app, Hids. simpl. rewrite Ha, Hi. reflexivity.
  - apply sorted_snoc; [exact Hs |].
    eapply List.Forall_impl; [| exact Hk]. simpl. intros k Hk'. lia.
  - apply Forall_app. split.
    + eapply List.Forall_impl; [| exact Hk]. simpl. intros k Hk'. lia.
    + constructor; [lia | constructor].
Qed.

Lemma ids_pending_append_bind {B : Type} (i : string) (a : EvidenceAtom)
    (k : unit -> Run B) :
  id a = i -> (forall x, ids_ok vid c0 (k x)) ->
  ids_ok_pending vid c0 i (append a ≫= k).
Proof.
  intros Ha Hk. eapply triple_bind; [apply ids_pending_append, Ha | exact Hk].
Qed.

(** A step that does not write keeps the identifier pending. *)
Lemma ids_pending_no_write {A B : Type} (i : string) (m : Run A) (k : A -> Run B) :
  no_write m -> (forall x, ids_ok_pending vid c0 i (k x)) ->
  ids_ok_pending vid c0 i (m ≫= k).
Proof.
  intros Hm Hk s Hs. unfold mbind, StateExc_bind.
  specialize (Hm s). destruct (m s) as [[x|] s']; simpl in Hm; subst s'.
  - apply Hk, Hs.
  - apply (ids_pending_inv i), Hs.
Qed.

(** What the invariant gives for a [verify] body run from [c0]. *)
Lemma ids_ok_atoms (m : Run unit) :
  ids_ok vid c0 m ->
  (c0 <= counter_after m c0)%nat /\
  ids_drawn vid c0 (counter_after m c0) (atoms_of m c0).
Proof.
  intros Hm. unfold counter_after, atoms_of.
  specialize (Hm {| evidence_counter := c0; evidence := [] |}).
  assert (H0 : ids_inv vid c0 {| evidence_counter := c0; evidence := [] |}).
  { split; [simpl; lia |]. exists []. split; [reflexivity |].
    split; constructor. }
  specialize (Hm H0).
  destruct (m {| evidence_counter := c0; evidence := [] |}) as [[a|] s']; exact Hm.
Qed.

End Identifiers.

Lemma no_write_ret {A : Type} (a : A) : no_write (mret a : Run A).
Proof. intros s. reflexivity. Qed.

Lemma no_write_lift_raise {A : Type} (o : option A) : no_write (lift_raise o : Run A).
Proof. intros s. destruct o; reflexivity. Qed.

Lemma no_write_bind {A B : Type} (m : Run A) (f : A -> Run B) :
  no_write m -> (forall a, no_write (f a)) -> no_write (m ≫= f).
Proof.
  intros Hm Hf s. unfold mbind, StateExc_bind. specialize (Hm s).
  destruct (m s) as [[a|] s']; simpl in Hm; subst s'; [apply Hf | reflexivity].
Qed.

Ltac no_write_step :=
  first
  [ apply no_write_ret
  | apply no_write_lift_raise
  | apply no_write_bind; [| intros]
  | match goal with
    | |- no_write (if ?b then _ else _) => destruct b
    end ].

(** One step of a proof of the identifier invariant. *)
Ltac ids_step :=
  first
  [ apply ids_ok_ret
  | apply ids_ok_raise
  | apply ids_ok_lift_raise
  | apply ids_ok_try
  | apply ids_ok_for_each; intros
  | apply ids_ok_for_fold; intros
  | apply ids_ok_draw; intros
  | apply ids_ok_bind; [| intros]
  | apply ids_pending_append; reflexivity
  | apply ids_pending_append_bind; [reflexivity | intros]
  | apply ids_pending_no_write; [repeat no_write_step | intros]
  | match goal with
    | |- ids_ok _ _ (let '(_, _) := ?x in _) => destruct x
    | |- ids_ok _ _ (if ?b then _ else _) => destruct b
    | |- ids_ok _ _ (match ?x with _ => _ end) => destruct x
    | |- ids_ok_pending _ _ _ (let '(_, _) := ?x in _) => destruct x
    | |- ids_ok_pending _ _ _ (if ?b then _ else _) => destruct b
    | |- ids_ok_pending _ _ _ (match ?x with _ => _ end) => destruct x
    end ].

Lemma numeric_validity_ids `{!PyBuiltins} cfg ctx c0 :
  ids_ok NumericValidityChecker.verifier_id c0 (NumericValidityChecker.verify cfg ctx).
Proof.
  unfold NumericValidityChecker.verify, NumericValidityChecker.verify_field,
    NumericValidityChecker.check_value.
  repeat ids_step.
Qed.

Lemma range_sanity_ids `{!PyBuiltins} cfg ctx c0 :
  ids_ok RangeSanityChecker.verifier_id c0 (RangeSanityChecker.verify cfg ctx).
Proof.
  unfold RangeSanityChecker.verify, RangeSanityChecker.verify_field.
  repeat ids_step.
Qed.

Lemma jump_dynamics_ids `{!PyBuiltins} cfg ctx c0 :
  ids_ok JumpDynamicsChecker.verifier_id c0 (JumpDynamicsChecker.verify cfg ctx).
Proof.
  unfold JumpDynamicsChecker.verify, JumpDynamicsChecker.verify_field.
  repeat ids_step.
Qed.

Lemma cross_field_ids `{!PyBuiltins} cfg ctx c0 :
  ids_ok CrossFieldConsistencyChecker.verifier_id c0
    (CrossFieldConsistencyChecker.verify cfg ctx).
Proof.
  unfold CrossFieldConsistencyChecker.verify,
    CrossFieldConsistencyChecker.altitude_rule,
    CrossFieldConsistencyChecker.speed_rule,
    CrossFieldConsistencyChecker.track_rule, zip3.
  repeat ids_step.
Qed.

Lemma physics_ids `{!PyBuiltins} std cfg ctx c0 :
  ids_ok PhysicsConstraintChecker.verifier_id c0
    (PhysicsConstraintChecker.verify std cfg ctx).
Proof.
  unfold PhysicsConstraintChecker.verify,
    PhysicsConstraintChecker.continuity_rule,
    PhysicsConstraintChecker.continuity_field,
    PhysicsConstraintChecker.velocity_altitude_rule,
    PhysicsConstraintChecker.attitude_rule, zip3.
  repeat ids_step.
Qed.

Lemma safety_ids `{!PyBuiltins} cfg ctx c0 :
  ids_ok SafetyConstraintChecker.verifier_id c0
    (SafetyConstraintChecker.verify cfg ctx).
Proof.
  unfold SafetyConstraintChecker.verify,
    SafetyConstraintChecker.rapid_descent_rule,
    SafetyConstraintChecker.extreme_speed_rule,
    SafetyConstraintChecker.extreme_altitude_rule,
    SafetyConstraintChecker.stall_rule, zip3.
  repeat ids_step.
Qed.

Lemma safety_v2_ids `{!PyBuiltins} cfg ctx c0 :
  ids_ok SafetyConstraintCheckerV2.verifier_id c0
    (SafetyConstraintCheckerV2.verify cfg ctx).
Proof.
  unfold SafetyConstraintCheckerV2.verify,
    SafetyConstraintCheckerV2._check_airspeed_safety,
    SafetyConstraintCheckerV2._check_altitude_safety,
    SafetyConstraintCheckerV2._check_vertical_speed_safety.
  repeat ids_step.
Qed.

Lemma string_app_inv_head (p a b : string) : p +:+ a = p +:+ b -> a = b.
Proof.
  induction p as [|c p IH]; simpl; intros H; [exact H |].
  injection H as H. apply IH, H.
Qed.

Lemma evidence_id_inj_counter (vid : string) (k k' : nat) :
  evidence_id vid k = evidence_id vid k' -> k = k'.
Proof.
  unfold evidence_id. intros H.
  apply string_app_inv_head, string_app_inv_head, string_app_inv_head in H.
  apply pad4_inj, H.
Qed.

Lemma evidence_id_inj (lab lab' : string * nat) :
  In lab.1 graph_verifier_ids -> In lab'.1 graph_verifier_ids ->
  evidence_id lab.1 lab.2 = evidence_id lab'.1 lab'.2 -> lab = lab'.
Proof.
  destruct lab as [v k], lab' as [v' k']. simpl. intros Hv Hv' H.
  assert (Hvv : v = v').
  { unfold graph_verifier_ids in Hv, Hv'. simpl in Hv, Hv'.
    destruct Hv as [<-|[<-|[<-|[<-|[<-|[<-|[]]]]]]];
      destruct Hv' as [<-|[<-|[<-|[<-|[<-|[<-|[]]]]]]];
      first [reflexivity | exfalso; unfold evidence_id in H; discriminate H]. }
  subst v'. f_equal. apply (evidence_id_inj_counter v), H.
Qed.

Lemma labelled_NoDup (cs cs' : gmap string nat) (l : list EvidenceAtom) :
  labelled cs cs' l -> NoDup (map id l).
Proof.
  intros (labels & Hids & Hnd & Hall). rewrite Hids.
  apply NoDup_fmap_2_strong; [| exact Hnd].
  intros x y Hx Hy Hxy. rewrite List.Forall_forall in Hall.
  apply list_elem_of_In in Hx, Hy.
  apply evidence_id_inj; [apply (Hall x Hx) | apply (Hall y Hy) | exact Hxy].
Qed.

Lemma labelled_nil (cs : gmap string nat) : labelled cs cs [].
Proof. exists []. split; [reflexivity |]. split; constructor. Qed.

Lemma counters_le_refl (cs : gmap string nat) : counters_le cs cs.
Proof. intros vid. lia. Qed.

Lemma counters_le_trans (cs cs' cs'' : gmap string nat) :
  counters_le cs cs' -> counters_le cs' cs'' -> counters_le cs cs''.
Proof. intros H1 H2 vid. specialize (H1 vid). specialize (H2 vid). lia. Qed.

Lemma labelled_app (cs cs' cs'' : gmap string nat) (l1 l2 : list EvidenceAtom) :
  counters_le cs cs' -> counters_le cs' cs'' ->
  labelled cs cs' l1 -> labelled cs' cs'' l2 -> labelled cs cs'' (l1 ++ l2).
Proof.
  intros H01 H12 (L1 & Hid1 & Hnd1 & Hall1) (L2 & Hid2 & Hnd2 & Hall2).
  exists (L1 ++ L2). split; [| split].
  - rewrite !map_app, Hid1, Hid2. reflexivity.
  - apply NoDup_app. split; [exact Hnd1 |]. split; [| exact Hnd2].
    intros [v k] Hin1 Hin2.
    rewrite List.Forall_forall in Hall1, Hall2.
    apply list_elem_of_In in Hin1, Hin2.
    destruct (Hall1 _ Hin1) as [_ Hk1]. destruct (Hall2 _ Hin2) as [_ Hk2].
    simpl in *. lia.
  - apply Forall_app. split.
    + eapply List.Forall_impl; [| exact Hall1]. intros [v k] [Hv Hk]. split; [exact Hv |].
      simpl in *. specialize (H12 v). lia.
    + eapply List.Forall_impl; [| exact Hall2]. intros [v k] [Hv Hk]. split; [exact Hv |].
      simpl in *. specialize (H01 v). lia.
Qed.

Lemma counter_of_insert (cs : gmap string nat) (vid vid' : string) (c : nat) :
  counter_of (<[vid := c]> cs) vid' = if String.eqb vid vid' then c else counter_of cs vid'.
Proof.
  unfold counter_of. destruct (String.eqb_spec vid vid') as [->|Hne].
  - rewrite lookup_insert_eq. reflexivity.
  - rewrite lookup_insert_ne by exact Hne. reflexivity.
Qed.

(** One verifier of the graph: its atoms are labelled between the
    counters before and after its call. *)
Lemma verifier_labelled (ctx : Context) (v : Verifier) (cs : gmap string nat) :
  In (verifier_id v) graph_verifier_ids ->
  ids_ok (verifier_id v) (counter_of cs (verifier_id v)) (verify v ctx) ->
  let c := counter_of cs (verifier_id v) in
  let cs' := <[verifier_id v := counter_after (verify v ctx) c]> cs in
  counters_le cs cs' /\ labelled cs cs' (atoms_of (verify v ctx) c).
Proof.
  intros Hv Hok c cs'. destruct (ids_ok_atoms _ _ _ Hok) as [Hc (ks & Hids & Hs & Hk)].
  fold c in Hc, Hids, Hk. split.
  - intros vid. subst cs'. rewrite counter_of_insert.
    destruct (String.eqb_spec (verifier_id v) vid) as [<-|]; [exact Hc | lia].
  - exists (map (fun k => (verifier_id v, k)) ks). split; [| split].
    + rewrite Hids, map_map. reflexivity.
    + apply NoDup_fmap_2; [intros x y [=]; assumption |].
      clear -Hs. induction Hs as [|k ks Hs IH Hk]; constructor; [| exact IH].
      intros Hin. apply list_elem_of_In in Hin.
      rewrite List.Forall_forall in Hk. specialize (Hk k Hin). lia.
    + apply List.Forall_forall. intros [v' k] Hin. apply in_map_iff in Hin.
      destruct Hin as (k0 & [= <- <-] & Hin). split; [exact Hv |]. simpl.
      subst cs'. rewrite counter_of_insert, String.eqb_refl.
      rewrite List.Forall_forall in Hk. apply Hk, Hin.
Qed.

Lemma run_in_order_labelled (ctx : Context) (vs : list Verifier) :
  List.Forall (fun v => In (verifier_id v) graph_verifier_ids /\
                        forall c, ids_ok (verifier_id v) c (verify v ctx)) vs ->
  forall (ev : list EvidenceAtom) (cs : gmap string nat),
  exists new,
    (run_in_order ctx vs (ev, cs)).1 = ev ++ new /\
    counters_le cs (run_in_order ctx vs (ev, cs)).2 /\
    labelled cs (run_in_order ctx vs (ev, cs)).2 new.
Proof.
  induction 1 as [|v vs [Hv Hok] _ IH]; intros ev cs.
  - exists []. simpl. rewrite app_nil_r. split; [reflexivity |].
    split; [apply counters_le_refl | apply labelled_nil].
  - unfold run_in_order. cbn [fold_left].
    destruct (verifier_labelled ctx v cs Hv (Hok _)) as [Hle Hlab]. cbn zeta in Hle, Hlab.
    destruct (IH (ev ++ atoms_of (verify v ctx) (counter_of cs (verifier_id v)))
                 (<[verifier_id v :=
                      counter_after (verify v ctx) (counter_of cs (verifier_id v))]> cs))
      as (new & Hnew & Hle' & Hlab').
    unfold run_in_order in Hnew, Hle', Hlab'.
    exists (atoms_of (verify v ctx) (counter_of cs (verifier_id v)) ++ new).
    split; [rewrite Hnew, app_assoc; reflexivity |].
    split; [eapply counters_le_trans; eassumption |].
    eapply labelled_app; eassumption.
Qed.

Lemma graph_labelled `{!PyBuiltins} (std : Standards) (config : EvalConfig)
    (ctx : Context) (cs : gmap string nat) :
  counters_le cs (graph_counters std config ctx cs) /\
  labelled cs (graph_counters std config ctx cs) (graph_evidence std config ctx cs).
Proof.
  unfold graph_counters, graph_evidence.
  destruct (run_in_order_labelled ctx (verifiers (_build_verifier_graph std config)))
    with (ev := @nil EvidenceAtom) (cs := cs) as (new & Hnew & Hle & Hlab).
  - unfold _build_verifier_graph, add_verifier, graph_verifier_ids. simpl.
    repeat constructor; simpl; try tauto; intros c.
    + apply numeric_validity_ids.
    + apply range_sanity_ids.
    + apply jump_dynamics_ids.
    + apply cross_field_ids.
    + apply physics_ids.
    + apply safety_ids.
  - split; [exact Hle |]. rewrite Hnew. exact Hlab.
Qed.

Lemma evaluate_sample_labelled `{!PyBuiltins} (std : Standards) (config : EvalConfig)
    (fusion : Fusion) (sample : Sample) (model_output : ModelOutput) (now : string)
    (self : Evaluator) :
  exists r self',
    evaluate_sample std config fusion sample model_output now self = (Done r, self') /\
    counters_le (ev_counters self) (ev_counters self') /\
    labelled (ev_counters self) (ev_counters self') (evidence_pack r).
Proof.
  destruct (is_api_error (raw_response_text model_output)) eqn:Herr.
  - unfold evaluate_sample. rewrite Herr. eexists. eexists.
    split; [reflexivity |]. split; [apply counters_le_refl | apply labelled_nil].
  - destruct (evaluate_sample_done std config fusion sample model_output now self Herr)
      as (r & self' & Hrun & Hev & _ & _ & Hcs).
    exists r, self'. split; [exact Hrun |]. rewrite Hev, Hcs.
    apply graph_labelled.
Qed.


Lemma evaluate_all_samples_labelled `{!PyBuiltins} (std : Standards)
    (config : EvalConfig) (fusion : Fusion)
    (inputs : list (Sample * ModelOutput * string)) :
  forall self : Evaluator,
  exists rs self',
    evaluate_all_samples std config fusion inputs self = (Done rs, self') /\
    length rs = length inputs /\
    counters_le (ev_counters self) (ev_counters self') /\
    labelled (ev_counters self) (ev_counters self') (all_atoms rs).
Proof.
  induction inputs as [|[[sample model_output] now] inputs IH]; intros self.
  - exists [], self. split; [reflexivity |]. split; [reflexivity |].
    split; [apply counters_le_refl | apply labelled_nil].
  - cbn [evaluate_all_samples].
    destruct (evaluate_sample_labelled std config fusion sample model_output now self)
      as (r & self1 & Hr & Hle1 & Hlab1).
    destruct (IH self1) as (rs & self2 & Hrs & Hlen & Hle2 & Hlab2).
    exists (r :: rs), self2.
    unfold mbind, StateExc_bind, mret, StateExc_ret. rewrite Hr, Hrs.
    split; [reflexivity |]. split; [simpl; rewrite Hlen; reflexivity |].
    split; [eapply counters_le_trans; eassumption |].
    unfold all_atoms. cbn [map concat].
    eapply labelled_app; eassumption.
Qed.


(* ===================================================================== *)
(** * The evidence of the graph, block by block                           *)
(* ===================================================================== *)

Ltac type_ok := simplify_eq; reflexivity.

Lemma numeric_validity_type `{!PyBuiltins} cfg ctx :
  emits (fun a => type a = "numeric_validity") (NumericValidityChecker.verify cfg ctx).
Proof.
  unfold NumericValidityChecker.verify, NumericValidityChecker.verify_field,
    NumericValidityChecker.check_value.
  emits_auto type_ok.
Qed.

Lemma range_sanity_type `{!PyBuiltins} cfg ctx :
  emits (fun a => type a = "range_sanity") (RangeSanityChecker.verify cfg ctx).
Proof.
  unfold RangeSanityChecker.verify, RangeSanityChecker.verify_field.
  emits_auto type_ok.
Qed.

Lemma jump_dynamics_type `{!PyBuiltins} cfg ctx :
  emits (fun a => type a = "jump_dynamics") (JumpDynamicsChecker.verify cfg ctx).
Proof.
  unfold JumpDynamicsChecker.verify, JumpDynamicsChecker.verify_field.
  emits_auto type_ok.
Qed.

Lemma cross_field_type `{!PyBuiltins} cfg ctx :
  emits (fun a => type a = "cross_field_consistency")
    (CrossFieldConsistencyChecker.verify cfg ctx).
Proof.
  unfold CrossFieldConsistencyChecker.verify,
    CrossFieldConsistencyChecker.altitude_rule,
    CrossFieldConsistencyChecker.speed_rule,
    CrossFieldConsistencyChecker.track_rule, zip3.
  emits_auto type_ok.
Qed.

Lemma physics_type `{!PyBuiltins} std cfg ctx :
  emits (fun a => type a = "physics_constraint")
    (PhysicsConstraintChecker.verify std cfg ctx).
Proof.
  unfold PhysicsConstraintChecker.verify,
    PhysicsConstraintChecker.continuity_rule,
    PhysicsConstraintChecker.continuity_field,
    PhysicsConstraintChecker.velocity_altitude_rule,
    PhysicsConstraintChecker.attitude_rule, zip3.
  emits_auto type_ok.
Qed.

Lemma safety_type `{!PyBuiltins} cfg ctx :
  emits (fun a => type a = "safety_constraint" /\ pass_ a = false)
    (SafetyConstraintChecker.verify cfg ctx).
Proof.
  unfold SafetyConstraintChecker.verify,
    SafetyConstraintChecker.rapid_descent_rule,
    SafetyConstraintChecker.extreme_speed_rule,
    SafetyConstraintChecker.extreme_altitude_rule,
    SafetyConstraintChecker.stall_rule, zip3.
  emits_auto ltac:(simplify_eq; split; reflexivity).
Qed.

Lemma safety_type_only `{!PyBuiltins} cfg ctx :
  emits (fun a => type a = "safety_constraint") (SafetyConstraintChecker.verify cfg ctx).
Proof.
  unfold SafetyConstraintChecker.verify,
    SafetyConstraintChecker.rapid_descent_rule,
    SafetyConstraintChecker.extreme_speed_rule,
    SafetyConstraintChecker.extreme_altitude_rule,
    SafetyConstraintChecker.stall_rule, zip3.
  emits_auto type_ok.
Qed.


Lemma typed_atoms {A : Type} (t : string) (m : Run A) (c : nat) :
  In t graph_evidence_types ->
  emits (fun a => type a = t) m ->
  Forall (fun a => In (type a) graph_evidence_types)
    (evidence (m {| evidence_counter := c; evidence := [] |}).2).
Proof.
  intros Ht Hm. eapply Forall_impl; [apply Hm; constructor |].
  intros a Ha. simpl in Ha. rewrite Ha. exact Ht.
Qed.

Lemma run_in_order_types (P : EvidenceAtom -> Prop) (ctx : Context)
    (vs : list Verifier) :
  List.Forall (fun v => forall c, Forall P (atoms_of (verify v ctx) c)) vs ->
  forall ev cs, Forall P ev -> Forall P (run_in_order ctx vs (ev, cs)).1.
Proof.
  induction 1 as [|v vs Hv _ IH]; intros ev cs Hev.
  - exact Hev.
  - unfold run_in_order. simpl. apply IH.
    apply Forall_app. split; [exact Hev | apply Hv].
Qed.

(** Every atom of the graph carries one of the six evidence types. *)
Lemma graph_evidence_types_ok `{!PyBuiltins} (std : Standards) (config : EvalConfig)
    (ctx : Context) (cs : gmap string nat) :
  Forall (fun a => In (type a) graph_evidence_types) (graph_evidence std config ctx cs).
Proof.
  unfold graph_evidence. apply run_in_order_types; [| constructor].
  unfold _build_verifier_graph, add_verifier, atoms_of, graph_evidence_types. simpl.
  repeat constructor; simpl; intros c.
  - apply (typed_atoms "numeric_validity"); [simpl; tauto |].
    apply numeric_validity_type.
  - apply (typed_atoms "range_sanity"); [simpl; tauto |].
    apply range_sanity_type.
  - apply (typed_atoms "jump_dynamics"); [simpl; tauto |].
    apply jump_dynamics_type.
  - apply (typed_atoms "cross_field_consistency"); [simpl; tauto |].
    apply cross_field_type.
  - apply (typed_atoms "physics_constraint"); [simpl; tauto |].
    apply physics_type.
  - apply (typed_atoms "safety_constraint"); [simpl; tauto |].
    apply safety_type_only.
Qed.

Lemma no_atoms_of_other_type (t : string) (l : list EvidenceAtom) :
  Forall (fun a => In (type a) graph_evidence_types) l ->
  ~ In t graph_evidence_types ->
  atoms_of_type t l = [].
Proof.
  intros Hl Ht. unfold atoms_of_type. induction Hl as [|a l Ha _ IH]; [reflexivity |].
  destruct (decide (type a = t)) as [<-|Hne]; [contradiction |].
  rewrite filter_cons_False by exact Hne. exact IH.
Qed.

Lemma organize_fields (cl : list EvaluatorAgent.ChecklistItem) (l : list EvidenceAtom) :
  let item_type item :=
    EvaluatorAgent.constraint_to_type (EvaluatorAgent.constraint_id item) in
  map EvaluatorAgent.item_id (EvaluatorAgent.organize_verification_workflow cl l)
    = map EvaluatorAgent.item_id cl /\
  map EvaluatorAgent.constraint_id (EvaluatorAgent.organize_verification_workflow cl l)
    = map EvaluatorAgent.constraint_id cl /\
  map EvaluatorAgent.status (EvaluatorAgent.organize_verification_workflow cl l)
    = map (fun t => status_of_type t l) (map item_type cl) /\
  map EvaluatorAgent.evidence_ids (EvaluatorAgent.organize_verification_workflow cl l)
    = map (fun t => Some (map id (atoms_of_type t l))) (map item_type cl).
Proof.
  cbn zeta. induction cl as [|item cl (IH1 & IH2 & IH3 & IH4)];
    [repeat split; reflexivity |].
  unfold EvaluatorAgent.organize_verification_workflow in *. cbn [map].
  rewrite IH1, IH2, IH3, IH4. unfold status_of_type, atoms_of_type.
  destruct (filter _ l) as [|a rel]; repeat split; reflexivity.
Qed.



(* ===================================================================== *)
(** * The attribution list of [adjudicate]                                *)
(* ===================================================================== *)

Lemma group_add_ok (P : EvidenceAtom -> Prop) (key : string) (f : EvidenceAtom)
    (groups : list (string * list EvidenceAtom)) :
  P f -> groups_ok P groups -> groups_ok P (EvaluatorAgent.group_add key f groups).
Proof.
  intros Hf. unfold groups_ok. induction groups as [|[k fs] groups IH]; intros Hg; simpl.
  - constructor; [| constructor]. simpl. split; [discriminate |].
    constructor; [exact Hf | constructor].
  - inversion Hg as [|? ? [Hne Hfs] Hrest]; subst. simpl in Hne, Hfs.
    destruct (string_eqb k key).
    + constructor; [| exact Hrest]. simpl. split.
      * destruct fs; discriminate.
      * apply Forall_app. split; [exact Hfs | constructor; [exact Hf | constructor]].
    + constructor; [split; assumption | apply IH, Hrest].
Qed.

Lemma group_add_nonempty (key : string) (f : EvidenceAtom)
    (groups : list (string * list EvidenceAtom)) :
  EvaluatorAgent.group_add key f groups <> [].
Proof. destruct groups as [|[k fs] rest]; simpl; [| destruct (string_eqb k key)]; discriminate. Qed.

Lemma fold_groups_ok (P : EvidenceAtom -> Prop) (l : list EvidenceAtom) :
  forall groups,
  Forall P l -> groups_ok P groups ->
  groups_ok P
    (fold_left (fun groups failure =>
                  EvaluatorAgent.group_add (EvaluatorAgent.group_key failure)
                    failure groups) l groups).
Proof.
  induction l as [|f l IH]; intros groups Hl Hg; [exact Hg |].
  inversion Hl; subst. simpl. apply IH; [assumption |].
  apply group_add_ok; assumption.
Qed.

Lemma fold_groups_nonempty (l : list EvidenceAtom) :
  forall groups,
  (l <> [] \/ groups <> []) ->
  fold_left (fun groups failure =>
               EvaluatorAgent.group_add (EvaluatorAgent.group_key failure)
                 failure groups) l groups <> [].
Proof.
  induction l as [|f l IH]; intros groups H; simpl.
  - destruct H as [H|H]; [congruence | exact H].
  - apply IH. right. apply group_add_nonempty.
Qed.

Lemma failures_are_failures (evidence_atoms : list EvidenceAtom) :
  Forall (fun f => In f evidence_atoms /\ is_failure f = true)
    (List.filter EvaluatorAgent.is_critical_failure evidence_atoms ++
     List.filter EvaluatorAgent.is_warning_failure evidence_atoms).
Proof.
  apply Forall_app. split; apply List.Forall_forall; intros f Hf;
    apply filter_In in Hf; destruct Hf as [Hin Hf]; (split; [exact Hin |]);
    unfold is_failure; rewrite Hf; [reflexivity | apply orb_true_r].
Qed.

Lemma failure_groups_ok (evidence_atoms : list EvidenceAtom) :
  groups_ok (fun f => In f evidence_atoms /\ is_failure f = true)
    (failure_groups evidence_atoms).
Proof.
  unfold failure_groups. apply fold_groups_ok; [apply failures_are_failures | constructor].
Qed.

Lemma is_failure_severity (f : EvidenceAtom) :
  is_failure f = true ->
  severity_value (severity f) = "critical" \/ severity_value (severity f) = "warning".
Proof.
  unfold is_failure, EvaluatorAgent.is_critical_failure,
    EvaluatorAgent.is_warning_failure.
  destruct (severity f); simpl; auto. discriminate.
Qed.

(** The entries made from numbered groups. *)
Lemma attribution_entries (evidence_atoms : list EvidenceAtom)
    (groups : list (string * list EvidenceAtom)) :
  groups_ok (fun f => In f evidence_atoms /\ is_failure f = true) groups ->
  forall k : nat,
  let entries :=
    omap (fun '(i, (key, failures)) => EvaluatorAgent.attribution_entry (S i) failures)
      (imap (fun i x => (k + i, x)%nat) groups) in
  length entries = length groups /\
  map EvaluatorAgent.rank entries = seq (S k) (length groups) /\
  Forall (attribution_ok evidence_atoms) entries.
Proof.
  unfold groups_ok. induction groups as [|[key fs] groups IH]; intros Hg k; cbn zeta.
  - repeat split; constructor.
  - inversion Hg as [|? ? [Hne Hfs] Hrest]; subst. simpl in Hne, Hfs.
    specialize (IH Hrest).
    cbn [imap omap list_omap]. destruct fs as [|f fs]; [congruence |].
    cbn [EvaluatorAgent.attribution_entry].
    specialize (IH (S k)). cbn zeta in IH.
    assert (Heq : imap ((fun i x => ((k + i)%nat, x)) ∘ S) groups =
                  imap (fun i (x : string * list EvidenceAtom) => ((S k + i)%nat, x)) groups).
    { apply imap_ext. intros i x _. simpl. f_equal. lia. }
    fold (@omap list _ (nat * (string * list EvidenceAtom)) EvaluatorAgent.Attribution).
    rewrite Heq. destruct IH as (IHlen & IHrank & IHok).
    split; [cbn [length]; rewrite IHlen; reflexivity |].
    split; [cbn [length map seq EvaluatorAgent.rank]; rewrite IHrank, Nat.add_0_r;
            reflexivity |].
    constructor; [| exact IHok].
    unfold attribution_ok. cbn [EvaluatorAgent.attr_evidence_ids EvaluatorAgent.count
      EvaluatorAgent.attr_severity].
    split; [discriminate |]. split; [rewrite length_map; reflexivity |].
    inversion Hfs as [|? ? [_ Hf] _]; subst.
    split; [apply is_failure_severity, Hf |].
    apply List.Forall_forall. intros i Hi. apply in_map_iff in Hi.
    destruct Hi as (f' & <- & Hin). rewrite List.Forall_forall in Hfs.
    destruct (Hfs f' Hin) as [Hin' Hf']. exists f'. auto.
Qed.

(** X5.  The attribution of [adjudicate]: at most five entries, ranked 1, 2,
    ... in order; every entry cites at least one evidence identifier,
    counts the identifiers it cites, has severity critical or warning,
    and cites only failing atoms of the evidence of severity critical or
    warning; the list is empty exactly when there is no such atom. *)
Theorem adjudicate_attribution (evidence_atoms : list EvidenceAtom)
    (checklist : list EvaluatorAgent.ChecklistItem) :
  let attribution := (EvaluatorAgent.adjudicate evidence_atoms checklist).2 in
  (length attribution <= 5)%nat /\
  map EvaluatorAgent.rank attribution = seq 1 (length attribution) /\
  Forall (attribution_ok evidence_atoms) attribution /\
  (attribution = [] <-> forall f, In f evidence_atoms -> is_failure f = false).
Proof.
  cbn zeta. unfold EvaluatorAgent.adjudicate. cbn [snd].
  fold (failure_groups evidence_atoms). unfold enumerate.
  pose proof (failure_groups_ok evidence_atoms) as Hok.
  assert (Hok5 : groups_ok (fun f => In f evidence_atoms /\ is_failure f = true)
                   (take 5 (failure_groups evidence_atoms))).
  { unfold groups_ok. apply Forall_take. exact Hok. }
  destruct (attribution_entries evidence_atoms _ Hok5 0) as (Hlen & Hrank & Hall).
  cbn zeta in Hlen, Hrank, Hall. cbn [Nat.add] in Hlen, Hrank, Hall.
  split; [rewrite Hlen, length_take; lia |].
  split; [rewrite Hrank, Hlen; reflexivity |].
  split; [exact Hall |].
  split.
  - intros Hnil f Hin. destruct (is_failure f) eqn:Hf; [exfalso | reflexivity].
    rewrite Hnil in Hlen. simpl in Hlen.
    assert (Hg : failure_groups evidence_atoms <> []).
    { unfold failure_groups. apply fold_groups_nonempty. left.
      unfold is_failure in Hf. apply orb_true_iff in Hf.
      intros Happ. apply app_eq_nil in Happ. destruct Happ as [Hc Hw].
      destruct Hf as [Hf|Hf].
      - assert (Hin' : In f (List.filter EvaluatorAgent.is_critical_failure evidence_atoms))
          by (apply filter_In; auto).
        rewrite Hc in Hin'. destruct Hin'.
      - assert (Hin' : In f (List.filter EvaluatorAgent.is_warning_failure evidence_atoms))
          by (apply filter_In; auto).
        rewrite Hw in Hin'. destruct Hin'. }
    destruct (failure_groups evidence_atoms); [congruence | simpl in Hlen; lia].
  - intros Hnone.
    assert (Hg : failure_groups evidence_atoms = []).
    { unfold failure_groups.
      assert (Hc : List.filter EvaluatorAgent.is_critical_failure evidence_atoms = []).
      { destruct (List.filter EvaluatorAgent.is_critical_failure evidence_atoms)
          as [|f l] eqn:E; [reflexivity |].
        assert (Hin : In f (List.filter EvaluatorAgent.is_critical_failure evidence_atoms))
          by (rewrite E; left; reflexivity).
        apply filter_In in Hin. destruct Hin as [Hin Hf].
        specialize (Hnone f Hin). unfold is_failure in Hnone. rewrite Hf in Hnone.
        discriminate. }
      assert (Hw : List.filter EvaluatorAgent.is_warning_failure evidence_atoms = []).
      { destruct (List.filter EvaluatorAgent.is_warning_failure evidence_atoms)
          as [|f l] eqn:E; [reflexivity |].
        assert (Hin : In f (List.filter EvaluatorAgent.is_warning_failure evidence_atoms))
          by (rewrite E; left; reflexivity).
        apply filter_In in Hin. destruct Hin as [Hin Hf].
        specialize (Hnone f Hin). unfold is_failure in Hnone. rewrite Hf in Hnone.
        rewrite orb_true_r in Hnone. discriminate. }
      rewrite Hc, Hw. reflexivity. }
    rewrite Hg. reflexivity.
Qed.

(* ===================================================================== *)
(** * The scoring curves are bounded and never increase                   *)
(* ===================================================================== *)

Lemma is_rational_inv (x : pyfloat) (q : Q) :
  is_rational x q -> exists r, x = Fin r /\ r == q.
Proof. destruct x; simpl; try contradiction. intros H. eauto. Qed.

(** A falling line between two points: its values lie between the two
    ordinates, and it falls. *)
Lemma line_falls (x0 x1 y0 y1 a b : Q) :
  x0 < x1 -> y1 <= y0 -> x0 <= a -> a <= b -> b <= x1 ->
  y1 <= line x0 x1 y0 y1 b /\
  line x0 x1 y0 y1 b <= line x0 x1 y0 y1 a /\
  line x0 x1 y0 y1 a <= y0.
Proof.
  intros Hx Hy Ha Hab Hb. unfold line.
  assert (Hw : 0 < x1 - x0) by lra.
  assert (Hta : 0 <= (a - x0) / (x1 - x0)).
  { apply Qle_shift_div_l; [exact Hw | lra]. }
  assert (Htab : (a - x0) / (x1 - x0) <= (b - x0) / (x1 - x0)).
  { apply Qle_shift_div_l; [exact Hw |].
    assert (E : (a - x0) / (x1 - x0) * (x1 - x0) == a - x0) by (field; lra).
    rewrite E. lra. }
  assert (Htb : (b - x0) / (x1 - x0) <= 1).
  { apply Qle_shift_div_r; [exact Hw | lra]. }
  set (ta := (a - x0) / (x1 - x0)) in *. set (tb := (b - x0) / (x1 - x0)) in *.
  nra.
Qed.

Lemma tail_falls (c a b : Q) :
  c <= a -> a <= b ->
  5 <= Qmax 5 (15 - (b - c) / 100 * 10) /\
  Qmax 5 (15 - (b - c) / 100 * 10) <= Qmax 5 (15 - (a - c) / 100 * 10) /\
  Qmax 5 (15 - (a - c) / 100 * 10) <= 15.
Proof.
  intros Ha Hab.
  assert (Ea : (a - c) / 100 * 10 == (a - c) * (1 # 10)) by field.
  assert (Eb : (b - c) / 100 * 10 == (b - c) * (1 # 10)) by field.
  rewrite Ea, Eb.
  split; [apply Q.le_max_l |]. split.
  - apply Q.max_le_compat_l. lra.
  - apply Q.max_lub; lra.
Qed.

Ltac segment_facts x0 x1 y0 y1 a b :=
  try (let H := fresh "Hseg" in
       assert (H := line_falls x0 x1 y0 y1 a b
                      ltac:(lra) ltac:(lra) ltac:(lra) ltac:(lra) ltac:(lra))).

Ltac tail_facts c a b :=
  try (let H := fresh "Htail" in
       assert (H := tail_falls c a b ltac:(lra) ltac:(lra))).

Ltac read_tests :=
  repeat match goal with
         | H : Qltb _ _ = true |- _ => apply Qltb_lt in H
         | H : Qltb _ _ = false |- _ => apply Qltb_ge in H
         end.

Lemma spec_mae_falls (a b : Q) :
  0 <= a -> a <= b ->
  5 <= spec_mae_score b /\ spec_mae_score b <= spec_mae_score a /\
  spec_mae_score a <= 100.
Proof.
  intros Ha Hab. unfold spec_mae_score.
  destruct (Qltb a 5) eqn:A1; [| destruct (Qltb a 20) eqn:A2;
    [| destruct (Qltb a 50) eqn:A3; [| destruct (Qltb a 100) eqn:A4;
      [| destruct (Qltb a 200) eqn:A5]]]];
  (destruct (Qltb b 5) eqn:B1; [| destruct (Qltb b 20) eqn:B2;
    [| destruct (Qltb b 50) eqn:B3; [| destruct (Qltb b 100) eqn:B4;
      [| destruct (Qltb b 200) eqn:B5]]]]);
  read_tests; try (exfalso; lra);
  segment_facts 0 5 100 90 a a; segment_facts 0 5 100 90 b b;
  segment_facts 0 5 100 90 a b;
  segment_facts 5 20 90 70 a a; segment_facts 5 20 90 70 b b;
  segment_facts 5 20 90 70 a b;
  segment_facts 20 50 70 50 a a; segment_facts 20 50 70 50 b b;
  segment_facts 20 50 70 50 a b;
  segment_facts 50 100 50 30 a a; segment_facts 50 100 50 30 b b;
  segment_facts 50 100 50 30 a b;
  segment_facts 100 200 30 15 a a; segment_facts 100 200 30 15 b b;
  segment_facts 100 200 30 15 a b;
  tail_facts 200 a a; tail_facts 200 b b; tail_facts 200 a b;
  lra.
Qed.

Lemma spec_rmse_falls (a b : Q) :
  0 <= a -> a <= b ->
  5 <= spec_rmse_score b /\ spec_rmse_score b <= spec_rmse_score a /\
  spec_rmse_score a <= 100.
Proof.
  intros Ha Hab. unfold spec_rmse_score.
  destruct (Qltb a 10) eqn:A1; [| destruct (Qltb a 50) eqn:A2;
    [| destruct (Qltb a 100) eqn:A3; [| destruct (Qltb a 200) eqn:A4;
      [| destruct (Qltb a 300) eqn:A5]]]];
  (destruct (Qltb b 10) eqn:B1; [| destruct (Qltb b 50) eqn:B2;
    [| destruct (Qltb b 100) eqn:B3; [| destruct (Qltb b 200) eqn:B4;
      [| destruct (Qltb b 300) eqn:B5]]]]);
  read_tests; try (exfalso; lra);
  segment_facts 0 10 100 90 a a; segment_facts 0 10 100 90 b b;
  segment_facts 0 10 100 90 a b;
  segment_facts 10 50 90 70 a a; segment_facts 10 50 90 70 b b;
  segment_facts 10 50 90 70 a b;
  segment_facts 50 100 70 50 a a; segment_facts 50 100 70 50 b b;
  segment_facts 50 100 70 50 a b;
  segment_facts 100 200 50 30 a a; segment_facts 100 200 50 30 b b;
  segment_facts 100 200 50 30 a b;
  segment_facts 200 300 30 15 a a; segment_facts 200 300 30 15 b b;
  segment_facts 200 300 30 15 a b;
  tail_facts 300 a a; tail_facts 300 b b; tail_facts 300 a b;
  lra.
Qed.

(** X6.  The error-to-score curves of the fusion classes take a
    non-negative error to a score between 5 and 100, and a larger
    error never gets a higher score. *)
Theorem error_scores_bounded_and_falling (a b : Q) :
  0 <= a -> a <= b ->
  exists sa sb ra rb : Q,
    RuleBasedFusionAligned._mae_to_score (Fin a) = Fin sa /\
    RuleBasedFusionAligned._mae_to_score (Fin b) = Fin sb /\
    RuleBasedFusionAligned._rmse_to_score (Fin a) = Fin ra /\
    RuleBasedFusionAligned._rmse_to_score (Fin b) = Fin rb /\
    RuleBasedFusion._mae_to_score (Fin a) = Fin sa /\
    RuleBasedFusion._rmse_to_score (Fin a) = Fin ra /\
    5 <= sb /\ sb <= sa /\ sa <= 100 /\
    5 <= rb /\ rb <= ra /\ ra <= 100.
Proof.
  intros Ha Hab.
  destruct (is_rational_inv _ _ (aligned_mae_curve a)) as (sa & Esa & Hsa).
  destruct (is_rational_inv _ _ (aligned_mae_curve b)) as (sb & Esb & Hsb).
  destruct (is_rational_inv _ _ (aligned_rmse_curve a)) as (ra & Era & Hra).
  destruct (is_rational_inv _ _ (aligned_rmse_curve b)) as (rb & Erb & Hrb).
  exists sa, sb, ra, rb.
  destruct (fusion_curves_agree (Fin a)) as [Hm Hr].
  rewrite Hm, Hr.
  repeat (split; [assumption |]).
  destruct (spec_mae_falls a b Ha Hab) as (M1 & M2 & M3).
  destruct (spec_rmse_falls a b Ha Hab) as (R1 & R2 & R3).
  rewrite Hsa, Hsb, Hra, Hrb. repeat split; assumption.
Qed.

Lemma error_scores_bounded_and_falling_witness :
  0 <= 3 /\ 3 <= 250 /\
  exists sa sb ra rb : Q,
    RuleBasedFusionAligned._mae_to_score (Fin 3) = Fin sa /\
    RuleBasedFusionAligned._mae_to_score (Fin 250) = Fin sb /\
    RuleBasedFusionAligned._rmse_to_score (Fin 3) = Fin ra /\
    RuleBasedFusionAligned._rmse_to_score (Fin 250) = Fin rb /\
    RuleBasedFusion._mae_to_score (Fin 3) = Fin sa /\
    RuleBasedFusion._rmse_to_score (Fin 3) = Fin ra /\
    5 <= sb /\ sb <= sa /\ sa <= 100 /\
    5 <= rb /\ rb <= ra /\ ra <= 100.
Proof.
  assert (H1 : 0 <= 3) by discriminate.
  assert (H2 : 3 <= 250) by discriminate.
  split; [exact H1 |]. split; [exact H2 |].
  exact (error_scores_bounded_and_falling 3 250 H1 H2).
Defined.

(* ===================================================================== *)
(** * The constraint-satisfaction score                                   *)
(* ===================================================================== *)

Lemma severity_weight_pos (s : Severity) : (1 # 2) <= severity_weight s.
Proof. destruct s; simpl; lra. Qed.

Lemma satisfaction_fold (l : list EvidenceAtom) :
  forall tq pq : Q,
  0 <= pq -> pq <= tq ->
  exists tq' pq' : Q,
    fold_left (fun '(total_weight, passed_weight) atom =>
      let weight := Fin (severity_weight (severity atom)) in
      (fadd total_weight weight,
       match (None : option pyfloat) with
       | Some s => fadd passed_weight (fmul weight s)
       | None => if pass_ atom then fadd passed_weight weight else passed_weight
       end)) l (Fin tq, Fin pq) = (Fin tq', Fin pq') /\
    0 <= pq' /\ pq' <= tq' /\
    tq + (1 # 2) * inject_Z (Z.of_nat (length l)) <= tq' /\
    (Forall (fun a => pass_ a = true) l -> tq' - pq' == tq - pq) /\
    (Forall (fun a => pass_ a = false) l -> pq' == pq).
Proof.
  induction l as [|a l IH]; intros tq pq H0 H1.
  - exists tq, pq. cbn [fold_left length].
    change (inject_Z (Z.of_nat 0)) with 0.
    split; [reflexivity |]. split; [exact H0 |]. split; [exact H1 |].
    split; [lra |]. split; intros _; reflexivity.
  - cbn [fold_left]. cbn zeta.
    pose proof (severity_weight_pos (severity a)) as Hw.
    assert (Hlen : inject_Z (Z.of_nat (length (a :: l))) ==
                   1 + inject_Z (Z.of_nat (length l))).
    { cbn [length]. rewrite Nat2Z.inj_succ. unfold Z.succ. rewrite inject_Z_plus. ring. }
    destruct (pass_ a) eqn:Hp; cbn [fadd].
    + destruct (IH (tq + severity_weight (severity a)) (pq + severity_weight (severity a))
                  ltac:(lra) ltac:(lra)) as (tq' & pq' & Hf & G0 & G1 & G2 & G3 & G4).
      exists tq', pq'. split; [exact Hf |]. split; [exact G0 |]. split; [exact G1 |].
      split; [rewrite Hlen; lra |]. split.
      * intros Hall. inversion Hall; subst. rewrite G3 by assumption. ring.
      * intros Hall. inversion Hall; subst. congruence.
    + destruct (IH (tq + severity_weight (severity a)) pq ltac:(lra) ltac:(lra))
        as (tq' & pq' & Hf & G0 & G1 & G2 & G3 & G4).
      exists tq', pq'. split; [exact Hf |]. split; [exact G0 |]. split; [exact G1 |].
      split; [rewrite Hlen; lra |]. split.
      * intros Hall. inversion Hall; subst. congruence.
      * intros Hall. inversion Hall; subst. apply G4. assumption.
Qed.

(** On a non-empty evidence list the score is the passed share of
    the total weight, which is positive. *)
Lemma satisfaction_ratio (a : EvidenceAtom) (l : list EvidenceAtom) :
  exists tq pq : Q,
    constraint_satisfaction false (a :: l) = Fin (pq / tq * 100.0) /\
    0 < tq /\ 0 <= pq /\ pq <= tq /\
    (Forall (fun a => pass_ a = true) (a :: l) -> pq == tq) /\
    (Forall (fun a => pass_ a = false) (a :: l) -> pq == 0).
Proof.
  unfold constraint_satisfaction. cbv iota.
  destruct (satisfaction_fold (a :: l) 0.0 0.0 ltac:(lra) ltac:(lra))
    as (tq & pq & Hf & G0 & G1 & G2 & G3 & G4).
  cbn [negb] in *. rewrite Hf.
  assert (Hpos : 0 < tq).
  { assert (Hl : 1 <= inject_Z (Z.of_nat (length (a :: l)))).
    { cbn [length]. rewrite Nat2Z.inj_succ. unfold Z.succ. rewrite inject_Z_plus.
      assert (0 <= inject_Z (Z.of_nat (length l)))
        by (unfold Qle; simpl; lia).
      change (inject_Z 1) with 1. lra. }
    lra. }
  assert (Hgt : fgtb (Fin tq) (Fin 0) = true) by (apply Qltb_lt, Hpos).
  rewrite Hgt. cbn [fdiv fmul].
  assert (Hz : Qeqb tq 0 = false).
  { unfold Qeqb. destruct (tq ?= 0) eqn:E; try reflexivity.
    apply Qeq_alt in E. lra. }
  rewrite Hz. cbn [fmul].
  exists tq, pq. split; [reflexivity |]. split; [exact Hpos |].
  split; [exact G0 |]. split; [exact G1 |]. split.
  - intros Hall. specialize (G3 Hall). lra.
  - intros Hall. specialize (G4 Hall). lra.
Qed.

(** The range of the constraint-satisfaction score. *)
Lemma satisfaction_score_range (evidence_atoms : list EvidenceAtom) :
  exists q : Q,
    constraint_satisfaction false evidence_atoms = Fin q /\ 0 <= q /\ q <= 100.
Proof.
  destruct evidence_atoms as [|a l].
  - exists 100.0. split; [reflexivity |]. split; lra.
  - destruct (satisfaction_ratio a l) as (tq & pq & Hs & Hpos & G0 & G1 & _).
    exists (pq / tq * 100.0). split; [exact Hs |].
    assert (Hr0 : 0 <= pq / tq) by (apply Qle_shift_div_l; [exact Hpos | lra]).
    assert (Hr1 : pq / tq <= 1) by (apply Qle_shift_div_r; [exact Hpos | lra]).
    split; lra.
Qed.

(** X7.  The constraint-satisfaction score of the rule-based fusion lies
    between 0 and 100; it is 100 when every atom passes (in particular
    on no evidence at all) and 0 when there are atoms and none passes. *)
Theorem constraint_satisfaction_bounds (evidence_atoms : list EvidenceAtom) :
  exists q : Q,
    constraint_satisfaction false evidence_atoms = Fin q /\
    0 <= q /\ q <= 100 /\
    (Forall (fun a => pass_ a = true) evidence_atoms -> q == 100) /\
    (evidence_atoms <> [] -> Forall (fun a => pass_ a = false) evidence_atoms -> q == 0).
Proof.
  destruct evidence_atoms as [|a l].
  - exists 100.0. split; [reflexivity |]. repeat split; try lra; congruence.
  - destruct (satisfaction_ratio a l) as (tq & pq & Hs & Hpos & G0 & G1 & G3 & G4).
    exists (pq / tq * 100.0). split; [exact Hs |].
    assert (Hr0 : 0 <= pq / tq) by (apply Qle_shift_div_l; [exact Hpos | lra]).
    assert (Hr1 : pq / tq <= 1) by (apply Qle_shift_div_r; [exact Hpos | lra]).
    split; [lra |]. split; [lra |]. split.
    + intros Hall. specialize (G3 Hall).
      assert (E : pq / tq == 1) by (rewrite G3; field; lra).
      rewrite E. reflexivity.
    + intros _ Hall. specialize (G4 Hall).
      assert (E : pq / tq == 0) by (rewrite G4; field; lra).
      rewrite E. reflexivity.
Qed.

(* ===================================================================== *)
(** * Grades of the ladder dimensions                                     *)
(* ===================================================================== *)

Lemma inject_nat_mult (a b : nat) :
  inject_Z (Z.of_nat (a * b)) == inject_Z (Z.of_nat a) * inject_Z (Z.of_nat b).
Proof. rewrite Nat2Z.inj_mul, inject_Z_mult. reflexivity. Qed.

Lemma inject_nat_le (a b : nat) :
  inject_Z (Z.of_nat a) <= inject_Z (Z.of_nat b) <-> (a <= b)%nat.
Proof. rewrite <- Zle_Qle. lia. Qed.

(** The ratio test of the rubric, on the counts. *)
Lemma rate_ok_within (l : list EvidenceAtom) (t : string) (r : Q) (num den : nat) :
  (0 < den)%nat ->
  r == inject_Z (Z.of_nat num) / inject_Z (Z.of_nat den) ->
  RuleBasedFusionAligned.rate_ok
    (RuleBasedFusionAligned._count_evidence_by_type l) t r = true <->
  within t l num den.
Proof.
  intros Hden Hr. rewrite rate_ok_population. unfold within.
  set (f := failures_of t l). set (p := passes_of t l).
  destruct (Nat.ltb_spec 0 (p + f)) as [Hpos|Hzero].
  - pose proof (inject_nat_pos _ Hpos) as HT.
    pose proof (inject_nat_pos _ Hden) as HD.
    rewrite negb_true_iff, Qltb_ge, Hr.
    rewrite <- inject_nat_le, !inject_nat_mult.
    set (F := inject_Z (Z.of_nat f)) in *. set (T := inject_Z (Z.of_nat (p + f))) in *.
    set (N := inject_Z (Z.of_nat num)) in *. set (Dn := inject_Z (Z.of_nat den)) in *.
    assert (EF : F / T * T == F) by (field; lra).
    assert (EN : N / Dn * Dn == N) by (field; lra).
    split; intros H.
    + assert (H1 : F / T * T * Dn <= N / Dn * T * Dn).
      { apply Qmult_le_compat_r; [| lra]. apply Qmult_le_compat_r; [exact H | lra]. }
      rewrite EF in H1.
      assert (E2 : N / Dn * T * Dn == N * T) by (field; lra).
      rewrite E2 in H1. lra.
    + apply Qle_shift_div_l; [exact HD |].
      assert (E2 : F / T * Dn == F * Dn / T) by (field; lra).
      rewrite E2. apply Qle_shift_div_r; [exact HT | lra].
  - assert (Hf : f = 0%nat) by lia. rewrite Hf.
    split; [intros _; lia | reflexivity].
Qed.

(** The grade found by the loop over a ladder of nested tests. *)
Lemma first_match_rank (mA mB mC mD : bool) :
  (mA = true -> mB = true) -> (mB = true -> mC = true) -> mD = true ->
  let g := match find (fun grade => match grade with
                                    | A => mA | B => mB | C => mC | D => mD end)
                   [A; B; C; D] with
           | Some grade => grade
           | None => D
           end in
  (g = A <-> mA = true) /\
  ((grade_rank g <= 1)%nat <-> mB = true) /\
  ((grade_rank g <= 2)%nat <-> mC = true).
Proof.
  intros HAB HBC HD. cbn [find].
  destruct mA, mB, mC, mD; cbn [grade_rank];
    repeat split; intros; try reflexivity; try lia; try discriminate;
    try (specialize (HAB eq_refl); discriminate);
    try (specialize (HBC eq_refl); discriminate).
Qed.

Lemma determine_grade_find (d : Dimension) counts pr ce :
  RuleBasedFusionAligned._determine_grade d counts pr ce =
  match find (fun grade =>
                match grade with
                | A => RuleBasedFusionAligned.grade_matches d A counts pr ce
                | B => RuleBasedFusionAligned.grade_matches d B counts pr ce
                | C => RuleBasedFusionAligned.grade_matches d C counts pr ce
                | D => RuleBasedFusionAligned.grade_matches d D counts pr ce
                end) [A; B; C; D] with
  | Some grade => grade
  | None => D
  end.
Proof. reflexivity. Qed.

Lemma within_all (t : string) (l : list EvidenceAtom) : within t l 1 1.
Proof. unfold within. lia. Qed.

Ltac rates :=
  repeat match goal with
         | |- context [RuleBasedFusionAligned.rate_ok _ ?t ?r] =>
             let b := fresh "b" in
             let E := fresh "E" in
             destruct (RuleBasedFusionAligned.rate_ok _ t r) eqn:E
         end.

(** X8.  The grades of the Field-Validity, Physics-Consistency and
    Safety-Constraint dimensions are decided by the failure rates alone:
    a grade is A exactly when no atom of the dimension's types fails, B
    or better exactly when the failures of each type are within the B
    rate of the rubric (5 percent for Field-Validity, 10 percent for
    the two others), C or better exactly when they are within the C
    rate (15 percent, 25 percent for the two others); a type without
    atoms counts as within every rate. *)
Theorem ladder_grades_follow_failure_rates (evidence_atoms : list EvidenceAtom)
    (protocol_result : ProtocolResult) (conditional_error : option ConditionalError) :
  let grade d := rule_grade d evidence_atoms protocol_result conditional_error in
  let both t1 t2 num den :=
    within t1 evidence_atoms num den /\ within t2 evidence_atoms num den in
  ((grade FIELD_VALIDITY = A <->
      failures_of "range_sanity" evidence_atoms = 0%nat /\
      failures_of "jump_dynamics" evidence_atoms = 0%nat) /\
   ((grade_rank (grade FIELD_VALIDITY) <= 1)%nat <->
      both "range_sanity" "jump_dynamics" 1%nat 20%nat) /\
   ((grade_rank (grade FIELD_VALIDITY) <= 2)%nat <->
      both "range_sanity" "jump_dynamics" 3%nat 20%nat)) /\
  ((grade PHYSICS_CONSISTENCY = A <->
      failures_of "cross_field_consistency" evidence_atoms = 0%nat /\
      failures_of "physics_constraint" evidence_atoms = 0%nat) /\
   ((grade_rank (grade PHYSICS_CONSISTENCY) <= 1)%nat <->
      both "cross_field_consistency" "physics_constraint" 1%nat 10%nat) /\
   ((grade_rank (grade PHYSICS_CONSISTENCY) <= 2)%nat <->
      both "cross_field_consistency" "physics_constraint" 1%nat 4%nat)) /\
  ((grade SAFETY_CONSTRAINT = A <->
      failures_of "safety_constraint" evidence_atoms = 0%nat) /\
   ((grade_rank (grade SAFETY_CONSTRAINT) <= 1)%nat <->
      within "safety_constraint" evidence_atoms 1 10) /\
   ((grade_rank (grade SAFETY_CONSTRAINT) <= 2)%nat <->
      within "safety_constraint" evidence_atoms 1 4)).
Proof.
  intros grade both. subst grade both. cbn beta.
  set (counts := RuleBasedFusionAligned._count_evidence_by_type evidence_atoms).
  assert (R0 : forall t, RuleBasedFusionAligned.rate_ok counts t 0.0 = true <->
                         failures_of t evidence_atoms = 0%nat).
  { intros t. unfold counts.
    rewrite (rate_ok_within evidence_atoms t 0.0 0 1 ltac:(lia) ltac:(reflexivity)).
    unfold within. lia. }
  assert (R5 : forall t, RuleBasedFusionAligned.rate_ok counts t 0.05 = true <->
                         within t evidence_atoms 1 20).
  { intros t. apply rate_ok_within; [lia | reflexivity]. }
  assert (R15 : forall t, RuleBasedFusionAligned.rate_ok counts t 0.15 = true <->
                          within t evidence_atoms 3 20).
  { intros t. apply rate_ok_within; [lia | reflexivity]. }
  assert (R10 : forall t, RuleBasedFusionAligned.rate_ok counts t 0.10 = true <->
                          within t evidence_atoms 1 10).
  { intros t. apply rate_ok_within; [lia | reflexivity]. }
  assert (R25 : forall t, RuleBasedFusionAligned.rate_ok counts t 0.25 = true <->
                          within t evidence_atoms 1 4).
  { intros t. apply rate_ok_within; [lia | reflexivity]. }
  assert (R100 : forall t, RuleBasedFusionAligned.rate_ok counts t 1.0 = true).
  { intros t. apply (rate_ok_within evidence_atoms t 1.0 1 1); [lia | reflexivity |].
    apply within_all. }
  assert (W01 : forall t, failures_of t evidence_atoms = 0%nat ->
                          within t evidence_atoms 1 20 /\ within t evidence_atoms 1 10).
  { intros t H. unfold within. rewrite H. lia. }
  assert (W12 : forall t, within t evidence_atoms 1 20 -> within t evidence_atoms 3 20).
  { intros t. unfold within. lia. }
  assert (W13 : forall t, within t evidence_atoms 1 10 -> within t evidence_atoms 1 4).
  { intros t. unfold within. lia. }
  unfold rule_grade. fold counts.
  split; [| split].
  - rewrite determine_grade_find.
    unfold RuleBasedFusionAligned.grade_matches.
    cbn [RUBRIC field_requirements req_range_sanity req_jump_dynamics
         RuleBasedFusionAligned.when_present].
    rewrite <- !R0, <- !R5, <- !R15, <- !andb_true_iff.
    apply first_match_rank.
    + rewrite !andb_true_iff, !R0, !R5. intros [H1 H2].
      split; [apply (W01 _ H1) | apply (W01 _ H2)].
    + rewrite !andb_true_iff, !R5, !R15. intros [H1 H2]. split; apply W12; assumption.
    + rewrite !R100. reflexivity.
  - rewrite determine_grade_find.
    unfold RuleBasedFusionAligned.grade_matches.
    cbn [RUBRIC physics_requirements req_cross_field_consistency req_physics_constraint
         RuleBasedFusionAligned.when_present].
    rewrite <- !R0, <- !R10, <- !R25, <- !andb_true_iff.
    apply first_match_rank.
    + rewrite !andb_true_iff, !R0, !R10. intros [H1 H2].
      split; [apply (W01 _ H1) | apply (W01 _ H2)].
    + rewrite !andb_true_iff, !R10, !R25. intros [H1 H2]. split; apply W13; assumption.
    + rewrite !R100. reflexivity.
  - rewrite determine_grade_find.
    unfold RuleBasedFusionAligned.grade_matches.
    cbn [RUBRIC safety_requirements req_safety_constraint
         RuleBasedFusionAligned.when_present].
    rewrite <- !R0, <- !R10, <- !R25.
    apply first_match_rank.
    + rewrite !R0, !R10. intros H1. apply (W01 _ H1).
    + rewrite !R10, !R25. apply W13.
    + rewrite !R100. reflexivity.
Qed.

(* ===================================================================== *)
(** * Scores of a sample without reference values                         *)
(* ===================================================================== *)

Lemma no_reference_no_error (sample : Sample) (ctx : Context) :
  gold_data sample = ∅ \/ json_data ctx = None ->
  RuleBasedFusionAligned.conditional_error_of sample ctx = None.
Proof.
  intros [Hg|Hj]; unfold RuleBasedFusionAligned.conditional_error_of.
  - destruct (json_data ctx) as [d|]; [| reflexivity].
    rewrite Hg. rewrite (bool_decide_eq_true_2 (∅ = ∅)) by reflexivity.
    rewrite orb_true_r. reflexivity.
  - rewrite Hj. reflexivity.
Qed.

Lemma grade_score_bounds (g : Grade) : 0 <= GRADE_SCORE_MAP g /\ GRADE_SCORE_MAP g <= 1.
Proof. destruct g; simpl; split; lra. Qed.

(** X9.  When the sample carries no reference values, or the reply did not
    parse, the aligned fusion has no conditional error: the
    Predictive-Quality dimension scores 0, so the overall score is at
    most 80 and the overall grade is never A, whatever the evidence;
    the reported conditional-error score is then the
    constraint-satisfaction score. *)
Theorem no_reference_caps_overall_score
    (evidence_atoms : list EvidenceAtom) (protocol_result : ProtocolResult)
    (sample : Sample) (ctx : Context) :
  gold_data sample = ∅ \/ json_data ctx = None ->
  let r := RuleBasedFusionAligned.calculate_scores
             evidence_atoms protocol_result sample ctx in
  is_rational (predictive_quality_score r) 0 /\
  mae_score r = Fin 0.0 /\ rmse_score r = Fin 0.0 /\
  al_conditional_error_score r = al_constraint_satisfaction_score r /\
  (exists q : Q, overall_score r = Fin q /\ 0 <= q /\ q <= 80) /\
  overall_grade r <> grade_value A.
Proof.
  intros Href r. subst r.
  pose proof (no_reference_no_error sample ctx Href) as Hce.
  unfold RuleBasedFusionAligned.calculate_scores. rewrite Hce.
  cbn [predictive_quality_score mae_score rmse_score al_conditional_error_score
       al_constraint_satisfaction_score overall_score overall_grade
       all_dimensions map snd fst length
       RuleBasedFusionAligned.dimension_result].
  set (counts := RuleBasedFusionAligned._count_evidence_by_type evidence_atoms).
  pose proof (grade_score_bounds
    (RuleBasedFusionAligned._determine_grade PROTOCOL_SCHEMA counts protocol_result None))
    as [H1 H1'].
  pose proof (grade_score_bounds
    (RuleBasedFusionAligned._determine_grade FIELD_VALIDITY counts protocol_result None))
    as [H2 H2'].
  pose proof (grade_score_bounds
    (RuleBasedFusionAligned._determine_grade PHYSICS_CONSISTENCY counts protocol_result None))
    as [H3 H3'].
  pose proof (grade_score_bounds
    (RuleBasedFusionAligned._determine_grade SAFETY_CONSTRAINT counts protocol_result None))
    as [H4 H4'].
  generalize dependent (GRADE_SCORE_MAP
    (RuleBasedFusionAligned._determine_grade PROTOCOL_SCHEMA counts protocol_result None)).
  intros g1 H1 H1'.
  generalize dependent (GRADE_SCORE_MAP
    (RuleBasedFusionAligned._determine_grade FIELD_VALIDITY counts protocol_result None)).
  intros g2 H2 H2'.
  generalize dependent (GRADE_SCORE_MAP
    (RuleBasedFusionAligned._determine_grade PHYSICS_CONSISTENCY counts protocol_result None)).
  intros g3 H3 H3'.
  generalize dependent (GRADE_SCORE_MAP
    (RuleBasedFusionAligned._determine_grade SAFETY_CONSTRAINT counts protocol_result None)).
  intros g4 H4 H4'.
  rewrite py_sum_five.
  split; [reflexivity |]. split; [reflexivity |]. split; [reflexivity |].
  split; [reflexivity |].
  cbn [fdiv fmul of_nat].
  change (Qeqb (inject_Z (Z.of_nat 5)) 0) with false. cbn match.
  assert (Hm : 0 <= (0 + g1 + g2 + g3 + g4 + 0.0) / inject_Z (Z.of_nat 5) /\
               (0 + g1 + g2 + g3 + g4 + 0.0) / inject_Z (Z.of_nat 5) <= 4 # 5).
  { change (inject_Z (Z.of_nat 5)) with 5. split.
    - apply Qle_shift_div_l; lra.
    - apply Qle_shift_div_r; lra. }
  destruct Hm as [Hm0 Hm1].
  set (m := (0 + g1 + g2 + g3 + g4 + 0.0) / inject_Z (Z.of_nat 5)) in *.
  split.
  - exists (m * 100.0). split; [reflexivity |]. split; lra.
  - unfold fgeb, fleb.
    assert (Hlt : Qleb 0.875 m = false) by (apply Qleb_gt; lra).
    rewrite Hlt. destruct (Qleb 0.625 m), (Qleb 0.25 m); discriminate.
Qed.

Lemma no_reference_caps_overall_score_witness :
  (gold_data (example_sample "S1") = ∅ \/
   json_data (example_context "S1" latitude_only ∅) = None) /\
  overall_grade
    (RuleBasedFusionAligned.calculate_scores []
       (protocol_result_of (Some latitude_only) "S1") (example_sample "S1")
       (example_context "S1" latitude_only ∅)) <> grade_value A.
Proof.
  assert (H : gold_data (example_sample "S1") = ∅ \/
              json_data (example_context "S1" latitude_only ∅) = None)
    by (left; reflexivity).
  split; [exact H |].
  destruct (no_reference_caps_overall_score []
              (protocol_result_of (Some latitude_only) "S1") (example_sample "S1")
              (example_context "S1" latitude_only ∅) H)
    as (_ & _ & _ & _ & _ & Hg).
  exact Hg.
Defined.

(* ===================================================================== *)
(** * Scores and the gate                                                 *)
(* ===================================================================== *)

Lemma gates_agree (evidence_atoms : list EvidenceAtom) :
  RuleBasedFusion.gate evidence_atoms = RuleBasedFusionAligned.gate evidence_atoms /\
  RuleBasedFusion.gate evidence_atoms =
    match critical_failures evidence_atoms with
    | [] => (true, [])
    | _ => (false, [gating_reason (length (critical_failures evidence_atoms))])
    end.
Proof. split; reflexivity. Qed.

Lemma critical_failures_in (l : list EvidenceAtom) :
  critical_failures l <> [] <-> critical_failure_in l.
Proof.
  unfold critical_failures, critical_failure_in. rewrite filter_nonempty.
  split; intros (a & Hin & Ha); exists a; (split; [exact Hin |]);
    apply is_critical_failure_spec; exact Ha.
Qed.



(* ===================================================================== *)
(** * Field completeness                                                  *)
(* ===================================================================== *)

Lemma provided_and_missing (d : gmap string value) (required_fields : list string) :
  (length (List.filter (fun f => negb (bool_decide (d !! f = None))) required_fields)
   + length (List.filter (fun f => bool_decide (d !! f = None)) required_fields))%nat
  = length required_fields.
Proof.
  induction required_fields as [|f l IH]; [reflexivity |].
  cbn [List.filter]. destruct (bool_decide (d !! f = None)); cbn [negb length]; lia.
Qed.

Lemma inject_nat_nonneg (n : nat) : 0 <= inject_Z (Z.of_nat n).
Proof. unfold Qle. simpl. lia. Qed.

Lemma inject_nat_plus (a b : nat) :
  inject_Z (Z.of_nat (a + b)) == inject_Z (Z.of_nat a) + inject_Z (Z.of_nat b).
Proof. rewrite Nat2Z.inj_add, inject_Z_plus. reflexivity. Qed.

(** X11.  The completeness rate is the percentage of the required fields
    that the parsed reply holds: with [n] required fields of which [k]
    are missing it is [100 (n - k) / n], a number between 0 and 100
    that is 100 exactly when no field is missing and 0 exactly when all
    are; a reply that did not parse misses every field. *)
Theorem completeness_counts_provided_fields (json_data : option (gmap string value))
    (required_fields : list string) :
  required_fields <> [] ->
  let missing := _get_missing_fields json_data required_fields in
  let n := inject_Z (Z.of_nat (length required_fields)) in
  let k := inject_Z (Z.of_nat (length missing)) in
  (json_data = None -> missing = required_fields) /\
  (forall f, In f missing <->
             In f required_fields /\ (json_data ≫= (.!! f)) = None) /\
  exists q : Q,
    _calculate_completeness json_data required_fields = Fin q /\
    q == 100 * (n - k) / n /\
    0 <= q /\ q <= 100 /\
    (q == 100 <-> missing = []) /\
    (q == 0 <-> length missing = length required_fields).
Proof.
  intros Hne missing n k.
  assert (Hn : 0 < n).
  { apply inject_nat_pos. destruct required_fields; [congruence | simpl; lia]. }
  assert (Hk0 : 0 <= k) by apply inject_nat_nonneg.
  assert (Hmem : forall f, In f missing <->
                   In f required_fields /\ (json_data ≫= (.!! f)) = None).
  { intros f. subst missing. unfold _get_missing_fields.
    destruct json_data as [d|]; cbn [mbind option_bind].
    - rewrite filter_In, bool_decide_eq_true. reflexivity.
    - tauto. }
  assert (Hnil : k == 0 <-> missing = []).
  { subst k. destruct missing as [|f l].
    - split; reflexivity.
    - split; [| discriminate]. cbn [length]. intros H.
      pose proof (inject_nat_pos (S (length l)) ltac:(lia)) as Hp. lra. }
  assert (Hall : k == n <-> length missing = length required_fields).
  { subst k n. unfold Qeq. simpl. lia. }
  split; [intros ->; reflexivity |]. split; [exact Hmem |].
  subst missing. unfold _calculate_completeness, _get_missing_fields in *.
  destruct json_data as [d|].
  - pose proof (provided_and_missing d required_fields) as Hsum.
    set (provided := length (List.filter (fun f => negb (bool_decide (d !! f = None)))
                               required_fields)) in *.
    set (absent := length (List.filter (fun f => bool_decide (d !! f = None))
                             required_fields)) in *.
    assert (Hp : inject_Z (Z.of_nat provided) == n - k).
    { subst n k. fold absent. rewrite <- Hsum, inject_nat_plus. ring. }
    assert (Hkn : k <= n).
    { pose proof (inject_nat_nonneg provided). lra. }
    unfold of_nat. fold n. cbn [fdiv].
    assert (Hz : Qeqb n 0 = false).
    { unfold Qeqb. destruct (n ?= 0) eqn:E; try reflexivity.
      apply Qeq_alt in E. lra. }
    rewrite Hz. cbn [fmul].
    exists (inject_Z (Z.of_nat provided) / n * 100.0).
    split; [reflexivity |].
    assert (E : inject_Z (Z.of_nat provided) / n * 100.0 == 100 * (n - k) / n).
    { rewrite Hp. field. lra. }
    split; [exact E |]. rewrite E.
    assert (E' : 100 * (n - k) / n == 100 - 100 * (k / n)) by (field; lra).
    assert (Hr0 : 0 <= k / n) by (apply Qle_shift_div_l; lra).
    assert (Hr1 : k / n <= 1) by (apply Qle_shift_div_r; lra).
    assert (Hrk : k / n * n == k) by (field; lra).
    rewrite E'. set (x := k / n) in *.
    split; [lra |]. split; [lra |]. split.
    + rewrite <- Hnil. split; intros H; nra.
    + rewrite <- Hall. split; intros H; nra.
  - exists 0.0. split; [reflexivity |].
    assert (E : k == n) by (subst k n; reflexivity).
    split; [rewrite E; field; lra |].
    split; [lra |]. split; [lra |]. split.
    + split; [intros H; discriminate H | intros H; congruence].
    + split; [reflexivity | reflexivity].
Qed.

Lemma completeness_counts_provided_fields_witness :
  _get_required_fields "S1" <> [] /\
  exists q : Q,
    _calculate_completeness (Some latitude_only) (_get_required_fields "S1") = Fin q /\
    0 <= q /\ q <= 100.
Proof.
  assert (H : _get_required_fields "S1" <> []) by discriminate.
  split; [exact H |].
  destruct (completeness_counts_provided_fields (Some latitude_only)
              (_get_required_fields "S1") H)
    as (_ & _ & q & Hq & _ & H0 & H1 & _).
  exists q. auto.
Defined.

(* ===================================================================== *)
(** * The previous predictions of a model                                 *)
(* ===================================================================== *)

Lemma default_Some {X : Type} (x y : X) : default x (Some y) = y.
Proof. reflexivity. Qed.

Lemma update_fold (d : gmap string value) (model_name : string)
    (required_fields : list string) :
  forall pp : gmap string (gmap string value),
  let pp' :=
    fold_left (fun pp field =>
      match d !! field with
      | Some v => <[model_name := <[field := v]> (default ∅ (pp !! model_name))]> pp
      | None => pp
      end) required_fields pp in
  (forall other, other <> model_name -> pp' !! other = pp !! other) /\
  (forall field,
     default ∅ (pp' !! model_name) !! field =
     if bool_decide (field ∈ required_fields)
     then match d !! field with
          | Some v => Some v
          | None => default ∅ (pp !! model_name) !! field
          end
     else default ∅ (pp !! model_name) !! field) /\
  (is_Some (pp !! model_name) -> is_Some (pp' !! model_name)).
Proof.
  induction required_fields as [|f l IH]; intros pp; cbn zeta.
  - cbn [fold_left]. split; [reflexivity |]. split; [| tauto].
    intros field. rewrite bool_decide_eq_false_2 by (apply not_elem_of_nil).
    reflexivity.
  - cbn [fold_left].
    set (pp1 := match d !! f with
                | Some v => <[model_name := <[f := v]> (default ∅ (pp !! model_name))]> pp
                | None => pp
                end).
    destruct (IH pp1) as (Ho & Hf & Hs). cbn zeta in Ho, Hf, Hs.
    assert (Ho1 : forall other, other <> model_name -> pp1 !! other = pp !! other).
    { intros other Hne. subst pp1. destruct (d !! f); [| reflexivity].
      rewrite lookup_insert_ne by congruence. reflexivity. }
    assert (Hf1 : forall field,
              default ∅ (pp1 !! model_name) !! field =
              if bool_decide (field = f)
              then match d !! f with
                   | Some v => Some v
                   | None => default ∅ (pp !! model_name) !! field
                   end
              else default ∅ (pp !! model_name) !! field).
    { intros field. subst pp1. destruct (d !! f) as [v|] eqn:Hd.
      - rewrite lookup_insert_eq, default_Some.
        destruct (decide (field = f)) as [->|Hne].
        + rewrite bool_decide_eq_true_2 by reflexivity. rewrite lookup_insert_eq.
          reflexivity.
        + rewrite bool_decide_eq_false_2 by exact Hne.
          rewrite lookup_insert_ne by congruence. reflexivity.
      - destruct (bool_decide (field = f)); reflexivity. }
    split; [| split].
    + intros other Hne. rewrite Ho by exact Hne. apply Ho1, Hne.
    + intros field. rewrite Hf, Hf1.
      destruct (decide (field = f)) as [->|Hne].
      * rewrite (bool_decide_eq_true_2 (f = f)) by reflexivity.
        rewrite (bool_decide_eq_true_2 (f ∈ f :: l))
          by (apply elem_of_cons; left; reflexivity).
        destruct (bool_decide (f ∈ l)); destruct (d !! f); reflexivity.
      * rewrite (bool_decide_eq_false_2 (field = f)) by exact Hne.
        destruct (decide (field ∈ l)) as [Hin|Hnin].
        -- rewrite (bool_decide_eq_true_2 (field ∈ l)) by exact Hin.
           rewrite (bool_decide_eq_true_2 (field ∈ f :: l))
             by (apply elem_of_cons; right; exact Hin).
           reflexivity.
        -- rewrite (bool_decide_eq_false_2 (field ∈ l)) by exact Hnin.
           rewrite (bool_decide_eq_false_2 (field ∈ f :: l))
             by (apply not_elem_of_cons; split; assumption).
           reflexivity.
    + intros Hsome. apply Hs. subst pp1. destruct (d !! f); [| exact Hsome].
      rewrite lookup_insert_eq. eauto.
Qed.

(** X12.  After a sample the evaluator remembers, for the model of the
    sample, the value of every required field that the parsed reply
    holds; a field that the reply does not hold keeps the value of an
    earlier sample, the model always has an entry afterwards, and the
    predictions of the other models are not touched. *)
Theorem previous_predictions_updated (json_data : option (gmap string value))
    (required_fields : list string) (model_name : string)
    (previous_predictions : gmap string (gmap string value)) :
  let updated :=
    update_previous_predictions json_data required_fields model_name
      previous_predictions in
  let before := default ∅ (previous_predictions !! model_name) in
  (forall other, other <> model_name ->
     updated !! other = previous_predictions !! other) /\
  exists after,
    updated !! model_name = Some after /\
    forall field,
      after !! field =
      match json_data ≫= (.!! field) with
      | Some v => if bool_decide (field ∈ required_fields) then Some v
                  else before !! field
      | None => before !! field
      end.
Proof.
  cbn zeta. unfold update_previous_predictions.
  set (pp0 := match previous_predictions !! model_name with
              | None => <[model_name := ∅]> previous_predictions
              | Some _ => previous_predictions
              end).
  assert (H0 : forall other, other <> model_name ->
                 pp0 !! other = previous_predictions !! other).
  { intros other Hne. subst pp0. destruct (previous_predictions !! model_name);
      [reflexivity | rewrite lookup_insert_ne by congruence; reflexivity]. }
  assert (H1 : pp0 !! model_name =
               Some (default ∅ (previous_predictions !! model_name))).
  { subst pp0. destruct (previous_predictions !! model_name) eqn:E;
      [rewrite E; reflexivity | rewrite lookup_insert_eq; reflexivity]. }
  destruct json_data as [d|]; cbn [mbind option_bind].
  - destruct (bool_decide (d = ∅)) eqn:Hd.
    + apply bool_decide_eq_true in Hd. subst d.
      split; [exact H0 |]. eexists. split; [exact H1 |].
      intros field. rewrite lookup_empty. reflexivity.
    + destruct (update_fold d model_name required_fields pp0) as (Ho & Hf & Hs).
      cbn zeta in Ho, Hf, Hs.
      split; [intros other Hne; rewrite Ho by exact Hne; apply H0, Hne |].
      destruct Hs as [after Hafter]; [rewrite H1; eauto |].
      exists after. split; [exact Hafter |].
      intros field. specialize (Hf field). rewrite Hafter, H1 in Hf.
      rewrite !default_Some in Hf. rewrite Hf.
      destruct (bool_decide (field ∈ required_fields)); destruct (d !! field);
        reflexivity.
  - split; [exact H0 |]. eexists. split; [exact H1 |]. reflexivity.
Qed.

(* ===================================================================== *)
(** * Transport-error markers                                             *)
(* ===================================================================== *)

Lemma string_app_cons (c : ascii) (a b : string) :
  String c a +:+ b = String c (a +:+ b).
Proof. reflexivity. Qed.

Lemma prefix_app (needle haystack : string) :
  String.prefix needle haystack = true <-> exists post, haystack = needle +:+ post.
Proof.
  revert haystack. induction needle as [|c n IH]; intros haystack.
  - split; [intros _; exists haystack; reflexivity |].
    intros _. destruct haystack; reflexivity.
  - destruct haystack as [|c' h]; cbn [String.prefix].
    + split; [discriminate | intros [post H]; discriminate H].
    + destruct (Ascii.ascii_dec c c') as [->|Hne].
      * rewrite IH. split; intros [post H]; exists post.
        -- rewrite H. reflexivity.
        -- rewrite string_app_cons in H. injection H as ->. reflexivity.
      * split; [discriminate |]. intros [post H].
        rewrite string_app_cons in H. injection H as <- _. congruence.
Qed.

(** [needle in haystack] finds the needle at any position. *)
Lemma contains_app (needle haystack : string) :
  contains needle haystack = true <->
  exists pre post, haystack = pre +:+ needle +:+ post.
Proof.
  induction haystack as [|c h IH].
  - cbn [contains]. rewrite orb_false_r, prefix_app. split.
    + intros [post H]. exists EmptyString, post. exact H.
    + intros (pre & post & H). destruct pre as [|c pre]; [| discriminate H].
      exists post. exact H.
  - cbn [contains]. rewrite orb_true_iff, prefix_app, IH. split.
    + intros [[post H]|(pre & post & H)].
      * exists EmptyString, post. exact H.
      * exists (String c pre), post. rewrite H. reflexivity.
    + intros (pre & post & H). destruct pre as [|c' pre].
      * left. exists post. exact H.
      * right. exists pre, post. rewrite string_app_cons in H.
        injection H as _ ->. reflexivity.
Qed.

Lemma lower_app (a b : string) : lower (a +:+ b) = lower a +:+ lower b.
Proof.
  induction a as [|c a IH]; [reflexivity |].
  rewrite string_app_cons. cbn [lower]. rewrite IH. reflexivity.
Qed.

Lemma lower_app_inv (s a b : string) :
  lower s = a +:+ b ->
  exists a' b', s = a' +:+ b' /\ lower a' = a /\ lower b' = b.
Proof.
  revert s. induction a as [|c a IH]; intros s H.
  - exists EmptyString, s. auto.
  - destruct s as [|c' s]; [discriminate H |].
    cbn [lower] in H. rewrite string_app_cons in H.
    injection H as Hc Hs. destruct (IH s Hs) as (a' & b' & -> & Ha & Hb).
    exists (String c' a'), b'. cbn [lower]. rewrite Ha, Hc. auto.
Qed.


(* ===================================================================== *)
(** * Extraction of the JSON object                                       *)
(* ===================================================================== *)

Lemma first_loadable_app `{!PyBuiltins} (l1 l2 : list string) :
  first_loadable (l1 ++ l2) =
  match first_loadable l1 with
  | Some d => Some d
  | None => first_loadable l2
  end.
Proof.
  induction l1 as [|m l1 IH]; [reflexivity |].
  cbn [first_loadable app]. destruct (json_loads m); [reflexivity | exact IH].
Qed.

Lemma first_loadable_Some `{!PyBuiltins} (l : list string) (d : gmap string value) :
  first_loadable l = Some d <->
  exists before text after,
    l = before ++ text :: after /\
    Forall (fun t => json_loads t = None) before /\ json_loads text = Some d.
Proof.
  induction l as [|m l IH]; cbn [first_loadable].
  - split; [discriminate |]. intros (before & text & after & Hl & _).
    destruct before; discriminate Hl.
  - destruct (json_loads m) as [d'|] eqn:Hm.
    + split.
      * intros Hl. exists [], m, l. split; [reflexivity |].
        split; [constructor | congruence].
      * intros (before & text & after & Hl & Hb & Ht).
        destruct before as [|b before]; cbn in Hl.
        -- injection Hl as -> _. congruence.
        -- injection Hl as -> _. inversion Hb; subst. congruence.
    + rewrite IH. split.
      * intros (before & text & after & -> & Hb & Ht).
        exists (m :: before), text, after. split; [reflexivity |].
        split; [constructor; assumption | exact Ht].
      * intros (before & text & after & Hl & Hb & Ht).
        destruct before as [|b before]; cbn in Hl.
        -- injection Hl as -> _. congruence.
        -- injection Hl as -> ->. inversion Hb; subst.
           exists before, text, after. auto.
Qed.

Lemma first_loadable_None `{!PyBuiltins} (l : list string) :
  first_loadable l = None <-> Forall (fun t => json_loads t = None) l.
Proof.
  induction l as [|m l IH]; cbn [first_loadable].
  - split; [constructor | reflexivity].
  - destruct (json_loads m) eqn:Hm.
    + split; [discriminate |]. intros Hl. inversion Hl; subst. congruence.
    + rewrite IH. split; [intros Hl; constructor; assumption |].
      intros Hl. inversion Hl; subst. assumption.
Qed.


(* ===================================================================== *)
(** * The reports of a verifier                                           *)
(* ===================================================================== *)

Lemma reports_ret {A : Type} (a : A) : reports (mret a : Run A) [].
Proof.
  intros s. exists a, []. split; [| reflexivity].
  unfold mret, StateExc_ret. cbn [length]. rewrite Nat.add_0_r, app_nil_r.
  destruct s; reflexivity.
Qed.

Lemma reports_bind {A B : Type} (m : Run A) (f : A -> Run B)
    (rs1 rs2 : list (option string * bool)) :
  reports m rs1 -> (forall a, reports (f a) rs2) -> reports (m ≫= f) (rs1 ++ rs2).
Proof.
  intros Hm Hf s. destruct (Hm s) as (a & more1 & Hrun & Hrep).
  destruct (Hf a {| evidence_counter := evidence_counter s + length rs1;
                    evidence := evidence s ++ more1 |})
    as (b & more2 & Hrun2 & Hrep2).
  exists b, (more1 ++ more2). split.
  - unfold mbind, StateExc_bind. rewrite Hrun, Hrun2. cbn [evidence_counter evidence].
    rewrite length_app, Nat.add_assoc, <- app_assoc. reflexivity.
  - rewrite map_app, Hrep, Hrep2. reflexivity.
Qed.

Lemma reports_for_each {A : Type} (l : list A) (body : A -> Run unit)
    (g : A -> list (option string * bool)) :
  (forall x, reports (body x) (g x)) -> reports (for_each l body) (flat_map g l).
Proof.
  intros Hb. induction l as [|x l IH]; cbn [for_each flat_map].
  - apply reports_ret.
  - apply reports_bind; [apply Hb | intros _; exact IH].
Qed.

Lemma reports_for_fold {A L : Type} (l : list A) (body : A -> L -> Run L)
    (g : A -> list (option string * bool)) (acc : L) :
  (forall x acc, reports (body x acc) (g x)) ->
  reports (for_fold l body acc) (flat_map g l).
Proof.
  intros Hb. revert acc. induction l as [|x l IH]; intros acc; cbn [for_fold flat_map].
  - apply reports_ret.
  - apply reports_bind; [apply Hb | intros acc'; apply IH].
Qed.

Lemma reports_emit {A : Type} (vid : string) (mk : string -> EvidenceAtom)
    (k : Run A) (r : option string * bool) (rs : list (option string * bool)) :
  (forall i, report (mk i) = r) -> reports k rs ->
  reports (i ← _generate_evidence_id vid; _ ← append (mk i); k) (r :: rs).
Proof.
  intros Hr Hk s.
  destruct (Hk {| evidence_counter := S (evidence_counter s);
                  evidence := evidence s ++
                    [mk ("EVID_" +:+ vid +:+ "_" +:+ pad4 (S (evidence_counter s)))] |})
    as (a & more & Hrun & Hrep).
  exists a, (mk ("EVID_" +:+ vid +:+ "_" +:+ pad4 (S (evidence_counter s))) :: more).
  split.
  - unfold mbind, StateExc_bind, _generate_evidence_id, append.
    cbn [evidence_counter evidence]. rewrite Hrun. cbn [evidence_counter evidence length].
    rewrite <- app_assoc. cbn [app].
    replace (S (evidence_counter s) + length rs)%nat
      with (evidence_counter s + S (length rs))%nat by lia.
    reflexivity.
  - cbn [map]. rewrite Hr, Hrep. reflexivity.
Qed.

Lemma reports_emit_last (vid : string) (mk : string -> EvidenceAtom)
    (r : option string * bool) :
  (forall i, report (mk i) = r) ->
  reports (i ← _generate_evidence_id vid; append (mk i)) [r].
Proof.
  intros Hr s.
  exists tt, [mk ("EVID_" +:+ vid +:+ "_" +:+ pad4 (S (evidence_counter s)))].
  split.
  - unfold mbind, StateExc_bind, _generate_evidence_id, append.
    cbn [evidence_counter evidence length].
    replace (evidence_counter s + 1)%nat with (S (evidence_counter s)) by lia.
    reflexivity.
  - cbn [map]. rewrite Hr. reflexivity.
Qed.

(** The reports of a [verify] call that starts with the counter [c]. *)
Lemma reports_run_verify (m : Run unit) (rs : list (option string * bool)) (c : nat) :
  reports m rs ->
  exists atoms,
    run_verify m c = (Some atoms, (c + length atoms)%nat) /\ map report atoms = rs.
Proof.
  intros Hm. destruct (Hm {| evidence_counter := c; evidence := [] |})
    as (a & more & Hrun & Hrep).
  exists more. split; [| exact Hrep].
  unfold run_verify. rewrite Hrun. cbn [evidence_counter evidence app].
  rewrite <- Hrep, length_map. reflexivity.
Qed.

(* ===================================================================== *)
(** * The numeric-validity check                                          *)
(* ===================================================================== *)

Lemma flat_map_single {X Y : Type} (f : X -> Y) (l : list X) :
  flat_map (fun x => [f x]) l = map f l.
Proof. induction l as [|x l IH]; [reflexivity | cbn; rewrite IH; reflexivity]. Qed.

Lemma check_value_reports `{!PyBuiltins} (name : string) (v : value) :
  reports (NumericValidityChecker.check_value name v)
    [(Some name, NumericValidityChecker.is_valid_numeric_value v)].
Proof.
  unfold NumericValidityChecker.check_value.
  destruct (NumericValidityChecker.is_valid_numeric_value v); cbn [negb];
    apply reports_emit_last; intros i; reflexivity.
Qed.

Lemma numeric_verify_field_reports `{!PyBuiltins} (cfg : NumericValidityChecker.Config)
    (d : gmap string value) (field : string) :
  reports (NumericValidityChecker.verify_field cfg d field) (numeric_checks cfg d field).
Proof.
  unfold NumericValidityChecker.verify_field, numeric_checks.
  destruct (d !! field) as [v|].
  - destruct v; try apply check_value_reports.
    rewrite <- flat_map_single.
    apply reports_for_each. intros [i v]. apply check_value_reports.
  - destruct (NumericValidityChecker.check_missing cfg).
    + apply reports_emit_last. intros i. reflexivity.
    + apply reports_ret.
Qed.


(* ===================================================================== *)
(** * The range check                                                     *)
(* ===================================================================== *)

Lemma range_verify_field_reports `{!PyBuiltins} (cfg : RangeSanityChecker.Config)
    (d : gmap string value) (field : string) (deviation : option pyfloat) :
  reports (RangeSanityChecker.verify_field cfg d field deviation)
    (range_checks cfg d field).
Proof.
  unfold RangeSanityChecker.verify_field, range_checks.
  destruct (d !! field) as [v|]; [| apply reports_ret].
  destruct (RangeSanityChecker.check_range_validity cfg field v) as [is_valid error_msg].
  cbn [fst]. destruct is_valid; cbn [negb].
  - apply reports_emit; [intros i; reflexivity | apply reports_ret].
  - destruct (RangeSanityChecker.failure_severity cfg field v error_msg deviation)
      as [severity deviation'].
    apply reports_emit; [intros i; reflexivity | apply reports_ret].
Qed.

Lemma out_of_range_number (q lo hi : Q) :
  RangeSanityChecker.out_of_range (Fin q) lo hi = false <-> lo <= q /\ q <= hi.
Proof.
  unfold RangeSanityChecker.out_of_range, fgtb. cbn [fltb].
  rewrite orb_false_iff, !Qltb_ge. reflexivity.
Qed.


(* ===================================================================== *)
(** * The jump check                                                      *)
(* ===================================================================== *)

Lemma jump_verify_field_first `{!PyBuiltins} (cfg : JumpDynamicsChecker.Config)
    (task_type : string) (d : gmap string value) (field : string) (s : VState) :
  string_eqb task_type "M3" = false ->
  JumpDynamicsChecker.verify_field cfg task_type d ∅ field s = (Done tt, s).
Proof.
  intros Ht. unfold JumpDynamicsChecker.verify_field, get_value.
  rewrite lookup_empty, Ht. destruct (d !! field); reflexivity.
Qed.

Lemma jump_for_each_first `{!PyBuiltins} (cfg : JumpDynamicsChecker.Config)
    (task_type : string) (d : gmap string value) (l : list string) (s : VState) :
  string_eqb task_type "M3" = false ->
  for_each l (JumpDynamicsChecker.verify_field cfg task_type d ∅) s = (Done tt, s).
Proof.
  intros Ht. induction l as [|f l IH]; [reflexivity |].
  cbn [for_each]. unfold mbind, StateExc_bind.
  rewrite jump_verify_field_first by exact Ht. exact IH.
Qed.

(** X17.  On the tasks S1 and M1 the jump check compares a prediction with
    the previous prediction of the same model; for the first sample of
    a model there is none, and the check returns no atom at all (not
    even passing ones) and draws no identifier. *)
Theorem first_sample_has_no_jump_evidence `{!PyBuiltins}
    (cfg : JumpDynamicsChecker.Config) (ctx : Context) (c : nat) :
  task_type ctx <> "M3" ->
  previous_predictions ctx !! model_name (ctx_model_output ctx) = None ->
  run_verify (JumpDynamicsChecker.verify cfg ctx) c = (Some [], c).
Proof.
  intros Ht Hp. unfold run_verify, JumpDynamicsChecker.verify. rewrite Hp.
  destruct (json_data ctx) as [d|]; [| reflexivity].
  cbn [default from_option].
  rewrite jump_for_each_first; [reflexivity |].
  unfold string_eqb. apply String.eqb_neq, Ht.
Qed.

Lemma first_sample_has_no_jump_evidence_witness :
  task_type (example_context "S1" latitude_only ∅) <> "M3" /\
  previous_predictions (example_context "S1" latitude_only ∅)
    !! model_name (ctx_model_output (example_context "S1" latitude_only ∅)) = None /\
  run_verify (JumpDynamicsChecker.verify example_jump_config
                (example_context "S1" latitude_only ∅)) 0 = (Some [], 0%nat).
Proof.
  assert (H1 : task_type (example_context "S1" latitude_only ∅) <> "M3")
    by discriminate.
  assert (H2 : previous_predictions (example_context "S1" latitude_only ∅)
                 !! model_name (ctx_model_output (example_context "S1" latitude_only ∅))
               = None) by reflexivity.
  split; [exact H1 |]. split; [exact H2 |].
  exact (first_sample_has_no_jump_evidence example_jump_config
           (example_context "S1" latitude_only ∅) 0 H1 H2).
Defined.

Lemma Qabs_minus_sym (a b : Q) : Qabs (a - b) == Qabs (b - a).
Proof.
  assert (E : a - b == - (b - a)) by ring.
  rewrite E. apply Qabs_opp.
Qed.


(* ===================================================================== *)
(** * The continuity rule of the physics check                            *)
(* ===================================================================== *)

Lemma fgtb_not_nan (a b : pyfloat) : fgtb a b = true -> a <> NaN /\ b <> NaN.
Proof. destruct a, b; cbn; intros H; split; congruence. Qed.

Lemma fgtb_false_fleb (a b : pyfloat) :
  a <> NaN -> b <> NaN -> fgtb a b = false -> fleb a b = true.
Proof.
  destruct a as [x| | |], b as [y| | |]; cbn; intros Ha Hb H;
    try congruence; try reflexivity.
  apply Qleb_le. apply Qltb_ge in H. exact H.
Qed.

Lemma fgtb_true_fleb (a b : pyfloat) : fgtb a b = true -> fleb b a = true.
Proof.
  destruct a as [x| | |], b as [y| | |]; cbn; intros H;
    try congruence; try reflexivity.
  apply Qleb_le. apply Qltb_lt in H. apply Qlt_le_weak, H.
Qed.

Lemma fleb_refl (a : pyfloat) : a <> NaN -> fleb a a = true.
Proof. destruct a; cbn; intros H; try congruence. apply Qleb_le, Qle_refl. Qed.

Lemma fleb_trans (a b c : pyfloat) :
  fleb a b = true -> fleb b c = true -> fleb a c = true.
Proof.
  destruct a as [x| | |], b as [y| | |], c as [z| | |]; cbn; intros H1 H2;
    try congruence; try reflexivity.
  apply Qleb_le. apply Qleb_le in H1, H2. eapply Qle_trans; eassumption.
Qed.

(** [max(violations, key=...)] returns a member whose change is the
    largest. *)
Lemma max_violation_greatest (vs : list PhysicsConstraintChecker.Violation) :
  forall best : PhysicsConstraintChecker.Violation,
  Forall (fun v => PhysicsConstraintChecker.change v <> NaN) (best :: vs) ->
  In (PhysicsConstraintChecker.max_violation best vs) (best :: vs) /\
  Forall (fun v => fleb (PhysicsConstraintChecker.change v)
                     (PhysicsConstraintChecker.change
                        (PhysicsConstraintChecker.max_violation best vs)) = true)
    (best :: vs).
Proof.
  unfold PhysicsConstraintChecker.max_violation.
  induction vs as [|v vs IH]; intros best Hn.
  - cbn [fold_left]. split; [left; reflexivity |].
    constructor; [| constructor]. apply fleb_refl. inversion Hn; assumption.
  - cbn [fold_left].
    inversion Hn as [|? ? Hb Hrest]; subst. inversion Hrest as [|? ? Hv Hvs]; subst.
    destruct (fgtb (PhysicsConstraintChecker.change v)
                (PhysicsConstraintChecker.change best)) eqn:Hgt.
    + destruct (IH v ltac:(constructor; assumption)) as [Hin Hall].
      split; [right; exact Hin |].
      inversion Hall as [|? ? Hv' Hvs']; subst.
      constructor; [| constructor; assumption].
      eapply fleb_trans; [apply fgtb_true_fleb, Hgt | exact Hv'].
    + destruct (IH best ltac:(constructor; assumption)) as [Hin Hall].
      split; [destruct Hin as [<-|Hin]; [left; reflexivity | right; right; exact Hin] |].
      inversion Hall as [|? ? Hb' Hvs']; subst.
      constructor; [exact Hb' |]. constructor; [| exact Hvs'].
      apply (fleb_trans _ (PhysicsConstraintChecker.change best));
        [apply fgtb_false_fleb; assumption | exact Hb'].
Qed.

Lemma collect_violations_exceed `{!PyBuiltins} (std : Standards)
    (cfg : PhysicsConstraintChecker.Config) (field : string) (rest : list value) :
  forall (i : nat) (prev_v : value) (violations : list PhysicsConstraintChecker.Violation),
  let exceeds v :=
    PhysicsConstraintChecker.threshold v =
      PhysicsConstraintChecker.continuity_threshold std cfg field /\
    fgtb (PhysicsConstraintChecker.change v) (PhysicsConstraintChecker.threshold v) = true in
  Forall exceeds violations ->
  Forall exceeds
    (PhysicsConstraintChecker.collect_violations std cfg field i prev_v rest violations).
Proof.
  induction rest as [|curr_v rest IH]; intros i prev_v violations exceeds Hv.
  - exact Hv.
  - cbn [PhysicsConstraintChecker.collect_violations]. apply IH.
    destruct (float_ prev_v) as [prev|]; [| exact Hv].
    destruct (float_ curr_v) as [curr|]; [| exact Hv].
    destruct (fgtb _ _) eqn:Hgt; [| exact Hv].
    apply Forall_app. split; [exact Hv |].
    constructor; [| constructor]. split; [reflexivity | exact Hgt].
Qed.



(* ===================================================================== *)
(** * The scored safety check                                             *)
(* ===================================================================== *)

Lemma scored_atom_on_level (id field : string) (s : pyfloat) msg meta :
  is_level s ->
  on_safety_level (SafetyConstraintCheckerV2.scored_atom id field s msg meta).
Proof.
  intros Hs. split; [reflexivity |]. split; [reflexivity |].
  exists s. split; [reflexivity |].
  destruct Hs as [<-|[<-|[<-|[<-|[<-|[]]]]]]; cbn; auto 10.
Qed.

Lemma ladder_level (x : pyfloat) (t1 t2 t3 t4 : Q) :
  is_level (SafetyConstraintCheckerV2.ladder x t1 t2 t3 t4).
Proof.
  unfold SafetyConstraintCheckerV2.ladder, is_level.
  repeat match goal with |- context [if ?b then _ else _] => destruct b end;
    cbn; auto 10.
Qed.

Lemma airspeed_score_level (avg_error avg_rel_error max_error : pyfloat) errors :
  is_level (SafetyConstraintCheckerV2._calculate_airspeed_safety_score
              avg_error avg_rel_error max_error errors).
Proof.
  unfold SafetyConstraintCheckerV2._calculate_airspeed_safety_score, is_level.
  cbn zeta.
  repeat match goal with |- context [if fgeb ?a ?b then _ else _] => destruct (fgeb a b) end;
    cbn; auto 10.
Qed.

Lemma py_min_level (s : pyfloat) : is_level s -> is_level (py_min s (Fin 0.25)).
Proof.
  intros Hs. unfold py_min. destruct (fltb (Fin 0.25) s); [| exact Hs].
  cbn. auto 10.
Qed.

Lemma fold_left_level {X : Type} (step : pyfloat -> X -> pyfloat) (l : list X)
    (s : pyfloat) :
  (forall s x, is_level s -> is_level (step s x)) ->
  is_level s -> is_level (fold_left step l s).
Proof.
  intros Hstep. revert s. induction l as [|x l IH]; intros s Hs; cbn [fold_left].
  - exact Hs.
  - apply IH, Hstep, Hs.
Qed.

(** X20.  Every atom of the scored safety check carries one of five scores,
    and the score fixes the verdict and the severity: 1, 0.75 and 0.5
    pass, 0.25 fails as a warning and 0 fails as critical.  Without
    reference values for the sample the check gives no atom. *)
Theorem scored_safety_atoms_on_five_levels `{!PyBuiltins}
    (cfg : SafetyConstraintCheckerV2.Config) (ctx : Context) (c : nat) :
  Forall on_safety_level (atoms_of (SafetyConstraintCheckerV2.verify cfg ctx) c) /\
  (gold_data (ctx_sample ctx) = ∅ \/ json_data ctx = None ->
   run_verify (SafetyConstraintCheckerV2.verify cfg ctx) c = (Some [], c)).
Proof.
  split.
  - apply emits_atoms_of.
    unfold SafetyConstraintCheckerV2.verify,
      SafetyConstraintCheckerV2._check_airspeed_safety,
      SafetyConstraintCheckerV2._check_altitude_safety,
      SafetyConstraintCheckerV2._check_vertical_speed_safety.
    repeat emits_step; apply emits_append, scored_atom_on_level.
    + apply airspeed_score_level.
    + apply fold_left_level; [| apply ladder_level].
      intros s [[error pred] true_] Hs.
      destruct (_ && _); [apply py_min_level, Hs | exact Hs].
    + apply fold_left_level; [| apply ladder_level].
      intros s [[error pred] true_] Hs.
      destruct (_ && _); [apply py_min_level, Hs | exact Hs].
  - intros Href. unfold run_verify, SafetyConstraintCheckerV2.verify.
    destruct (negb (SafetyConstraintCheckerV2.enabled cfg)); [reflexivity |].
    destruct (json_data ctx) as [d|]; [| reflexivity].
    destruct Href as [Hg|Hj]; [| discriminate Hj].
    rewrite Hg, (bool_decide_eq_true_2 (∅ = ∅)) by reflexivity. reflexivity.
Qed.

(* ===================================================================== *)
(** * The scores of the rule-based fusion                                 *)
(* ===================================================================== *)

(** X21.  For a sample whose reference values are not available the
    rule-based fusion uses the constraint-satisfaction score in place
    of the conditional-error score, so that the total is the weighted
    sum of the availability and the constraint satisfaction alone; with
    weights that are not negative and add up to 1, and a completeness
    rate between 0 and 100, the total score lies between 0 and 100. *)
Theorem rule_scores_without_reference `{!PyBuiltins} (cfg : RuleBasedFusion.Config)
    (evidence_atoms : list EvidenceAtom) (protocol_result : ProtocolResult)
    (sample : Sample) (ctx : Context) (a : Q) :
  available (gold sample) = false ->
  get_completeness_rate protocol_result = Fin a -> 0 <= a -> a <= 100 ->
  0 <= RuleBasedFusion.availability_weight cfg ->
  0 <= RuleBasedFusion.constraint_satisfaction_weight cfg ->
  0 <= RuleBasedFusion.conditional_error_weight cfg ->
  RuleBasedFusion.availability_weight cfg
    + RuleBasedFusion.constraint_satisfaction_weight cfg
    + RuleBasedFusion.conditional_error_weight cfg == 1 ->
  let s := RuleBasedFusion.calculate_scores cfg evidence_atoms protocol_result
             sample ctx in
  availability_score s = Fin a /\
  conditional_error_score s = constraint_satisfaction_score s /\
  exists cs t : Q,
    constraint_satisfaction_score s = Fin cs /\ 0 <= cs /\ cs <= 100 /\
    total_score s = Fin t /\
    t == RuleBasedFusion.availability_weight cfg * a
         + (RuleBasedFusion.constraint_satisfaction_weight cfg
            + RuleBasedFusion.conditional_error_weight cfg) * cs /\
    0 <= t /\ t <= 100.
Proof.
  intros Hav Ha Ha0 Ha1 Hw1 Hw2 Hw3 Hsum s. subst s.
  unfold RuleBasedFusion.calculate_scores. rewrite Hav, Ha.
  cbn [availability_score conditional_error_score constraint_satisfaction_score
       total_score default from_option].
  destruct (satisfaction_score_range evidence_atoms) as (cs & Hcs & Hc0 & Hc1).
  rewrite Hcs. cbn [fmul fadd].
  split; [reflexivity |]. split; [reflexivity |].
  exists cs. eexists. split; [reflexivity |]. split; [exact Hc0 |]. split; [exact Hc1 |].
  split; [reflexivity |].
  set (w1 := RuleBasedFusion.availability_weight cfg) in *.
  set (w2 := RuleBasedFusion.constraint_satisfaction_weight cfg) in *.
  set (w3 := RuleBasedFusion.conditional_error_weight cfg) in *.
  split; [ring |]. split; nra.
Qed.

Lemma rule_scores_without_reference_witness :
  available (gold (example_sample "S1")) = false /\
  exists t : Q,
    total_score
      (RuleBasedFusion.calculate_scores (scoring_rules example_config) []
         (protocol_result_of None "S1") (example_sample "S1")
         (example_context "S1" latitude_only ∅)) = Fin t /\
    0 <= t /\ t <= 100.
Proof.
  assert (H1 : available (gold (example_sample "S1")) = false) by reflexivity.
  split; [exact H1 |].
  destruct (rule_scores_without_reference (scoring_rules example_config) []
              (protocol_result_of None "S1") (example_sample "S1")
              (example_context "S1" latitude_only ∅) 0.0 H1 eq_refl
              ltac:(discriminate) ltac:(discriminate) ltac:(discriminate)
              ltac:(discriminate) ltac:(discriminate) ltac:(reflexivity))
    as (_ & _ & cs & t & _ & _ & _ & Ht & _ & H0 & H100).
  exists t. auto.
Defined.

(* ===================================================================== *)
(** * The mean of grade scores                                            *)
(* ===================================================================== *)

Lemma grade_sum (gs : list Grade) :
  forall acc : Q,
  exists q : Q,
    fold_left fadd (map (fun g => Fin (GRADE_SCORE_MAP g)) gs) (Fin acc) = Fin q /\
    acc <= q /\ q <= acc + inject_Z (Z.of_nat (length gs)) /\
    (q == acc + inject_Z (Z.of_nat (length gs)) <-> Forall (fun g => g = A) gs) /\
    (q == acc <-> Forall (fun g => g = D) gs).
Proof.
  induction gs as [|g gs IH]; intros acc.
  - exists acc. cbn [map fold_left length]. change (inject_Z (Z.of_nat 0)) with 0.
    split; [reflexivity |]. split; [lra |]. split; [lra |].
    split; (split; [intros _; constructor | intros _; lra]).
  - cbn [map fold_left fadd].
    destruct (IH (acc + GRADE_SCORE_MAP g)) as (q & Hq & H0 & H1 & HA & HD).
    exists q. split; [exact Hq |].
    assert (Hlen : inject_Z (Z.of_nat (length (g :: gs))) ==
                   1 + inject_Z (Z.of_nat (length gs))).
    { cbn [length]. rewrite Nat2Z.inj_succ. unfold Z.succ. rewrite inject_Z_plus.
      change (inject_Z 1) with 1. ring. }
    rewrite Hlen.
    pose proof (grade_score_bounds g) as [Hg0 Hg1].
    split; [lra |]. split; [lra |]. split.
    + split.
      * intros E. assert (Hone : GRADE_SCORE_MAP g == 1) by lra.
        constructor.
        -- destruct g; cbn in Hone; try reflexivity; lra.
        -- apply HA. lra.
      * intros Hall. inversion Hall as [|? ? Hg Hgs]; subst.
        apply HA in Hgs. cbn [GRADE_SCORE_MAP] in *. lra.
    + split.
      * intros E. assert (Hzero : GRADE_SCORE_MAP g == 0) by lra.
        constructor.
        -- destruct g; cbn in Hzero; try reflexivity; lra.
        -- apply HD. lra.
      * intros Hall. inversion Hall as [|? ? Hg Hgs]; subst.
        apply HD in Hgs. cbn [GRADE_SCORE_MAP] in *. lra.
Qed.

(** X22.  The overall score of a list of grades is the mean of their scores:
    a number between 0 and 1, which is 1 exactly when every grade is A
    and 0 exactly when every grade is D; the empty list gives 0. *)
Theorem aggregate_of_grades (grades : list Grade) :
  exists q : Q,
    aggregate_grade_scores (map (fun g => Fin (GRADE_SCORE_MAP g)) grades) = Fin q /\
    0 <= q /\ q <= 1 /\
    (grades = [] -> q == 0) /\
    (grades <> [] -> (q == 1 <-> Forall (fun g => g = A) grades)) /\
    (q == 0 <-> Forall (fun g => g = D) grades).
Proof.
  unfold aggregate_grade_scores.
  destruct grades as [|g gs].
  - exists 0.0. cbn [map]. split; [reflexivity |]. split; [lra |]. split; [lra |].
    split; [intros _; reflexivity |]. split; [congruence |].
    split; [intros _; constructor | intros _; reflexivity].
  - destruct (grade_sum (g :: gs) 0) as (s & Hs & H0 & H1 & HA & HD).
    change (match map (fun g => Fin (GRADE_SCORE_MAP g)) (g :: gs) with
            | [] => Fin 0.0
            | _ :: _ =>
                fdiv (py_sum (map (fun g => Fin (GRADE_SCORE_MAP g)) (g :: gs)))
                  (of_nat (length (map (fun g => Fin (GRADE_SCORE_MAP g)) (g :: gs))))
            end)
      with (fdiv (py_sum (map (fun g => Fin (GRADE_SCORE_MAP g)) (g :: gs)))
              (of_nat (length (map (fun g => Fin (GRADE_SCORE_MAP g)) (g :: gs))))).
    set (l := g :: gs) in *.
    unfold py_sum. rewrite Hs, length_map. unfold of_nat.
    set (n := inject_Z (Z.of_nat (length l))) in *.
    assert (Hn : 1 <= n).
    { subst n l. cbn [length]. rewrite Nat2Z.inj_succ. unfold Z.succ.
      rewrite inject_Z_plus. change (inject_Z 1) with 1.
      pose proof (inject_nat_nonneg (length gs)). lra. }
    cbn [fdiv].
    assert (Hz : Qeqb n 0 = false).
    { unfold Qeqb. destruct (n ?= 0) eqn:E; try reflexivity.
      apply Qeq_alt in E. lra. }
    rewrite Hz. exists (s / n). split; [reflexivity |].
    assert (Hr0 : 0 <= s / n) by (apply Qle_shift_div_l; lra).
    assert (Hr1 : s / n <= 1) by (apply Qle_shift_div_r; lra).
    assert (Hrn : s / n * n == s) by (field; lra).
    set (r := s / n) in *.
    split; [exact Hr0 |]. split; [exact Hr1 |].
    split; [subst l; congruence |]. split.
    + intros _. rewrite <- HA. split; intros E; nra.
    + rewrite <- HD. split; intros E; nra.
Qed.

(* ===================================================================== *)
(** * The cross-field rules                                               *)
(* ===================================================================== *)

Lemma cross_meta_timestep {X : Type} (idx k : nat) (vals : list X) :
  CrossFieldConsistencyChecker.meta_timestep idx vals = MNat k -> k = idx.
Proof.
  unfold CrossFieldConsistencyChecker.meta_timestep.
  destruct (1 <? length vals)%nat; congruence.
Qed.



